(** * File-store bot: link codec, access gate, verification, batches, broadcast

    A shallow embedding of [main.py] and the properties of its
    content-delivery pipeline.

    Conventions of the embedding.
    - A Python [str] is held as the Rocq [string] of its UTF-8 bytes, so
      ASCII literals of the source are written as they are, [str.encode()]
      is the identity and [bytes.decode()] is the UTF-8 validity check.
      A Python [bytes] object is the Rocq [string] of its bytes.
    - A Python [int] is a [Z].
    - An operation that can raise returns an [option] (or a sum); the
      handlers of the source that catch the exception are the matches on it.
    - What the bot does to the outside world (replies, copies, sleeps, HTTP
      calls) is collected as a list of [event]s; what the outside world
      answers is read from a [World] record of oracles.  Sending a reply
      and reading or writing the document store are taken to succeed. *)

From Stdlib Require Import ZArith NArith String Ascii List Lia Bool Sorted.
From Stdlib Require Import Decimal DecimalString DecimalZ DecimalN DecimalPos.
From Stdlib Require Import SpecFloat.
From stdpp Require Import gmap strings.

Local Open Scope string_scope.
Local Open Scope list_scope.
Local Open Scope Z_scope.

(** ** Python strings *)

Module Py.

(** The byte value of a character. *)
Definition ord (c : ascii) : N := N_of_ascii c.
Definition chr (n : N) : ascii := ascii_of_N n.

Definition is_ascii_char (c : ascii) : bool := (ord c <? 128)%N.

Fixpoint isascii (s : string) : bool :=
  match s with
  | EmptyString => true
  | String c r => is_ascii_char c && isascii r
  end.

(** A UTF-8 continuation byte, [10xxxxxx]. *)
Definition is_cont (c : ascii) : bool :=
  ((128 <=? ord c) && (ord c <=? 191))%N.

(** [len(s)]: the number of code points, i.e. of bytes that do not
    continue a character. *)
Fixpoint len (s : string) : nat :=
  match s with
  | EmptyString => O
  | String c r => if is_cont c then len r else S (len r)
  end.

(** [c * n] for a one-character string [c]. *)
Fixpoint repeat_char (c : ascii) (n : nat) : string :=
  match n with
  | O => EmptyString
  | S k => String c (repeat_char c k)
  end.

(** [s.lstrip(c)], [s.rstrip(c)] and [s.strip(c)] for a one-character
    set [c]. *)
Fixpoint lstrip (c : ascii) (s : string) : string :=
  match s with
  | EmptyString => EmptyString
  | String a r => if Ascii.eqb a c then lstrip c r else s
  end.

Fixpoint rstrip (c : ascii) (s : string) : string :=
  match s with
  | EmptyString => EmptyString
  | String a r =>
      match rstrip c r with
      | EmptyString => if Ascii.eqb a c then EmptyString else String a EmptyString
      | r' => String a r'
      end
  end.

Definition strip (c : ascii) (s : string) : string := rstrip c (lstrip c s).

(** [s.startswith(p)]. *)
Definition startswith (s p : string) : bool := String.prefix p s.

(** [s[n:]]. *)
Fixpoint drop (n : nat) (s : string) : string :=
  match n, s with
  | O, _ => s
  | S k, EmptyString => EmptyString
  | S k, String _ r => drop k r
  end.

(** [s.replace(old, new)] for a nonempty [old]: the occurrences of [old]
    are found from the left and do not overlap.  [skip] counts the
    characters of an occurrence that are still to be dropped. *)
Fixpoint replace_from (old new s : string) (skip : nat) : string :=
  match s with
  | EmptyString => EmptyString
  | String c r =>
      match skip with
      | S k => replace_from old new r k
      | O =>
          if String.prefix old s
          then new +:+ replace_from old new r (String.length old - 1)
          else String c (replace_from old new r O)
      end
  end.

(** With an empty [old], Python puts [new] before every character and at
    the end. *)
Fixpoint intersperse (new s : string) : string :=
  match s with
  | EmptyString => new
  | String c r =>
      if is_cont c then String c (intersperse new r)
      else new +:+ String c (intersperse new r)
  end.

Definition replace (s old new : string) : string :=
  match old with
  | EmptyString => intersperse new s
  | _ => replace_from old new s O
  end.

(** [s.split(sep)] for a one-character separator: the list of the
    segments between the separators, never empty. *)
Fixpoint split (sep : ascii) (s : string) : list string :=
  match s with
  | EmptyString => [EmptyString]
  | String c r =>
      if Ascii.eqb c sep then EmptyString :: split sep r
      else match split sep r with
           | seg :: segs => String c seg :: segs
           | [] => [String c EmptyString]
           end
  end.

(** [l[i]] raises [IndexError] out of range; [l[-1]] is the last item. *)
Definition index {A} (l : list A) (i : nat) : option A := nth_error l i.
Definition index_last {A} (l : list A) : option A := nth_error (rev l) 0.

End Py.

(** ** Python text: UTF-8, [int(str)] and [str(int)] *)

Module PyInt.
Import Py.
Local Open Scope N_scope.

Definition cons_opt {A} (x : A) (o : option (list A)) : option (list A) :=
  match o with
  | Some l => Some (x :: l)
  | None => None
  end.

Definition in_range (lo hi : N) (c : ascii) : bool :=
  (lo <=? ord c) && (ord c <=? hi).

(** The payload bits of a continuation byte. *)
Definition cont_bits (c : ascii) : N := N.land (ord c) 63.

(** The code points of a UTF-8 byte string, as CPython's strict decoder
    reads them: [None] is [UnicodeDecodeError] (a stray or missing
    continuation byte, an overlong form, a surrogate, a value above
    U+10FFFF). *)
Fixpoint utf8_code_points (s : string) : option (list N) :=
  match s with
  | EmptyString => Some []
  | String c0 r0 =>
      if ord c0 <? 128 then cons_opt (ord c0) (utf8_code_points r0)
      else if in_range 194 223 c0 then
        match r0 with
        | String c1 r1 =>
            if is_cont c1
            then cons_opt (N.lor (N.shiftl (N.land (ord c0) 31) 6) (cont_bits c1))
                          (utf8_code_points r1)
            else None
        | _ => None
        end
      else if in_range 224 239 c0 then
        match r0 with
        | String c1 (String c2 r2) =>
            if (if ord c0 =? 224 then in_range 160 191 c1
                else if ord c0 =? 237 then in_range 128 159 c1
                else is_cont c1) && is_cont c2
            then cons_opt (N.lor (N.shiftl (N.land (ord c0) 15) 12)
                             (N.lor (N.shiftl (cont_bits c1) 6) (cont_bits c2)))
                          (utf8_code_points r2)
            else None
        | _ => None
        end
      else if in_range 240 244 c0 then
        match r0 with
        | String c1 (String c2 (String c3 r3)) =>
            if (if ord c0 =? 240 then in_range 144 191 c1
                else if ord c0 =? 244 then in_range 128 143 c1
                else is_cont c1) && is_cont c2 && is_cont c3
            then cons_opt (N.lor (N.shiftl (N.land (ord c0) 7) 18)
                             (N.lor (N.shiftl (cont_bits c1) 12)
                                (N.lor (N.shiftl (cont_bits c2) 6) (cont_bits c3))))
                          (utf8_code_points r3)
            else None
        | _ => None
        end
      else None
  end.

(** [b.decode()]: the text of UTF-8 bytes, or [UnicodeDecodeError]. *)
Definition bytes_decode (b : string) : option string :=
  match utf8_code_points b with
  | Some _ => Some b
  | None => None
  end.

(** [Py_UNICODE_ISSPACE] (Unicode 14, the table of CPython 3.11). *)
Definition Py_UNICODE_ISSPACE (ch : N) : bool :=
  ((9 <=? ch) && (ch <=? 13)) || ((28 <=? ch) && (ch <=? 32))
  || (ch =? 133) || (ch =? 160) || (ch =? 5760)
  || ((8192 <=? ch) && (ch <=? 8202))
  || (ch =? 8232) || (ch =? 8233) || (ch =? 8239) || (ch =? 8287)
  || (ch =? 12288).

(** The code points of the digit zero of every decimal digit block
    (general category Nd, Unicode 14); the digits 1 to 9 of a block follow
    its zero. *)
Definition decimal_zeros : list N :=
  [48; 1632; 1776; 1984; 2406; 2534; 2662; 2790; 2918; 3046; 3174; 3302;
   3430; 3558; 3664; 3792; 3872; 4160; 4240; 6112; 6160; 6470; 6608; 6784;
   6800; 6992; 7088; 7232; 7248; 42528; 43216; 43264; 43472; 43504; 43600;
   44016; 65296; 66720; 68912; 69734; 69872; 69942; 70096; 70384; 70736;
   70864; 71248; 71360; 71472; 71904; 72016; 72784; 73040; 73120; 92768;
   92864; 93008; 120782; 120792; 120802; 120812; 120822; 123200; 123632;
   125264; 130032].

(** [Py_UNICODE_TODECIMAL]: the value of a decimal digit, [None] for -1. *)
Definition Py_UNICODE_TODECIMAL (ch : N) : option N :=
  match List.find (fun z => (z <=? ch) && (ch <? z + 10)) decimal_zeros with
  | Some z => Some (ch - z)
  | None => None
  end.

(** [_PyUnicode_TransformDecimalAndSpaceToASCII]: an ASCII text is kept
    as it is; in any other text a space becomes [' '], a decimal digit its
    ASCII digit, and the first other character above U+007E becomes ['?']
    and ends the text. *)
Fixpoint transform_loop (cps : list N) : string :=
  match cps with
  | [] => EmptyString
  | ch :: r =>
      if ch <? 127 then String (chr ch) (transform_loop r)
      else if Py_UNICODE_ISSPACE ch then String " " (transform_loop r)
      else match Py_UNICODE_TODECIMAL ch with
           | Some d => String (chr (48 + d)) (transform_loop r)
           | None => "?"
           end
  end.

Definition TransformDecimalAndSpaceToASCII (cps : list N) : string :=
  if forallb (fun ch => ch <? 128) cps
  then string_of_list_ascii (map chr cps)
  else transform_loop cps.

(** [Py_ISSPACE]: the C locale's white space. *)
Definition Py_ISSPACE (c : ascii) : bool :=
  in_range 9 13 c || (ord c =? 32).

Fixpoint skip_space (s : string) : string :=
  match s with
  | String c r => if Py_ISSPACE c then skip_space r else s
  | EmptyString => EmptyString
  end.

(** [_PyLong_DigitValue] below base 10. *)
Definition digit_value (c : ascii) : option N :=
  if in_range 48 57 c then Some (ord c - 48) else None.

(** What the scan of [PyLong_FromString] has seen: the previous character
    was an underscore, the value of the digits read, their number. *)
Record scan_state := { prev_underscore : bool; value : N; digits : nat }.

(** The scan over digits and underscores; it stops at the first other
    character and returns the rest.  [None]: two underscores in a row. *)
Fixpoint scan_digits (s : string) (st : scan_state) : option (scan_state * string) :=
  match s with
  | EmptyString => Some (st, s)
  | String c r =>
      if Ascii.eqb c "_" then
        if prev_underscore st then None
        else scan_digits r {| prev_underscore := true; value := value st; digits := digits st |}
      else match digit_value c with
           | Some d =>
               scan_digits r {| prev_underscore := false;
                                value := 10 * value st + d;
                                digits := S (digits st) |}
           | None => Some (st, s)
           end
  end.

(** [sys.int_info.default_max_str_digits]. *)
Definition max_str_digits : nat := 4300.

(** [PyLong_FromString(s, &end, 10)] together with the test of its
    caller that the whole text was read.  [None] is [ValueError]. *)
Definition PyLong_FromString (s : string) : option Z :=
  let s := skip_space s in
  let '(negative, s) :=
    match s with
    | String "+" r => (false, r)
    | String "-" r => (true, r)
    | _ => (false, s)
    end in
  match s with
  | String "_" _ => None
  | _ =>
      match scan_digits s {| prev_underscore := false; value := 0; digits := O |} with
      | None => None
      | Some (st, rest) =>
          if prev_underscore st then None
          else if (max_str_digits <? digits st)%nat then None
          else if (digits st =? 0)%nat then None
          else match skip_space rest with
               | EmptyString =>
                   Some (if negative then (- Z.of_N (value st))%Z else Z.of_N (value st))
               | _ => None
               end
      end
  end.

(** [int(s)] for a str [s]. *)
Definition int (s : string) : option Z :=
  match utf8_code_points s with
  | Some cps => PyLong_FromString (TransformDecimalAndSpaceToASCII cps)
  | None => None
  end.

(** [str(n)] for an int [n]: the decimal digits, without leading zeros,
    after a minus sign when [n] is negative.  (From CPython 3.11 on,
    [str] raises for an int of more than [max_str_digits] digits; the
    theorems below stay under that bound.) *)
Definition str (n : Z) : string := NilZero.string_of_int (Z.to_int n).

End PyInt.

(** ** The [base64] module *)

Module Base64.
Import Py.
Local Open Scope N_scope.

(** [table_b2a_base64], the standard alphabet. *)
Definition table_b2a_base64 : string :=
  "ABCDEFGHIJKLMNOPQRSTUVWXYZabcdefghijklmnopqrstuvwxyz0123456789+/".

Definition b2a_char (n : N) : ascii :=
  match String.get (N.to_nat n) table_b2a_base64 with
  | Some c => c
  | None => "A"%char
  end.

(** [binascii.b2a_base64(data, newline=False)]: three bytes give four
    characters; a last group of one or two bytes is padded with ['=']. *)
Fixpoint b2a_base64 (data : string) : string :=
  match data with
  | EmptyString => EmptyString
  | String a EmptyString =>
      String (b2a_char (N.shiftr (ord a) 2))
        (String (b2a_char (N.shiftl (N.land (ord a) 3) 4)) "==")
  | String a (String b EmptyString) =>
      String (b2a_char (N.shiftr (ord a) 2))
        (String (b2a_char (N.lor (N.shiftl (N.land (ord a) 3) 4) (N.shiftr (ord b) 4)))
           (String (b2a_char (N.shiftl (N.land (ord b) 15) 2)) "="))
  | String a (String b (String c r)) =>
      String (b2a_char (N.shiftr (ord a) 2))
        (String (b2a_char (N.lor (N.shiftl (N.land (ord a) 3) 4) (N.shiftr (ord b) 4)))
           (String (b2a_char (N.lor (N.shiftl (N.land (ord b) 15) 2) (N.shiftr (ord c) 6)))
              (String (b2a_char (N.land (ord c) 63)) (b2a_base64 r))))
  end.

(** [bytes.translate] over a table that exchanges two pairs of
    characters. *)
Fixpoint translate (f : ascii -> ascii) (s : string) : string :=
  match s with
  | EmptyString => EmptyString
  | String c r => String (f c) (translate f r)
  end.

Definition urlsafe_encode_translation (c : ascii) : ascii :=
  if Ascii.eqb c "+" then "-"%char
  else if Ascii.eqb c "/" then "_"%char else c.

Definition urlsafe_decode_translation (c : ascii) : ascii :=
  if Ascii.eqb c "-" then "+"%char
  else if Ascii.eqb c "_" then "/"%char else c.

(** [base64.urlsafe_b64encode(s)]. *)
Definition urlsafe_b64encode (s : string) : string :=
  translate urlsafe_encode_translation (b2a_base64 s).

(** [table_a2b_base64]: the value of a character of the alphabet. *)
Definition table_a2b_base64 (c : ascii) : option N :=
  let n := ord c in
  if (65 <=? n) && (n <=? 90) then Some (n - 65)
  else if (97 <=? n) && (n <=? 122) then Some (n - 97 + 26)
  else if (48 <=? n) && (n <=? 57) then Some (n - 48 + 52)
  else if n =? 43 then Some 62
  else if n =? 47 then Some 63
  else None.

(** [unsigned char] arithmetic of the decoder. *)
Definition u8 (n : N) : ascii := chr (n mod 256).

Definition emit (c : ascii) (o : option string) : option string :=
  match o with
  | Some s => Some (String c s)
  | None => None
  end.

(** [binascii.a2b_base64(data, strict_mode=False)], the loop of the C
    function: [quad_pos] is the position in the current group of four,
    [leftchar] the bits carried over, [pads] the padding seen since the
    last character of the alphabet.  A character outside the alphabet is
    skipped; padding ends the data once it completes a group that holds at
    least two characters, and is skipped otherwise.  [None] is
    [binascii.Error] (the data ends inside a group). *)
Fixpoint a2b_loop (data : string) (quad_pos leftchar pads : N) : option string :=
  match data with
  | EmptyString => if quad_pos =? 0 then Some EmptyString else None
  | String this_ch r =>
      if Ascii.eqb this_ch "=" then
        if 2 <=? quad_pos then
          if 4 <=? quad_pos + (pads + 1) then Some EmptyString
          else a2b_loop r quad_pos leftchar (pads + 1)
        else a2b_loop r quad_pos leftchar pads
      else
        match table_a2b_base64 this_ch with
        | None => a2b_loop r quad_pos leftchar pads
        | Some v =>
            if quad_pos =? 0 then a2b_loop r 1 v 0
            else if quad_pos =? 1 then
              emit (u8 (N.lor (N.shiftl leftchar 2) (N.shiftr v 4)))
                   (a2b_loop r 2 (N.land v 15) 0)
            else if quad_pos =? 2 then
              emit (u8 (N.lor (N.shiftl leftchar 4) (N.shiftr v 2)))
                   (a2b_loop r 3 (N.land v 3) 0)
            else
              emit (u8 (N.lor (N.shiftl leftchar 6) v))
                   (a2b_loop r 0 0 0)
        end
  end.

Definition a2b_base64 (data : string) : option string := a2b_loop data 0 0 0.

(** [base64.urlsafe_b64decode(s)] for a str [s]: [ValueError] when [s] is
    not ASCII, then the translation of ['-'] and ['_'] and the lenient
    decoder. *)
Definition urlsafe_b64decode (s : string) : option string :=
  if isascii s
  then a2b_base64 (translate urlsafe_decode_translation s)
  else None.

End Base64.

(** ** The link codec (UTILITIES & HELPERS) *)

(** [encode(msg_id)]. *)
Definition encode (msg_id : Z) : string :=
  Py.strip "=" (Base64.urlsafe_b64encode (PyInt.str msg_id)).

(** The stages of [decode(payload)] inside its [try]; [None] when one of
    them raises. *)
Definition decode_try (payload : string) : option Z :=
  let padding := Py.repeat_char "=" (4 - Py.len payload mod 4) in
  match Base64.urlsafe_b64decode (payload +:+ padding) with
  | Some b =>
      match PyInt.bytes_decode b with
      | Some text => PyInt.int text
      | None => None
      end
  | None => None
  end.

(** [decode(payload)]: whatever is raised is caught and gives 0. *)
Definition decode (payload : string) : Z :=
  match decode_try payload with
  | Some msg_id => msg_id
  | None => 0
  end.

(** ** Python values, configuration, documents *)

(** A Python value as [json.loads] builds it, also used for a field that
    holds either a str or [None]. *)
#[warnings="-register-all"]
Inductive pyval :=
| PNone
| PBool (b : bool)
| PInt (n : Z)
| PFloat (f : spec_float)
| PStr (s : string)
| PList (l : list pyval)
| PDict (d : gmap string pyval).

(** The truth value of a Python value, as [or] and [if] test it. *)
Definition truthy (v : pyval) : bool :=
  match v with
  | PNone => false
  | PBool b => b
  | PInt n => negb (n =? 0)
  | PFloat (S754_zero _) => false
  | PFloat _ => true
  | PStr s => negb (String.eqb s EmptyString)
  | PList l => match l with [] => false | _ => true end
  | PDict d => negb (bool_decide (d = ∅))
  end.

(** [a or b]. *)
Definition py_or (a b : pyval) : pyval := if truthy a then a else b.

(** [d.get(key)]. *)
Definition dict_get (d : gmap string pyval) (key : string) : pyval :=
  match d !! key with
  | Some v => v
  | None => PNone
  end.

(** The environment variables of CONFIGURATION the pipeline reads, and
    [client.me.username]. *)
Record Config := {
  DB_CHANNEL : Z;
  LOG_CHANNEL : Z;
  FORCE_SUB_CHANNELS : list Z;
  PROTECT_CONTENT : bool;
  AUTO_DELETE_TIME : Z;
  SHORTENER_URLS : list string;
  username : string
}.

(** A document of [users_col]; [date] is left out. *)
Record user_doc := {
  _id : Z;
  name : string;
  is_premium : bool;
  banned : bool
}.

(** A document of [batches_col]; [date] is left out. *)
Record batch_doc := {
  batch_id : string;
  range_ids : list Z
}.

(** [users_col] and [batches_col]: [None] when MongoDB is not connected.
    A collection holds its documents in the order of their insertion, which
    is the order of a cursor over it and the order in which [find_one]
    looks for a match. *)
Definition users_collection : Type := option (list user_doc).
Definition batches_collection : Type := option (list batch_doc).

(** ** The outside world *)

Inductive ChatMemberStatus :=
| OWNER | ADMINISTRATOR | MEMBER | RESTRICTED | LEFT | BANNED.

(** What [client.get_chat_member] does: it returns a member, raises
    [UserNotParticipant], or raises something else. *)
Inductive member_lookup :=
| Member (status : ChatMemberStatus)
| UserNotParticipant
| LookupError.

(** What [client.get_chat] does: it returns a chat with its
    [invite_link] (a str or [None]), or raises. *)
Inductive chat_lookup :=
| Chat (invite_link : pyval)
| ChatError.

(** What [message.reply_to_message.copy] does in the broadcast. *)
Inductive send_result :=
| Sent
| FloodWait (value : Z)
| SendFailed.

(** What [session.get(api_url)] followed by [resp.json()] does: a parsed
    body, or any exception (no connection, a body that is not JSON). *)
Inductive http_result :=
| HttpJson (data : pyval)
| HttpFailed.

Record World := {
  get_chat_member : Z -> Z -> member_lookup;
  get_chat : Z -> chat_lookup;
  (** [client.copy_message(chat_id, from_chat_id, message_id)]: the id of
      the copy, or [None] when it raises. *)
  copy_message : Z -> Z -> Z -> option Z;
  (** [message.reply_to_message.copy(user_id)], by user and by attempt. *)
  message_copy : Z -> nat -> send_result;
  http_get_json : string -> http_result;
  (** The random source: [randbelow n] is below [n]. *)
  randbelow : nat -> nat;
  (** [random.choices(population, k=k)] joined into a str. *)
  random_choices : string -> nat -> string
}.

(** An update [/command arg ...]: [message.from_user], [message.command],
    and the id of [message.reply_to_message] when there is one. *)
Record Message := {
  from_user_id : Z;
  first_name : string;
  command : list string;
  reply_to_message : option Z
}.

(** ** What the bot does *)

Inductive exn :=
| IndexError
| ValueError
| SendError (r : send_result).

(** The captions of the buttons. *)
Inductive label :=
| LblSearch          (* "Search Files" *)
| LblMyAccount       (* "My Account" *)
| LblHelp            (* "Help" *)
| LblJoinChannel (n : nat)   (* f"Join Channel {i+1}" *)
| LblTryAgain        (* "Try Again" *)
| LblUnlock          (* "Click to Unlock File" *)
| LblShareBatch.     (* "Share Batch" *)

Inductive button :=
| UrlButton (l : label) (url : pyval)
| CallbackButton (l : label) (callback_data : string)
| SwitchInlineButton (l : label) (query : string).

(** The texts the bot sends, by their variable parts. *)
Inductive text :=
| TNewUser (name : string) (user_id : Z)  (* "New User Started Bot" *)
| TBanned                                 (* "You are BANNED from using this bot." *)
| THome (first_name : string)             (* "Hello {first_name}!" *)
| TAccessDenied                           (* "Access Denied!" *)
| TBatchNotFound                          (* "Batch Not Found." *)
| TProcessing (files : nat)               (* "Processing {n} files..." *)
| TInvalidLink                            (* "Invalid Link" *)
| TErrorFetching                          (* "Error Fetching File." *)
| TDeleteNote (mins : Z)                  (* "File will be deleted in {mins} mins" *)
| TSecureLink                             (* "Secure Link Generated!" *)
| TMongoRequired                          (* "MongoDB Required for Batches" *)
| TReplyToFirst                           (* "Reply to the First Message in DB Channel" *)
| TBatchCreated (files : nat) (link : string)  (* "Batch Created Successfully!" *)
| TError (e : exn)                        (* f"Error: {e}" *)
| TNoDB                                   (* "No DB Connected" *)
| TBroadcastStarted                       (* "Broadcast Started..." *)
| TBroadcastCompleted (total success failed : nat).  (* "Broadcast Completed!" *)

(** A message the bot has sent and still holds: a copy, or a reply. *)
Inductive sent_message :=
| Copied (message_id : Z)
| Replied (t : text).

(** [asyncio.sleep(0.8)] is [Tenths 8]; [asyncio.sleep(e.value)] is
    [Seconds value]. *)
Inductive duration :=
| Seconds (n : Z)
| Tenths (n : Z).

Inductive event :=
| Reply (t : text) (reply_markup : list (list button))
| SendMessage (chat_id : Z) (t : text)
| CopyMessage (chat_id from_chat_id message_id : Z) (protect_content : bool)
| BroadcastCopy (user_id : Z)
| CreateAutoDeleteTask (msg : sent_message) (delay : Z)
| Sleep (d : duration)
| DeleteMessage (msg : sent_message)
| EditMessage (msg : sent_message) (t : text)
| HttpGet (api_url : string)
| Raise (e : exn).

(** ** [urllib.parse.quote] and [random.choice] *)

Module Urllib.
Import Py.
Local Open Scope N_scope.

(** [_ALWAYS_SAFE] and the default [safe='/']. *)
Definition is_safe (c : ascii) : bool :=
  let n := ord c in
  ((65 <=? n) && (n <=? 90)) || ((97 <=? n) && (n <=? 122))
  || ((48 <=? n) && (n <=? 57))
  || (n =? 95) || (n =? 46) || (n =? 45) || (n =? 126) || (n =? 47).

Definition hex_digit (n : N) : ascii :=
  match String.get (N.to_nat n) "0123456789ABCDEF" with
  | Some c => c
  | None => "0"%char
  end.

(** [quote(s)]: every byte of the UTF-8 text that is not safe becomes
    [%XX]. *)
Fixpoint quote (s : string) : string :=
  match s with
  | EmptyString => EmptyString
  | String c r =>
      if is_safe c then String c (quote r)
      else String "%" (String (hex_digit (ord c / 16))
                         (String (hex_digit (ord c mod 16)) (quote r)))
  end.

End Urllib.

(** [random.choice(seq)] for a nonempty [seq] is [seq[randbelow(len(seq))]];
    the [mod] keeps the index in range whatever the oracle answers. *)
Definition random_choice (w : World) (seq : list string) : string :=
  nth (randbelow w (length seq) mod length seq)%nat seq EmptyString.

(** [string.ascii_letters + string.digits]. *)
Definition ascii_letters_digits : string :=
  "abcdefghijklmnopqrstuvwxyzABCDEFGHIJKLMNOPQRSTUVWXYZ0123456789".

(** [f"https://t.me/{client.me.username}?start={payload}"]. *)
Definition start_link (cfg : Config) (payload : string) : string :=
  "https://t.me/" +:+ username cfg +:+ "?start=" +:+ payload.

(** ** DATABASE ENGINE *)

(** [find_one({"_id": user_id})]: the first document that matches. *)
Definition find_user (col : list user_doc) (user_id : Z) : option user_doc :=
  List.find (fun doc => _id doc =? user_id) col.

(** [add_user(user_id, name)]: the new collection and the log message. *)
Definition add_user (cfg : Config) (users_col : users_collection)
    (user_id : Z) (name : string) : users_collection * list event :=
  match users_col with
  | Some col =>
      match find_user col user_id with
      | Some _ => (users_col, [])
      | None =>
          (Some (col ++ [{| _id := user_id; name := name;
                            is_premium := false; banned := false |}]),
           if LOG_CHANNEL cfg =? 0 then []
           else [SendMessage (LOG_CHANNEL cfg) (TNewUser name user_id)])
      end
  | None => (None, [])
  end.

(** [get_user(user_id)]. *)
Definition get_user (users_col : users_collection) (user_id : Z) : option user_doc :=
  match users_col with
  | Some col => find_user col user_id
  | None => None
  end.

(** [get_total_users()]. *)
Definition get_total_users (users_col : users_collection) : nat :=
  match users_col with
  | Some col => length col
  | None => O
  end.

(** [get_all_users()]: the [_id]s in the order of the cursor. *)
Definition get_all_users (users_col : users_collection) : list Z :=
  match users_col with
  | Some col => map _id col
  | None => []
  end.

(** [save_batch(range_ids)]: the new id and the collection with the new
    document after the others. *)
Definition save_batch (w : World) (batches_col : batches_collection)
    (range_ids : list Z) : option string * batches_collection :=
  match batches_col with
  | Some col =>
      let batch_id := random_choices w ascii_letters_digits 8 in
      (Some batch_id,
       Some (col ++ [{| batch_id := batch_id; range_ids := range_ids |}]))
  | None => (None, None)
  end.

(** [find_one({"batch_id": batch_id})]: the first document that matches. *)
Definition find_batch (col : list batch_doc) (id : string) : option batch_doc :=
  List.find (fun doc => String.eqb (batch_id doc) id) col.

(** [get_batch(batch_id)]. *)
Definition get_batch (batches_col : batches_collection) (id : string) : option batch_doc :=
  match batches_col with
  | Some col => find_batch col id
  | None => None
  end.

(** ** Shortener *)

(** The [api_url] of [get_short_link]: the template drawn from
    [SHORTENER_URLS] with the quoted link in it. *)
Definition shortener_api_url (cfg : Config) (w : World) (long_url : string) : string :=
  let shortener_template := random_choice w (SHORTENER_URLS cfg) in
  Py.replace shortener_template "{link}" (Urllib.quote long_url).

(** [get_short_link(long_url)]: what it returns and the HTTP call it
    makes. *)
Definition get_short_link (cfg : Config) (w : World) (long_url : string)
    : pyval * list event :=
  match SHORTENER_URLS cfg with
  | [] => (PStr long_url, [])
  | _ =>
      let api_url := shortener_api_url cfg w long_url in
      (match http_get_json w api_url with
       | HttpJson (PDict data) =>
           py_or (dict_get data "shortenedUrl")
             (py_or (dict_get data "url")
                (py_or (dict_get data "short_url") (PStr long_url)))
       | HttpJson _ => PStr long_url     (* AttributeError, caught *)
       | HttpFailed => PStr long_url     (* caught *)
       end,
       [HttpGet api_url])
  end.

(** ** FORCE SUBSCRIBE CHECKER *)

(** One turn of the loop of [check_force_sub]. *)
Definition check_channel (w : World) (user_id : Z) (missing : list Z)
    (channel_id : Z) : list Z :=
  match get_chat_member w channel_id user_id with
  | Member BANNED | Member LEFT => missing ++ [channel_id]
  | Member _ => missing
  | UserNotParticipant => missing ++ [channel_id]
  | LookupError => missing
  end.

(** [check_force_sub(client, user_id)]. *)
Definition check_force_sub (cfg : Config) (w : World) (user_id : Z) : list Z :=
  match FORCE_SUB_CHANNELS cfg with
  | [] => []
  | channels => fold_left (check_channel w user_id) channels []
  end.

(** ** EVENT HANDLERS *)

(** [asyncio.create_task(auto_delete_task(client, msg, AUTO_DELETE_TIME))]
    under [if AUTO_DELETE_TIME > 0]. *)
Definition schedule_auto_delete (cfg : Config) (msg : sent_message) : list event :=
  if 0 <? AUTO_DELETE_TIME cfg
  then [CreateAutoDeleteTask msg (AUTO_DELETE_TIME cfg)]
  else [].

(** The row of the "Join Channel" button of the [i]-th missing channel:
    the invite link of the chat, or the fallback link when [get_chat]
    raises. *)
Definition join_row (w : World) (i : nat) (cid : Z) : list button :=
  match get_chat w cid with
  | Chat link => [UrlButton (LblJoinChannel (i + 1)) link]
  | ChatError =>
      [UrlButton (LblJoinChannel (i + 1))
         (PStr ("https://t.me/c/" +:+ Py.drop 4 (PyInt.str cid) +:+ "/1"))]
  end.

(** The keyboard of the "Access Denied" reply. *)
Definition access_denied_buttons (cfg : Config) (w : World) (missing : list Z)
    (payload : string) : list (list button) :=
  let buttons := imap (join_row w) missing in
  let orig := Py.replace payload "verify_" EmptyString in
  buttons ++ [[UrlButton LblTryAgain (PStr (start_link cfg orig))]].

(** The loop of the batch mode over [batch_data['range_ids']]. *)
Fixpoint deliver_batch (cfg : Config) (w : World) (user_id : Z) (ids : list Z)
    : list event :=
  match ids with
  | [] => []
  | msg_id :: rest =>
      CopyMessage user_id (DB_CHANNEL cfg) msg_id (PROTECT_CONTENT cfg)
      :: match copy_message w user_id (DB_CHANNEL cfg) msg_id with
         | Some msg => schedule_auto_delete cfg (Copied msg) ++ [Sleep (Tenths 8)]
         | None => []
         end
      ++ deliver_batch cfg w user_id rest
  end.

(** The body of the verify mode after [decode] gave a nonzero id. *)
Definition deliver_verified (cfg : Config) (w : World) (user_id msg_id : Z)
    : list event :=
  CopyMessage user_id (DB_CHANNEL cfg) msg_id (PROTECT_CONTENT cfg)
  :: match copy_message w user_id (DB_CHANNEL cfg) msg_id with
     | Some msg =>
         if 0 <? AUTO_DELETE_TIME cfg then
           [CreateAutoDeleteTask (Copied msg) (AUTO_DELETE_TIME cfg);
            Reply (TDeleteNote (AUTO_DELETE_TIME cfg / 60)) [];
            CreateAutoDeleteTask (Replied (TDeleteNote (AUTO_DELETE_TIME cfg / 60)))
              (AUTO_DELETE_TIME cfg)]
         else []
     | None => [Reply TErrorFetching []]
     end.

(** The "Direct Send" branch of the normal mode. *)
Definition deliver_direct (cfg : Config) (w : World) (user_id msg_id : Z)
    : list event :=
  CopyMessage user_id (DB_CHANNEL cfg) msg_id (PROTECT_CONTENT cfg)
  :: match copy_message w user_id (DB_CHANNEL cfg) msg_id with
     | Some msg => schedule_auto_delete cfg (Copied msg)
     | None => [Reply TErrorFetching []]
     end.

(** The keyboard of the home reply. *)
Definition home_buttons : list (list button) :=
  [[SwitchInlineButton LblSearch EmptyString];
   [CallbackButton LblMyAccount "my_account"; CallbackButton LblHelp "help"]].

(** What [start_handler] does once the user is known not to be banned and
    the payload is there. *)
Definition dispatch (cfg : Config) (w : World) (batches_col : batches_collection)
    (user : option user_doc) (user_id : Z) (payload : string) : list event :=
  (* FORCE SUB CHECK *)
  match check_force_sub cfg w user_id with
  | (_ :: _) as missing =>
      [Reply TAccessDenied (access_denied_buttons cfg w missing payload)]
  | [] =>
      (* BATCH / COLLECTION MODE *)
      if Py.startswith payload "batch_" then
        match Py.index (Py.split "_" payload) 1 with
        | None => [Raise IndexError]
        | Some batch_id =>
            match get_batch batches_col batch_id with
            | None => [Reply TBatchNotFound []]
            | Some batch_data =>
                Reply (TProcessing (length (range_ids batch_data))) []
                :: deliver_batch cfg w user_id (range_ids batch_data)
                ++ [DeleteMessage (Replied (TProcessing (length (range_ids batch_data))))]
            end
        end
      (* VERIFY MODE (After Shortener) *)
      else if Py.startswith payload "verify_" then
        match Py.index (Py.split "_" payload) 1 with
        | None => [Raise IndexError]
        | Some real_code =>
            let msg_id := decode real_code in
            if msg_id =? 0 then [Reply TInvalidLink []]
            else deliver_verified cfg w user_id msg_id
        end
      (* NORMAL MODE (Fresh Link) *)
      else
        let code := payload in
        let msg_id := decode code in
        if msg_id =? 0 then [Reply TInvalidLink []]
        else
          (* Premium/Shortener Check *)
          let is_prem :=
            match user with
            | Some u => is_premium u
            | None => false
            end in
          if (match SHORTENER_URLS cfg with [] => false | _ => true end) && negb is_prem
          then
            let verify_link := start_link cfg ("verify_" +:+ code) in
            let '(short_link, http) := get_short_link cfg w verify_link in
            http ++ [Reply TSecureLink [[UrlButton LblUnlock short_link]]]
          else deliver_direct cfg w user_id msg_id
  end.

(** [start_handler(client, message)]: the users after it and what it did. *)
Definition start_handler (cfg : Config) (w : World) (users_col : users_collection)
    (batches_col : batches_collection) (message : Message)
    : users_collection * list event :=
  let user_id := from_user_id message in
  let '(users_col, log) := add_user cfg users_col user_id (first_name message) in
  (* Check Ban *)
  let user := get_user users_col user_id in
  (users_col,
   log ++
   if (match user with Some u => banned u | None => false end)
   then [Reply TBanned []]
   else
     (* Normal Start *)
     match command message with
     | _ :: payload :: _ => dispatch cfg w batches_col user user_id payload
     | _ => [Reply (THome (first_name message)) home_buttons]
     end).

(** [list(range(start, stop))]. *)
Definition range (start stop : Z) : list Z :=
  map (fun k => start + Z.of_nat k) (seq 0 (Z.to_nat (stop - start))).

(** What the [try] of [batch_handler] computes before it replies. *)
Definition batch_try (w : World) (batches_col : batches_collection)
    (start_id : Z) (message : Message)
    : exn + (list Z * option string * batches_collection) :=
  match Py.index (command message) 1 with
  | None => inl IndexError
  | Some arg =>
      match Py.index_last (Py.split "/" arg) with
      | None => inl IndexError
      | Some last =>
          match PyInt.int last with
          | None => inl ValueError
          | Some end_id =>
              let range_ids := range start_id (end_id + 1) in
              let '(batch_id, batches_col) := save_batch w batches_col range_ids in
              inr (range_ids, batch_id, batches_col)
          end
      end
  end.

(** [str(x)] inside an f-string for a value that is a str or [None]. *)
Definition format_opt (x : option string) : string :=
  match x with
  | Some s => s
  | None => "None"
  end.

(** [batch_handler(client, message)]: the batches after it and what it
    did. *)
Definition batch_handler (cfg : Config) (w : World) (batches_col : batches_collection)
    (message : Message) : batches_collection * list event :=
  match batches_col with
  | None => (batches_col, [Reply TMongoRequired []])
  | Some _ =>
      match reply_to_message message with
      | None => (batches_col, [Reply TReplyToFirst []])
      | Some start_id =>
          match batch_try w batches_col start_id message with
          | inr (range_ids, batch_id, batches_col') =>
              let link := start_link cfg ("batch_" +:+ format_opt batch_id) in
              (batches_col',
               [Reply (TBatchCreated (length range_ids) link)
                  [[UrlButton LblShareBatch (PStr ("https://t.me/share/url?url=" +:+ link))]]])
          | inl e => (batches_col, [Reply (TError e) []])
          end
      end
  end.

(** The counters of [broadcast]. *)
Record tally := { success : nat; failed : nat }.

(** The [async for] of [broadcast]: what it did, and the counters when it
    ran to its end, or the exception that left it. *)
Fixpoint broadcast_loop (w : World) (users : list Z) (t : tally)
    : list event * (exn + tally) :=
  match users with
  | [] => ([], inr t)
  | user :: rest =>
      match message_copy w user 0 with
      | Sent =>
          let '(evs, r) :=
            broadcast_loop w rest {| success := success t + 1; failed := failed t |} in
          (BroadcastCopy user :: Sleep (Tenths 1) :: evs, r)
      | FloodWait value =>
          (* except FloodWait as e *)
          match message_copy w user 1 with
          | Sent =>
              let '(evs, r) :=
                broadcast_loop w rest {| success := success t + 1; failed := failed t |} in
              (BroadcastCopy user :: Sleep (Seconds value) :: BroadcastCopy user :: evs, r)
          | err =>
              ([BroadcastCopy user; Sleep (Seconds value); BroadcastCopy user],
               inl (SendError err))
          end
      | SendFailed =>
          (* except Exception *)
          let '(evs, r) :=
            broadcast_loop w rest {| success := success t; failed := failed t + 1 |} in
          (BroadcastCopy user :: evs, r)
      end
  end.

(** [broadcast(client, message)]. *)
Definition broadcast (w : World) (users_col : users_collection) : list event :=
  match users_col with
  | None => [Reply TNoDB []]
  | Some _ =>
      let users := get_all_users users_col in
      let total := get_total_users users_col in
      let '(evs, r) := broadcast_loop w users {| success := 0; failed := 0 |} in
      Reply TBroadcastStarted [] :: evs ++
      match r with
      | inr t =>
          [EditMessage (Replied TBroadcastStarted)
             (TBroadcastCompleted total (success t) (failed t))]
      | inl e => [Raise e]
      end
  end.

(** ** Definitions used by the statements and the proofs *)

(** The value of decimal digits read after [acc], as the scan of
    [PyLong_FromString] accumulates it. *)
Fixpoint uint_value (d : uint) (acc : N) : N :=
  match d with
  | Nil => acc
  | D0 l => uint_value l (10 * acc + 0)
  | D1 l => uint_value l (10 * acc + 1)
  | D2 l => uint_value l (10 * acc + 2)
  | D3 l => uint_value l (10 * acc + 3)
  | D4 l => uint_value l (10 * acc + 4)
  | D5 l => uint_value l (10 * acc + 5)
  | D6 l => uint_value l (10 * acc + 6)
  | D7 l => uint_value l (10 * acc + 7)
  | D8 l => uint_value l (10 * acc + 8)
  | D9 l => uint_value l (10 * acc + 9)
  end%N.

(** [P] holds of every number below [n]. *)
Definition all_below (n : nat) (P : N -> bool) : bool :=
  forallb P (map N.of_nat (seq 0 n)).

(** [P] holds of every character of [s]. *)
Fixpoint all_chars (P : ascii -> bool) (s : string) : bool :=
  match s with
  | EmptyString => true
  | String a r => P a && all_chars P r
  end.

(** A string without the character [c]. *)
Definition lacks (c : ascii) (s : string) : bool :=
  all_chars (fun a => negb (Ascii.eqb a c)) s.

(** [old] occurs somewhere in [s]. *)
Fixpoint occurs (old s : string) : bool :=
  String.prefix old s
  || match s with
     | EmptyString => false
     | String _ r => occurs old r
     end.

(** The characters of the URL-safe alphabet: letters, digits, ['-'], ['_']. *)
Definition is_token_char (c : ascii) : bool :=
  let n := Py.ord c in
  (((65 <=? n) && (n <=? 90)) || ((97 <=? n) && (n <=? 122))
   || ((48 <=? n) && (n <=? 57)) || (n =? 45) || (n =? 95))%N.

(** The character of the URL-safe alphabet for six bits. *)
Definition urlsafe_char (n : N) : ascii :=
  Base64.urlsafe_encode_translation (Base64.b2a_char n).

(** The six-bit groups of three bytes [a], [b], [c]. *)
Definition sextet1 (a : N) : N := N.shiftr a 2.
Definition sextet2 (a b : N) : N := N.lor (N.shiftl (N.land a 3) 4) (N.shiftr b 4).
Definition sextet3 (b c : N) : N := N.lor (N.shiftl (N.land b 15) 2) (N.shiftr c 6).
Definition sextet4 (c : N) : N := N.land c 63.

(** The URL-safe base64 characters of [data] without the padding. *)
Fixpoint token (data : string) : string :=
  match data with
  | EmptyString => EmptyString
  | String a EmptyString =>
      String (urlsafe_char (sextet1 (Py.ord a)))
        (String (urlsafe_char (sextet2 (Py.ord a) 0)) EmptyString)
  | String a (String b EmptyString) =>
      String (urlsafe_char (sextet1 (Py.ord a)))
        (String (urlsafe_char (sextet2 (Py.ord a) (Py.ord b)))
           (String (urlsafe_char (sextet3 (Py.ord b) 0)) EmptyString))
  | String a (String b (String c r)) =>
      String (urlsafe_char (sextet1 (Py.ord a)))
        (String (urlsafe_char (sextet2 (Py.ord a) (Py.ord b)))
           (String (urlsafe_char (sextet3 (Py.ord b) (Py.ord c)))
              (String (urlsafe_char (sextet4 (Py.ord c))) (token r))))
  end.

(** The padding [b2a_base64] puts after [n] bytes. *)
Definition pad_length (n : nat) : nat :=
  match (n mod 3)%nat with
  | 1%nat => 2%nat
  | 2%nat => 1%nat
  | _ => 0%nat
  end.

(** The padding [decode] puts after [payload]. *)
Definition decode_padding (payload : string) : string :=
  Py.repeat_char "=" (4 - Py.len payload mod 4).

(** What the decoder reads back from the character for the six bits [n]. *)
Definition char_ok (n : N) : bool :=
  let c := urlsafe_char n in
  is_token_char c && negb (Ascii.eqb c "=") && Py.is_ascii_char c
  && negb (Ascii.eqb (Base64.urlsafe_decode_translation c) "=")
  && match Base64.table_a2b_base64 (Base64.urlsafe_decode_translation c) with
     | Some v => (v =? n)%N
     | None => false
     end.

(** A character of the URL-safe alphabet has a value for the decoder. *)
Definition token_char_ok (n : N) : bool :=
  let c := Py.chr n in
  negb (is_token_char c)
  || (negb (Ascii.eqb (Base64.urlsafe_decode_translation c) "=")
      && match Base64.table_a2b_base64 (Base64.urlsafe_decode_translation c) with
         | Some _ => true
         | None => false
         end).

(** The six-bit groups of two bytes are below 64, and the decoder puts the
    bytes together again: [a] and [b] stand for the first and second byte
    of a group, and for the second and third. *)
Definition bytes_ok (a b : N) : bool :=
  ((sextet1 a <? 64) && (sextet2 a b <? 64) && (sextet3 a b <? 64)
   && (sextet4 a <? 64) && (sextet2 a 0 <? 64) && (sextet3 a 0 <? 64)
   && ((N.lor (N.shiftl (sextet1 a) 2) (N.shiftr (sextet2 a b) 4)) mod 256 =? a)
   && (N.land (sextet2 a b) 15 =? N.shiftr b 4)
   && ((N.lor (N.shiftl (N.shiftr a 4) 4) (N.shiftr (sextet3 a b) 2)) mod 256 =? a)
   && ((N.lor (N.shiftl (N.land (sextet3 a b) 3) 6) (sextet4 b)) mod 256 =? b)
   && ((N.lor (N.shiftl (sextet1 a) 2) (N.shiftr (sextet2 a 0) 4)) mod 256 =? a)
   && ((N.lor (N.shiftl (N.shiftr a 4) 4) (N.shiftr (sextet3 a 0) 2)) mod 256 =? a))%N.

(** The characters of [str(n)]: the digits and the minus sign. *)
Definition is_id_char (c : ascii) : bool :=
  let n := Py.ord c in
  (((48 <=? n) && (n <=? 57)) || (n =? 45))%N.

(** The six-bit groups of two bytes of [str(n)] never give the
    underscore. *)
Definition id_bytes_ok (a b : N) : bool :=
  let ok n := negb (Ascii.eqb (urlsafe_char n) "_") in
  negb (is_id_char (Py.chr a) && is_id_char (Py.chr b))
  || (ok (sextet1 a) && ok (sextet2 a b) && ok (sextet2 a 0)
      && ok (sextet3 a b) && ok (sextet3 a 0) && ok (sextet4 a)).

(** The text [decode] would read from the bytes [data]: [None] when they
    are not UTF-8 or not an integer literal. *)
Definition int_of_bytes (data : string) : option Z :=
  match PyInt.bytes_decode data with
  | Some text => PyInt.int text
  | None => None
  end.

(** Three ways for a payload to be malformed: a character that is not
    ASCII; characters of the alphabet whose number is one more than a
    multiple of four; the token of bytes that are not an integer literal. *)
Inductive malformed : string -> Prop :=
| malformed_not_ascii (s : string) :
    Py.isascii s = false -> malformed s
| malformed_length (s : string) :
    all_chars is_token_char s = true ->
    (String.length s mod 4 = 1)%nat -> malformed s
| malformed_not_int (data : string) :
    int_of_bytes data = None -> malformed (token data).

(** The user is banned, the user is premium, as [start_handler] reads it
    from the record. *)
Definition is_banned (user : option user_doc) : bool :=
  match user with
  | Some u => banned u
  | None => false
  end.

Definition is_prem (user : option user_doc) : bool :=
  match user with
  | Some u => is_premium u
  | None => false
  end.

(** The user [start_handler] works with: the stored one, or the one
    [add_user] has just stored. *)
Definition current_user (cfg : Config) (users_col : users_collection)
    (message : Message) : option user_doc :=
  get_user (fst (add_user cfg users_col (from_user_id message) (first_name message)))
    (from_user_id message).

(** The log message of [add_user] inside [start_handler]. *)
Definition start_log (cfg : Config) (users_col : users_collection)
    (message : Message) : list event :=
  snd (add_user cfg users_col (from_user_id message) (first_name message)).

(** An event is a call of the shortener. *)
Definition is_http_get (e : event) : bool :=
  match e with
  | HttpGet _ => true
  | _ => false
  end.

(** An event is a copy of stored content to a user. *)
Definition is_copy (e : event) : bool :=
  match e with
  | CopyMessage _ _ _ _ => true
  | _ => false
  end.

(** An event shows an error to the user. *)
Definition is_error_reply (e : event) : bool :=
  match e with
  | Reply (TError _) _ | Reply TErrorFetching _ | Reply TInvalidLink _
  | Reply TBatchNotFound _ | Raise _ => true
  | _ => false
  end.

(** The provider of the shortener failed: the call raised, or the body is
    not a JSON object, or the object has none of the three keys. *)
Definition provider_failed (r : http_result) : Prop :=
  match r with
  | HttpFailed => True
  | HttpJson (PDict d) =>
      d !! "shortenedUrl" = None /\ d !! "url" = None /\ d !! "short_url" = None
  | HttpJson _ => True
  end.

(** The lookup of a member makes the channel a missing one. *)
Definition is_missing (r : member_lookup) : bool :=
  match r with
  | Member BANNED | Member LEFT | UserNotParticipant => true
  | _ => false
  end.

(** [s] is a result of [random.choices(population, k=k)]. *)
Definition is_choices (population : string) (k : nat) (s : string) : bool :=
  (String.length s =? k)%nat
  && all_chars (fun c => existsb (Ascii.eqb c) (list_ascii_of_string population)) s.

(** The first copy to the user is throttled and the retry does not
    succeed. *)
Definition retry_fails (w : World) (user : Z) : bool :=
  match message_copy w user 0, message_copy w user 1 with
  | FloodWait _, Sent => false
  | FloodWait _, _ => true
  | _, _ => false
  end.

(** ** Inputs of the examples *)

(** A bot [@filestore_bot] with the defaults of the source and, below, one
    shortener and two required channels. *)
Definition cfg_plain : Config :=
  {| DB_CHANNEL := -1001000; LOG_CHANNEL := 0; FORCE_SUB_CHANNELS := [];
     PROTECT_CONTENT := true; AUTO_DELETE_TIME := 600;
     SHORTENER_URLS := []; username := "filestore_bot" |}.

Definition cfg_shortener : Config :=
  {| DB_CHANNEL := -1001000; LOG_CHANNEL := 0; FORCE_SUB_CHANNELS := [];
     PROTECT_CONTENT := true; AUTO_DELETE_TIME := 600;
     SHORTENER_URLS := ["https://short.example/api?api=KEY&url={link}"];
     username := "filestore_bot" |}.

Definition cfg_channels : Config :=
  {| DB_CHANNEL := -1001000; LOG_CHANNEL := 0;
     FORCE_SUB_CHANNELS := [-1002001; -1002002];
     PROTECT_CONTENT := true; AUTO_DELETE_TIME := 600;
     SHORTENER_URLS := []; username := "filestore_bot" |}.

(** A world in which every copy succeeds, the user has left the channel
    -1002001 and the lookup of every other channel raises, [get_chat]
    raises, the shortener answers with an empty object, and
    [random.choices] draws ["AAAAAAAA"]. *)
Definition world_quiet : World :=
  {| get_chat_member := fun channel _ =>
       if channel =? -1002001 then Member LEFT else LookupError;
     get_chat := fun _ => ChatError;
     copy_message := fun _ _ message_id => Some (message_id + 5000);
     message_copy := fun _ _ => Sent;
     http_get_json := fun _ => HttpJson (PDict ∅);
     randbelow := fun _ => O;
     random_choices := fun _ _ => "AAAAAAAA" |}.

(** A world in which the broadcast to user 1 is throttled for two seconds
    and fails again when it is retried. *)
Definition world_throttled : World :=
  {| get_chat_member := fun _ _ => Member MEMBER;
     get_chat := fun _ => ChatError;
     copy_message := fun _ _ message_id => Some (message_id + 5000);
     message_copy := fun user attempt =>
       if user =? 1 then
         match attempt with
         | O => FloodWait 2
         | _ => SendFailed
         end
       else Sent;
     http_get_json := fun _ => HttpFailed;
     randbelow := fun _ => O;
     random_choices := fun _ _ => "AAAAAAAA" |}.

(** [/start payload] sent by user 7. *)
Definition start_message (payload : string) : Message :=
  {| from_user_id := 7; first_name := "Asha";
     command := ["start"; payload]; reply_to_message := None |}.

(** [/batch link] sent by an admin in reply to the stored message
    [first]. *)
Definition batch_message (first : Z) (link : string) : Message :=
  {| from_user_id := 1; first_name := "Admin";
     command := ["batch"; link]; reply_to_message := Some first |}.

(** A premium user and a free user with the id 7. *)
Definition users_premium : users_collection :=
  Some [{| _id := 7; name := "Asha"; is_premium := true; banned := false |}].

Definition users_free : users_collection :=
  Some [{| _id := 7; name := "Asha"; is_premium := false; banned := false |}].

(** Three users for the broadcast. *)
Definition users_three : users_collection :=
  Some [{| _id := 1; name := "A"; is_premium := false; banned := false |};
        {| _id := 2; name := "B"; is_premium := false; banned := false |};
        {| _id := 3; name := "C"; is_premium := false; banned := false |}].

(** A batch stored earlier under the id that [world_quiet] draws. *)
Definition batches_earlier : list batch_doc :=
  [{| batch_id := "AAAAAAAA"; range_ids := [1] |}].

(** ** More of the DATABASE ENGINE *)

(** [update_one({"_id": user_id}, {"$set": {"banned": status}})]: the first
    document that matches gets the new flag. *)
Fixpoint set_banned (col : list user_doc) (user_id : Z) (status : bool) : list user_doc :=
  match col with
  | [] => []
  | doc :: rest =>
      if _id doc =? user_id
      then {| _id := _id doc; name := name doc;
              is_premium := is_premium doc; banned := status |} :: rest
      else doc :: set_banned rest user_id status
  end.

(** [update_ban_status(user_id, status)]. *)
Definition update_ban_status (users_col : users_collection) (user_id : Z)
    (status : bool) : users_collection :=
  match users_col with
  | Some col => Some (set_banned col user_id status)
  | None => None
  end.

(** A document of [files_col]; [date] is left out.  [file_name] is
    [None] for a media without a name, [file_size] is what [get_size]
    returned. *)
Record file_doc := {
  msg_id : Z;
  file_name : option string;
  code : string;
  file_size : option string
}.

Definition files_collection : Type := option (list file_doc).

(** [find_one({"code": code})]. *)
Definition find_file (col : list file_doc) (c : string) : option file_doc :=
  List.find (fun doc => String.eqb (code doc) c) col.

(** [save_file_to_db(msg_id, file_name, code, file_size)]. *)
Definition save_file_to_db (files_col : files_collection) (id : Z)
    (fname : option string) (c : string) (fsize : option string) : files_collection :=
  match files_col with
  | Some col =>
      match find_file col c with
      | Some _ => files_col
      | None =>
          Some (col ++ [{| msg_id := id; file_name := fname; code := c; file_size := fsize |}])
      end
  | None => None
  end.

(** ** [get_size] *)

(** The integer nearest to [n / d], the even one of two that are equally
    near: the rounding of [f"{x:.2f}"]. *)
Definition round_half_even (n d : N) : N :=
  let q := (n / d)%N in
  let r := (n mod d)%N in
  if (2 * r <? d)%N then q
  else if (d <? 2 * r)%N then (q + 1)%N
  else if N.even q then q else (q + 1)%N.

(** The digits of a number below 100, as two characters. *)
Definition two_digits (h : N) : string :=
  String (Py.chr (48 + h / 10)) (String (Py.chr (48 + h mod 10)) EmptyString).

(** [f"{x:.2f}"] for [x = n / d]. *)
Definition format_2f (n d : N) : string :=
  let h := round_half_even (100 * n) d in
  PyInt.str (Z.of_N (h / 100)) +:+ "." +:+ two_digits (h mod 100).

(** The loop of [get_size] over the units that are left.  The size is a
    file size of Telegram, an integer from 0 to [2 ^ 63 - 1]; after [k]
    divisions by 1024 the float [size] of the source is [n / d] with
    [d = 1024 ^ k], which a float holds without rounding for every [n] that
    reaches a [return]. *)
Fixpoint get_size_loop (units : list string) (n d : N) : option string :=
  match units with
  | [] => None
  | unit :: rest =>
      if (n <? 1024 * d)%N
      then Some (format_2f n d +:+ " " +:+ unit)
      else get_size_loop rest n (1024 * d)%N
  end.

(** [get_size(size)]: [None] when the loop runs out of units. *)
Definition get_size (size : N) : option string :=
  get_size_loop ["B"; "KB"; "MB"; "GB"; "TB"] size 1.

(** ** The indexer and the search *)

(** [message.document], [message.video] or [message.audio]: its
    [file_name] (a str or [None]) and [file_size]. *)
Record media_file := {
  media_name : option string;
  media_size : N
}.

(** A message of the storage channel: its id and its media. *)
Record channel_post := {
  post_id : Z;
  post_document : option media_file;
  post_video : option media_file;
  post_audio : option media_file;
  post_photo : bool
}.

(** The name and size [index_files] reads from a post with a media, [None]
    for a post without one. *)
Definition post_meta (post : channel_post) : option (option string * N) :=
  match post_document post, post_video post, post_audio post, post_photo post with
  | Some f, _, _, _ => Some (media_name f, media_size f)
  | None, Some f, _, _ => Some (media_name f, media_size f)
  | None, None, Some f, _ => Some (media_name f, media_size f)
  | None, None, None, true => Some (Some "Photo_File.jpg", 0%N)
  | None, None, None, false => None
  end.

(** The two buttons [index_files] puts under a post: the download link
    and the share link. *)
Record index_markup := {
  get_file_url : string;
  share_url : string
}.

(** [index_files(client, message)]: the files after it and the keyboard it
    asks for ([None] for a post without a media). *)
Definition index_files (cfg : Config) (files_col : files_collection)
    (post : channel_post) : files_collection * option index_markup :=
  match post_meta post with
  | Some (fname, fsize) =>
      let code := encode (post_id post) in
      let link := start_link cfg code in
      (save_file_to_db files_col (post_id post) fname code (get_size fsize),
       Some {| get_file_url := link;
               share_url := "https://t.me/share/url?url=" +:+ link |})
  | None => (files_col, None)
  end.

(** The regular expression engine of the store: [None] for a pattern it
    refuses, else the names the pattern matches without regard to case. *)
Definition regex_engine : Type := string -> option (string -> bool).

(** [search_files(query)]: at most 50 documents whose name matches, in the
    order of the collection; [inl tt] when the store refuses the pattern. *)
Definition search_files (regex : regex_engine) (files_col : files_collection)
    (query : string) : unit + list file_doc :=
  match files_col with
  | Some col =>
      match regex query with
      | Some matches =>
          inr (firstn 50
                 (List.filter (fun doc =>
                    match file_name doc with
                    | Some n => matches n
                    | None => false
                    end) col))
      | None => inl tt
      end
  | None => inr []
  end.

(** A line of the search results: the name, the link and the size of a
    file, as the f-string prints them. *)
Record search_line := {
  line_name : option string;
  line_link : string;
  line_size : option string
}.

(** What [search_handler] sends. *)
Inductive search_event :=
| SearchTooShort                      (* reply "Search query too short." *)
| SearchSearching                     (* reply "Searching Database..." *)
| SearchNoFiles                       (* edit "No files found matching your query." *)
| SearchResults (query : string) (lines : list search_line)  (* edit with the results *)
| SearchRaise.                        (* the exception of the store leaves the handler *)

(** [search_handler(client, message)] for a private text [query]. *)
Definition search_handler (cfg : Config) (regex : regex_engine)
    (files_col : files_collection) (query : string) : list search_event :=
  match files_col with
  | None => []
  | Some _ =>
      if (Py.len query <? 3)%nat then [SearchTooShort]
      else
        SearchSearching ::
        match search_files regex files_col query with
        | inl _ => [SearchRaise]
        | inr [] => [SearchNoFiles]
        | inr results =>
            [SearchResults query
               (map (fun file =>
                       {| line_name := file_name file;
                          line_link := start_link cfg (code file);
                          line_size := file_size file |}) results)]
        end
  end.

(** ** Definitions used by the further statements and proofs *)

(** A letter or a digit. *)
Definition is_alnum_char (c : ascii) : bool :=
  let n := Py.ord c in
  (((65 <=? n) && (n <=? 90)) || ((97 <=? n) && (n <=? 122))
   || ((48 <=? n) && (n <=? 57)))%N.

(** The six-bit groups of two bytes of [str(n)] give letters and digits. *)
Definition id_alnum_ok (a b : N) : bool :=
  let ok n := is_alnum_char (urlsafe_char n) in
  negb (is_id_char (Py.chr a) && is_id_char (Py.chr b))
  || (ok (sextet1 a) && ok (sextet2 a b) && ok (sextet2 a 0)
      && ok (sextet3 a b) && ok (sextet3 a 0) && ok (sextet4 a)).

(** An event [start_handler] may produce for the user [user_id]: a copy
    goes to that user, from the storage channel, with the protection flag of
    the configuration; a deletion is scheduled after [AUTO_DELETE_TIME],
    which is then positive; a message to another chat goes to the log
    channel; no copy is deleted at once, nothing is broadcast or edited. *)
Definition start_event_ok (cfg : Config) (user_id : Z) (e : event) : bool :=
  match e with
  | CopyMessage chat_id from_chat_id _ protect =>
      (chat_id =? user_id) && (from_chat_id =? DB_CHANNEL cfg)
      && Bool.eqb protect (PROTECT_CONTENT cfg)
  | CreateAutoDeleteTask _ delay => (delay =? AUTO_DELETE_TIME cfg) && (0 <? delay)
  | SendMessage chat_id _ => (chat_id =? LOG_CHANNEL cfg) && negb (chat_id =? 0)
  | BroadcastCopy _ | EditMessage _ _ | DeleteMessage (Copied _) => false
  | _ => true
  end.

(** The pause of the batch mode after a file. *)
Definition is_batch_pause (e : event) : bool :=
  match e with
  | Sleep (Tenths 8) => true
  | _ => false
  end.

(** The copy of the stored message [msg_id] to [user_id] succeeds. *)
Definition copy_succeeds (cfg : Config) (w : World) (user_id msg_id : Z) : bool :=
  match copy_message w user_id (DB_CHANNEL cfg) msg_id with
  | Some _ => true
  | None => false
  end.

(** A character of a quoted text: a safe one or the percent sign. *)
Definition is_quoted_char (c : ascii) : bool :=
  Urllib.is_safe c || Ascii.eqb c "%".

(** Two numbers below 16 with the same hexadecimal digit are equal, and
    the digit is a safe character. *)
Definition hex_digit_ok (a b : N) : bool :=
  Urllib.is_safe (Urllib.hex_digit a)
  && (negb (Ascii.eqb (Urllib.hex_digit a) (Urllib.hex_digit b)) || (a =? b)%N).

(** The users a list of events tries to reach with the broadcast, one
    entry for each try. *)
Definition broadcast_attempts (evs : list event) : list Z :=
  flat_map (fun e => match e with BroadcastCopy user => [user] | _ => [] end) evs.

(** The first copy to the user is throttled; the first copy to the user
    fails with another exception. *)
Definition is_throttled (w : World) (user : Z) : bool :=
  match message_copy w user 0 with
  | FloodWait _ => true
  | _ => false
  end.

Definition send_failed (w : World) (user : Z) : bool :=
  match message_copy w user 0 with
  | SendFailed => true
  | _ => false
  end.

(** The tries of a loop that runs over [users] without leaving: one for
    each user, and one more after a throttled try. *)
Definition expected_attempts (w : World) (users : list Z) : list Z :=
  flat_map (fun user => if is_throttled w user then [user; user] else [user]) users.

(** The units of [get_size], in the order of its loop. *)
Definition size_units : list string := ["B"; "KB"; "MB"; "GB"; "TB"].

(** Every document of the files is stored under the token of its message
    id, as [index_files] stores it. *)
Definition well_indexed (col : list file_doc) : bool :=
  forallb (fun doc => String.eqb (code doc) (encode (msg_id doc))) col.

(** The name of the document matches. *)
Definition name_matches (matches : string -> bool) (doc : file_doc) : bool :=
  match file_name doc with
  | Some n => matches n
  | None => false
  end.

(** The line of the search results for a document. *)
Definition search_line_of (cfg : Config) (doc : file_doc) : search_line :=
  {| line_name := file_name doc;
     line_link := start_link cfg (code doc);
     line_size := file_size doc |}.

(** An engine that takes every pattern as a plain text and matches the
    names in which it occurs; files for the examples. *)
Definition regex_plain : regex_engine := fun query => Some (occurs query).

Definition files_two : list file_doc :=
  [{| msg_id := 123; file_name := Some "holiday.mkv"; code := "MTIz";
      file_size := Some "1.50 KB" |};
   {| msg_id := 124; file_name := None; code := "MTI0"; file_size := Some "0.00 B" |}].

(** The users after the [/start] commands [messages], handled one after
    the other. *)
Definition run_starts (cfg : Config) (w : World) (batches_col : batches_collection)
    (users_col : users_collection) (messages : list Message) : users_collection :=
  fold_left (fun col message => fst (start_handler cfg w col batches_col message))
    messages users_col.

(** A step of the loop of the broadcast: a try, or a pause. *)
Definition is_broadcast_step (e : event) : bool :=
  match e with
  | BroadcastCopy _ | Sleep _ => true
  | _ => false
  end.

(** * Properties *)

(** ** Strings *)

#[local] Arguments String.append !_ _ / : simpl nomatch.

Lemma chr_ord (c : ascii) : Py.chr (Py.ord c) = c.
Proof. apply ascii_N_embedding. Qed.

Lemma ord_bound (c : ascii) : (Py.ord c < 256)%N.
Proof. apply N_ascii_bounded. Qed.

Lemma len_ascii (s : string) :
  Py.isascii s = true -> Py.len s = String.length s.
Proof.
  induction s as [|c r IH]; simpl; [reflexivity|].
  intros H. apply andb_prop in H as [Hc Hr].
  unfold Py.is_cont. unfold Py.is_ascii_char in Hc.
  apply N.ltb_lt in Hc.
  replace (128 <=? Py.ord c)%N with false by (symmetry; apply N.leb_gt; lia).
  simpl. now rewrite IH.
Qed.

Lemma isascii_app (s t : string) :
  Py.isascii (s +:+ t) = Py.isascii s && Py.isascii t.
Proof.
  induction s as [|c r IH]; simpl; [reflexivity|].
  now rewrite IH, andb_assoc.
Qed.

Lemma isascii_repeat (c : ascii) (n : nat) :
  Py.is_ascii_char c = true -> Py.isascii (Py.repeat_char c n) = true.
Proof. intros H. induction n as [|n IH]; simpl; [reflexivity|]. now rewrite H, IH. Qed.

(** ** [int(str(n))] *)

Lemma utf8_ascii (s : string) :
  Py.isascii s = true ->
  PyInt.utf8_code_points s = Some (map Py.ord (list_ascii_of_string s)).
Proof.
  induction s as [|c r IH]; simpl; [reflexivity|].
  intros H. apply andb_prop in H as [Hc Hr].
  unfold Py.is_ascii_char in Hc. rewrite Hc, (IH Hr). reflexivity.
Qed.

Lemma transform_ascii (s : string) :
  Py.isascii s = true ->
  PyInt.TransformDecimalAndSpaceToASCII (map Py.ord (list_ascii_of_string s)) = s.
Proof.
  intros H. unfold PyInt.TransformDecimalAndSpaceToASCII.
  replace (forallb _ _) with true.
  - rewrite map_map.
    rewrite (map_ext _ (fun c => c)) by (intros; apply chr_ord).
    rewrite map_id. apply string_of_list_ascii_of_string.
  - symmetry. induction s as [|c r IH]; simpl in *; [reflexivity|].
    apply andb_prop in H as [Hc Hr]. unfold Py.is_ascii_char in Hc.
    now rewrite Hc, IH.
Qed.

Lemma int_ascii (s : string) :
  Py.isascii s = true -> PyInt.int s = PyInt.PyLong_FromString s.
Proof.
  intros H. unfold PyInt.int. now rewrite (utf8_ascii s H), (transform_ascii s H).
Qed.

Lemma bytes_decode_ascii (s : string) :
  Py.isascii s = true -> PyInt.bytes_decode s = Some s.
Proof. intros H. unfold PyInt.bytes_decode. now rewrite (utf8_ascii s H). Qed.

Lemma isascii_uint (d : uint) : Py.isascii (NilEmpty.string_of_uint d) = true.
Proof. induction d; simpl; try rewrite IHd; reflexivity. Qed.

Lemma isascii_str (n : Z) : Py.isascii (PyInt.str n) = true.
Proof.
  unfold PyInt.str. destruct n as [|p|p]; simpl; [reflexivity| |].
  - unfold NilZero.string_of_uint. destruct (Pos.to_uint p); try reflexivity; apply isascii_uint.
  - unfold NilZero.string_of_uint.
    destruct (Pos.to_uint p) eqn:E; try reflexivity; rewrite <- E; apply isascii_uint.
Qed.

Lemma uint_value_pos (d : uint) (acc : positive) :
  uint_value d (Npos acc) = Npos (Pos.of_uint_acc d acc).
Proof.
  revert acc. induction d; intros acc; simpl; try reflexivity;
    rewrite <- IHd; f_equal; lia.
Qed.

Lemma uint_value_of_uint (d : uint) : uint_value d 0 = N.of_uint d.
Proof.
  induction d; simpl; try reflexivity; try exact IHd;
    (etransitivity; [apply (uint_value_pos d)|]); reflexivity.
Qed.

Lemma uint_value_lower (d : uint) (acc : N) :
  (acc * 10 ^ N.of_nat (nb_digits d) <= uint_value d acc)%N.
Proof.
  revert acc. induction d; intros acc; cbn [nb_digits uint_value];
    [ simpl; lia | .. ];
    (rewrite Nat2N.inj_succ, N.pow_succ_r'; etransitivity; [|apply IHd]; nia).
Qed.

(** The digits of a positive number start with a digit that is not zero. *)
Lemma to_uint_head (p : positive) :
  match Pos.to_uint p with
  | Nil | D0 _ => False
  | _ => True
  end.
Proof.
  pose proof (DecimalPos.Unsigned.to_of (Pos.to_uint p)) as H.
  rewrite DecimalPos.Unsigned.of_to in H. change (N.to_uint (Npos p)) with (Pos.to_uint p) in H.
  pose proof (DecimalPos.Unsigned.to_uint_nonnil p) as Hnil.
  pose proof (DecimalPos.Unsigned.to_uint_nonzero p) as Hnz.
  destruct (Pos.to_uint p) as [|d| | | | | | | | | ]; try exact I; try congruence.
  pose proof (DecimalFacts.nb_digits_nzhead d) as Hle.
  unfold unorm in H. cbn [nzhead] in H.
  destruct (nzhead d) eqn:En; try discriminate H.
  - apply Hnz. exact H.
  - injection H as H. subst d. cbn [nb_digits] in Hle. lia.
Qed.

Lemma nb_digits_bound (p : positive) (k : nat) :
  (Npos p < 10 ^ N.of_nat k)%N -> (nb_digits (Pos.to_uint p) <= k)%nat.
Proof.
  intros Hp.
  pose proof (to_uint_head p) as Hh.
  pose proof (DecimalPos.Unsigned.of_to p) as Hv.
  unfold Pos.of_uint in Hv. fold (N.of_uint (Pos.to_uint p)) in Hv.
  rewrite <- uint_value_of_uint in Hv.
  destruct (le_lt_dec (nb_digits (Pos.to_uint p)) k) as [|Hgt]; [assumption|exfalso].
  assert (Hpow : (10 ^ N.of_nat k <= Npos p)%N); [|lia].
  rewrite <- Hv.
  destruct (Pos.to_uint p) as [|d|d|d|d|d|d|d|d|d|d]; try contradiction;
    cbn [uint_value nb_digits] in *;
    (etransitivity; [|apply uint_value_lower]);
    (transitivity (1 * 10 ^ N.of_nat (nb_digits d))%N;
      [ rewrite N.mul_1_l; apply N.pow_le_mono_r; lia
      | apply N.mul_le_mono_r; lia ]).
Qed.

Lemma scan_uint (d : uint) (v : N) (n : nat) :
  PyInt.scan_digits (NilEmpty.string_of_uint d)
    {| PyInt.prev_underscore := false; PyInt.value := v; PyInt.digits := n |}
  = Some ({| PyInt.prev_underscore := false;
             PyInt.value := uint_value d v;
             PyInt.digits := nb_digits d + n |}, EmptyString).
Proof.
  revert v n. induction d; intros v n; cbn [NilEmpty.string_of_uint];
    [ reflexivity | .. ];
    (cbn -[N.mul N.add uint_value PyInt.digit_value];
     match goal with
     | |- context [PyInt.digit_value ?c] =>
         let x := eval vm_compute in (PyInt.digit_value c) in
         change (PyInt.digit_value c) with x
     end;
     cbv beta iota; rewrite IHd; cbn [uint_value nb_digits];
     repeat f_equal; lia).
Qed.

Lemma skip_space_head (c : ascii) (r : string) :
  PyInt.Py_ISSPACE c = false -> PyInt.skip_space (String c r) = String c r.
Proof. intros H. cbn [PyInt.skip_space]. now rewrite H. Qed.

(** [PyLong_FromString] on the digits of a positive number, with or
    without a minus sign. *)
Lemma PyLong_FromString_digits (d : uint) (negative : bool) :
  match d with Nil => False | _ => True end ->
  (nb_digits d <= PyInt.max_str_digits)%nat ->
  PyInt.PyLong_FromString
    (if negative then String "-" (NilEmpty.string_of_uint d)
     else NilEmpty.string_of_uint d)
  = Some (if negative then - Z.of_N (uint_value d 0) else Z.of_N (uint_value d 0)).
Proof.
  intros Hd Hn.
  assert (Hscan := scan_uint d 0 0).
  assert (Hlim : (PyInt.max_str_digits <? nb_digits d + 0)%nat = false)
    by (apply Nat.ltb_ge; lia).
  assert (Hzero : (nb_digits d + 0 =? 0)%nat = false)
    by (apply Nat.eqb_neq; destruct d; try contradiction; cbn [nb_digits]; lia).
  unfold PyInt.PyLong_FromString.
  destruct negative;
    destruct d; try contradiction;
    cbn [NilEmpty.string_of_uint] in *;
    rewrite skip_space_head by (vm_compute; reflexivity);
    cbv beta iota zeta;
    rewrite Hscan; cbn [PyInt.prev_underscore PyInt.digits PyInt.value];
    rewrite Hlim, Hzero; reflexivity.
Qed.

Lemma int_str (n : Z) :
  Z.abs n < 10 ^ Z.of_nat PyInt.max_str_digits ->
  PyInt.int (PyInt.str n) = Some n.
Proof.
  intros Hn. rewrite int_ascii by apply isascii_str.
  unfold PyInt.str. destruct n as [|p|p].
  - reflexivity.
  - cbn [Z.to_int NilZero.string_of_int].
    pose proof (to_uint_head p) as Hh.
    assert (Hd : (nb_digits (Pos.to_uint p) <= PyInt.max_str_digits)%nat).
    { apply nb_digits_bound. cbn [Z.abs] in Hn. lia. }
    pose proof (PyLong_FromString_digits (Pos.to_uint p) false) as H.
    cbn iota in H. rewrite uint_value_of_uint in H.
    change (N.of_uint (Pos.to_uint p)) with (Pos.of_uint (Pos.to_uint p)) in H.
    rewrite DecimalPos.Unsigned.of_to in H.
    unfold NilZero.string_of_uint.
    destruct (Pos.to_uint p) eqn:E; try contradiction; apply H; auto.
  - cbn [Z.to_int NilZero.string_of_int].
    pose proof (to_uint_head p) as Hh.
    assert (Hd : (nb_digits (Pos.to_uint p) <= PyInt.max_str_digits)%nat).
    { apply nb_digits_bound. cbn [Z.abs] in Hn. lia. }
    pose proof (PyLong_FromString_digits (Pos.to_uint p) true) as H.
    cbn iota in H. rewrite uint_value_of_uint in H.
    change (N.of_uint (Pos.to_uint p)) with (Pos.of_uint (Pos.to_uint p)) in H.
    rewrite DecimalPos.Unsigned.of_to in H.
    unfold NilZero.string_of_uint.
    destruct (Pos.to_uint p) eqn:E; try contradiction; apply H; auto.
Qed.

(** ** Base64 *)

Lemma all_below_spec (n : nat) (P : N -> bool) :
  all_below n P = true -> forall x : N, (x < N.of_nat n)%N -> P x = true.
Proof.
  unfold all_below. intros H x Hx.
  rewrite forallb_forall in H. apply H.
  apply in_map_iff. exists (N.to_nat x). split; [apply N2Nat.id|].
  apply in_seq. lia.
Qed.

Lemma char_ok_all (n : N) : (n < 64)%N -> char_ok n = true.
Proof. apply (all_below_spec 64). vm_compute. reflexivity. Qed.

Lemma bytes_ok_all (a b : N) : (a < 256)%N -> (b < 256)%N -> bytes_ok a b = true.
Proof.
  intros Ha Hb. revert b Hb.
  apply (all_below_spec 256 (fun b => bytes_ok a b)).
  revert a Ha.
  apply (all_below_spec 256 (fun a => all_below 256 (fun b => bytes_ok a b))).
  vm_compute. reflexivity.
Qed.

Lemma string_triple_ind (P : string -> Prop) :
  P EmptyString ->
  (forall a, P (String a EmptyString)) ->
  (forall a b, P (String a (String b EmptyString))) ->
  (forall a b c r, P r -> P (String a (String b (String c r)))) ->
  forall s, P s.
Proof.
  intros H0 H1 H2 H3 s.
  enough (H : P s /\ (forall a, P (String a s)) /\ (forall a b, P (String a (String b s))))
    by apply H.
  induction s as [|c r (IH0 & IH1 & IH2)].
  - auto.
  - repeat split; auto.
Qed.

(** One character of the alphabet through the loop of the decoder. *)
Lemma a2b_loop_char (n : N) (r : string) (quad_pos leftchar pads : N) :
  (n < 64)%N ->
  Base64.a2b_loop
    (String (Base64.urlsafe_decode_translation (urlsafe_char n)) r)
    quad_pos leftchar pads
  = if (quad_pos =? 0)%N then Base64.a2b_loop r 1 n 0
    else if (quad_pos =? 1)%N then
      Base64.emit (Base64.u8 (N.lor (N.shiftl leftchar 2) (N.shiftr n 4)))
        (Base64.a2b_loop r 2 (N.land n 15) 0)
    else if (quad_pos =? 2)%N then
      Base64.emit (Base64.u8 (N.lor (N.shiftl leftchar 4) (N.shiftr n 2)))
        (Base64.a2b_loop r 3 (N.land n 3) 0)
    else
      Base64.emit (Base64.u8 (N.lor (N.shiftl leftchar 6) n))
        (Base64.a2b_loop r 0 0 0).
Proof.
  intros Hn. pose proof (char_ok_all n Hn) as H. unfold char_ok in H.
  repeat (apply andb_prop in H as [H ?]).
  cbn [Base64.a2b_loop].
  destruct (Ascii.eqb (Base64.urlsafe_decode_translation (urlsafe_char n)) "=");
    [discriminate|].
  destruct (Base64.table_a2b_base64 _) as [v|]; [|discriminate].
  match goal with Hv : (v =? n)%N = true |- _ => apply N.eqb_eq in Hv; subst v end.
  reflexivity.
Qed.

Lemma u8_byte (x : N) (c : ascii) :
  ((x mod 256 =? Py.ord c) = true)%N -> Base64.u8 x = c.
Proof.
  intros H. apply N.eqb_eq in H. unfold Base64.u8. rewrite H. apply chr_ord.
Qed.

Lemma mod4_next (n : nat) : (S (S (S (S n))) mod 4 = n mod 4)%nat.
Proof.
  replace (S (S (S (S n)))) with (n + 1 * 4)%nat by lia.
  apply Nat.Div0.mod_add.
Qed.

Lemma a2b_loop_pad2 (leftchar : N) :
  Base64.a2b_loop "==" 2 leftchar 0 = Some EmptyString.
Proof. reflexivity. Qed.

Lemma a2b_loop_pad1 (leftchar : N) :
  Base64.a2b_loop "=" 3 leftchar 0 = Some EmptyString.
Proof. reflexivity. Qed.

Ltac bytes_facts a b :=
  let H := fresh "H" in
  pose proof (bytes_ok_all (Py.ord a) (Py.ord b) (ord_bound a) (ord_bound b)) as H;
  unfold bytes_ok in H;
  repeat (apply andb_prop in H as [H ?]).

Ltac land_fact :=
  match goal with
  | Hs : (N.land (sextet2 _ _) 15 =? _)%N = true |- _ =>
      apply N.eqb_eq in Hs; rewrite Hs
  end.

(** The lenient decoder reads the bytes back from their characters
    followed by the padding of [decode]. *)
Lemma a2b_token (data : string) :
  Base64.a2b_loop
    (Base64.translate Base64.urlsafe_decode_translation
       (token data +:+ Py.repeat_char "=" (4 - String.length (token data) mod 4)))
    0 0 0
  = Some data.
Proof.
  induction data as [|a|a b|a b c r IH] using string_triple_ind.
  - reflexivity.
  - bytes_facts a a.
    cbn [token String.length String.append Base64.translate].
    change (4 - 2 mod 4)%nat with 2%nat.
    cbn [Py.repeat_char Base64.translate].
    change (Base64.urlsafe_decode_translation "=") with "="%char.
    rewrite !a2b_loop_char by (apply N.ltb_lt; assumption).
    cbn [N.eqb Pos.eqb].
    rewrite a2b_loop_pad2. cbn [Base64.emit].
    f_equal. f_equal. apply u8_byte. assumption.
  - bytes_facts a b. bytes_facts b b.
    cbn [token String.length String.append Base64.translate].
    change (4 - 3 mod 4)%nat with 1%nat.
    cbn [Py.repeat_char Base64.translate].
    change (Base64.urlsafe_decode_translation "=") with "="%char.
    rewrite !a2b_loop_char by (apply N.ltb_lt; assumption).
    cbn [N.eqb Pos.eqb].
    rewrite a2b_loop_pad1. cbn [Base64.emit].
    land_fact.
    f_equal. f_equal; [apply u8_byte; assumption|].
    f_equal. apply u8_byte. assumption.
  - bytes_facts a b. bytes_facts b c. bytes_facts c c.
    cbn [token String.length String.append Base64.translate].
    rewrite mod4_next.
    rewrite !a2b_loop_char by (apply N.ltb_lt; assumption).
    cbn [N.eqb Pos.eqb].
    rewrite IH. cbn [Base64.emit].
    land_fact.
    f_equal. f_equal; [apply u8_byte; assumption|].
    f_equal; [apply u8_byte; assumption|].
    f_equal. apply u8_byte. assumption.
Qed.

Lemma urlsafe_char_facts (n : N) :
  (n <? 64)%N = true ->
  is_token_char (urlsafe_char n) = true
  /\ Ascii.eqb (urlsafe_char n) "=" = false
  /\ Py.is_ascii_char (urlsafe_char n) = true.
Proof.
  intros Hn. apply N.ltb_lt in Hn.
  pose proof (char_ok_all n Hn) as H. unfold char_ok in H.
  repeat (apply andb_prop in H as [H ?]).
  repeat split; [assumption|now apply negb_true_iff|assumption].
Qed.

Ltac char_facts :=
  repeat match goal with
    | H : (?n <? 64)%N = true |- _ =>
        let Ha := fresh "Ha" in let Hb := fresh "Hb" in let Hc := fresh "Hc" in
        destruct (urlsafe_char_facts n H) as (Ha & Hb & Hc); clear H
    end.

(** The characters of a token are of the URL-safe alphabet, so they are
    ASCII and none of them is the padding. *)
Lemma token_chars (data : string) :
  all_chars is_token_char (token data) = true
  /\ lacks "=" (token data) = true
  /\ Py.isascii (token data) = true.
Proof.
  unfold lacks.
  induction data as [|a|a b|a b c r (IH1 & IH2 & IH3)] using string_triple_ind.
  - repeat split; reflexivity.
  - bytes_facts a a. char_facts. cbn [token all_chars Py.isascii].
    repeat match goal with H : _ = _ |- _ => rewrite H end. repeat split; reflexivity.
  - bytes_facts a b. bytes_facts b b. char_facts. cbn [token all_chars Py.isascii].
    repeat match goal with H : _ = _ |- _ => rewrite H end. repeat split; reflexivity.
  - bytes_facts a b. bytes_facts b c. bytes_facts c c. char_facts.
    cbn [token all_chars Py.isascii].
    rewrite IH1, IH2, IH3.
    repeat match goal with H : _ = _ |- _ => rewrite H end.
    repeat split; reflexivity.
Qed.

(** [urlsafe_b64encode] gives the token followed by the padding. *)
Lemma urlsafe_b64encode_token (data : string) :
  Base64.urlsafe_b64encode data
  = token data +:+ Py.repeat_char "=" (pad_length (String.length data)).
Proof.
  unfold Base64.urlsafe_b64encode.
  induction data as [|a|a b|a b c r IH] using string_triple_ind;
    cbn [Base64.b2a_base64 Base64.translate token String.length String.append];
    unfold sextet2, sextet3; rewrite ?N.shiftr_0_l, ?N.lor_0_r;
    try reflexivity.
  rewrite IH. unfold pad_length.
  replace (S (S (S (String.length r))) mod 3)%nat with (String.length r mod 3)%nat;
    [reflexivity|].
  replace (S (S (S (String.length r)))) with (String.length r + 1 * 3)%nat by lia.
  symmetry. apply Nat.Div0.mod_add.
Qed.

Lemma rstrip_padding (c : ascii) (n : nat) :
  Py.rstrip c (Py.repeat_char c n) = EmptyString.
Proof.
  induction n as [|n IH]; cbn [Py.repeat_char Py.rstrip]; [reflexivity|].
  rewrite IH. now rewrite Ascii.eqb_refl.
Qed.

Lemma rstrip_token (c : ascii) (s : string) (n : nat) :
  lacks c s = true -> Py.rstrip c (s +:+ Py.repeat_char c n) = s.
Proof.
  unfold lacks. induction s as [|a r IH]; cbn [all_chars String.append Py.rstrip].
  - intros _. apply rstrip_padding.
  - intros H. apply andb_prop in H as [Ha Hr]. rewrite (IH Hr).
    apply negb_true_iff in Ha. rewrite Ha. now destruct r.
Qed.

Lemma lstrip_token (c : ascii) (s t : string) :
  lacks c s = true -> s <> EmptyString -> Py.lstrip c (s +:+ t) = s +:+ t.
Proof.
  unfold lacks. destruct s as [|a r]; [congruence|].
  cbn [all_chars String.append Py.lstrip].
  intros H _. apply andb_prop in H as [Ha _]. apply negb_true_iff in Ha.
  now rewrite Ha.
Qed.

Lemma token_nonempty (data : string) :
  data <> EmptyString -> token data <> EmptyString.
Proof. destruct data as [|a [|b [|c r]]]; cbn [token]; congruence. Qed.

(** [strip("=")] removes the padding and nothing else. *)
Lemma strip_urlsafe_b64encode (data : string) :
  Py.strip "=" (Base64.urlsafe_b64encode data) = token data.
Proof.
  rewrite urlsafe_b64encode_token. unfold Py.strip.
  destruct (token_chars data) as (_ & Hl & _).
  destruct data as [|a r]; [reflexivity|].
  rewrite lstrip_token; [now apply rstrip_token|assumption|].
  now apply token_nonempty.
Qed.

Lemma encode_token (msg_id : Z) : encode msg_id = token (PyInt.str msg_id).
Proof. apply strip_urlsafe_b64encode. Qed.

(** [decode] pads a token and reads the data back. *)
Lemma urlsafe_b64decode_token (data : string) :
  Base64.urlsafe_b64decode (token data +:+ decode_padding (token data)) = Some data.
Proof.
  destruct (token_chars data) as (_ & _ & Ha).
  unfold Base64.urlsafe_b64decode, Base64.a2b_base64.
  unfold decode_padding.
  rewrite isascii_app, Ha, isascii_repeat by reflexivity. cbn [andb].
  rewrite (len_ascii _ Ha). apply a2b_token.
Qed.

(** [decode] of a token is the integer its bytes spell, and 0 when they
    spell none. *)
Lemma decode_try_token (data : string) :
  decode_try (token data) = int_of_bytes data.
Proof.
  unfold decode_try. fold (decode_padding (token data)).
  now rewrite urlsafe_b64decode_token.
Qed.

Lemma int_of_bytes_str (msg_id : Z) :
  Z.abs msg_id < 10 ^ Z.of_nat PyInt.max_str_digits ->
  int_of_bytes (PyInt.str msg_id) = Some msg_id.
Proof.
  intros H. unfold int_of_bytes.
  rewrite bytes_decode_ascii by apply isascii_str. now apply int_str.
Qed.

Lemma decode_encode (msg_id : Z) :
  Z.abs msg_id < 10 ^ Z.of_nat PyInt.max_str_digits ->
  decode (encode msg_id) = msg_id.
Proof.
  intros H. unfold decode.
  now rewrite encode_token, decode_try_token, int_of_bytes_str.
Qed.

Lemma id_bytes_ok_all (a b : ascii) :
  is_id_char a = true -> is_id_char b = true ->
  Ascii.eqb (urlsafe_char (sextet1 (Py.ord a))) "_" = false
  /\ Ascii.eqb (urlsafe_char (sextet2 (Py.ord a) (Py.ord b))) "_" = false
  /\ Ascii.eqb (urlsafe_char (sextet2 (Py.ord a) 0)) "_" = false
  /\ Ascii.eqb (urlsafe_char (sextet3 (Py.ord a) (Py.ord b))) "_" = false
  /\ Ascii.eqb (urlsafe_char (sextet3 (Py.ord a) 0)) "_" = false
  /\ Ascii.eqb (urlsafe_char (sextet4 (Py.ord a))) "_" = false.
Proof.
  intros Ha Hb.
  assert (H : id_bytes_ok (Py.ord a) (Py.ord b) = true).
  { generalize (Py.ord b) (ord_bound b).
    apply (all_below_spec 256 (fun y => id_bytes_ok (Py.ord a) y)).
    generalize (Py.ord a) (ord_bound a).
    apply (all_below_spec 256 (fun x => all_below 256 (fun y => id_bytes_ok x y))).
    vm_compute. reflexivity. }
  unfold id_bytes_ok in H. rewrite !chr_ord, Ha, Hb in H. cbn [andb negb orb] in H.
  repeat (apply andb_prop in H as [H ?]).
  repeat split; now apply negb_true_iff.
Qed.

(** The token of digits and minus signs has no underscore. *)
Lemma token_lacks_underscore (data : string) :
  all_chars is_id_char data = true -> lacks "_" (token data) = true.
Proof.
  unfold lacks.
  induction data as [|a|a b|a b c r IH] using string_triple_ind;
    cbn [all_chars token]; intros H;
    repeat (apply andb_prop in H as [? H]).
  - reflexivity.
  - destruct (id_bytes_ok_all a a) as (K1 & _ & K2 & _); try assumption.
    now rewrite K1, K2.
  - destruct (id_bytes_ok_all a b) as (K1 & K2 & _); try assumption.
    destruct (id_bytes_ok_all b b) as (_ & _ & _ & _ & K3 & _); try assumption.
    now rewrite K1, K2, K3.
  - destruct (id_bytes_ok_all a b) as (K1 & K2 & _); try assumption.
    destruct (id_bytes_ok_all b c) as (_ & _ & _ & K3 & _); try assumption.
    destruct (id_bytes_ok_all c c) as (_ & _ & _ & _ & _ & K4); try assumption.
    now rewrite K1, K2, K3, K4, IH.
Qed.

Lemma id_chars_uint (d : uint) : all_chars is_id_char (NilEmpty.string_of_uint d) = true.
Proof. induction d; cbn [NilEmpty.string_of_uint all_chars]; try rewrite IHd; reflexivity. Qed.

Lemma id_chars_str (n : Z) : all_chars is_id_char (PyInt.str n) = true.
Proof.
  unfold PyInt.str. destruct n as [|p|p]; cbn [Z.to_int NilZero.string_of_int];
    [reflexivity| |];
    unfold NilZero.string_of_uint;
    destruct (Pos.to_uint p) eqn:E; try reflexivity; rewrite <- E;
    cbn [all_chars]; now rewrite id_chars_uint.
Qed.

(** A token of [encode] has no underscore. *)
Lemma encode_lacks_underscore (msg_id : Z) : lacks "_" (encode msg_id) = true.
Proof. rewrite encode_token. apply token_lacks_underscore, id_chars_str. Qed.

(** ** The link codec *)

(** C1. Link codec round trip.  For every content id [i] in the supported
    range (its decimal digits stay within the limit of Python's [int] and
    [str]), [decode (encode i) = i].  [encode] is a function of the id
    alone; its token is the URL-safe base64 text of [str i] with the
    trailing padding taken off, so it holds no ['='], and the padding that
    [decode] appends makes the decoder read the bytes of [str i] back. *)
Theorem C1_link_codec_round_trip (i : Z) :
  Z.abs i < 10 ^ Z.of_nat PyInt.max_str_digits ->
  decode (encode i) = i
  /\ Base64.urlsafe_b64encode (PyInt.str i)
     = encode i +:+ Py.repeat_char "=" (pad_length (String.length (PyInt.str i)))
  /\ lacks "=" (encode i) = true
  /\ Base64.urlsafe_b64decode (encode i +:+ decode_padding (encode i))
     = Some (PyInt.str i).
Proof.
  intros Hi. split; [now apply decode_encode|].
  rewrite encode_token. split; [apply urlsafe_b64encode_token|].
  split; [apply token_chars|apply urlsafe_b64decode_token].
Qed.

Lemma C1_link_codec_round_trip_witness :
  Z.abs 123 < 10 ^ Z.of_nat PyInt.max_str_digits /\ decode (encode 123) = 123.
Proof.
  split; [vm_compute; reflexivity|].
  apply (C1_link_codec_round_trip 123). vm_compute. reflexivity.
Defined.

Lemma token_char_ok_all (c : ascii) :
  is_token_char c = true ->
  Ascii.eqb (Base64.urlsafe_decode_translation c) "=" = false
  /\ exists v, Base64.table_a2b_base64 (Base64.urlsafe_decode_translation c) = Some v.
Proof.
  intros Hc.
  assert (H : token_char_ok (Py.ord c) = true).
  { apply (all_below_spec 256); [vm_compute; reflexivity|apply ord_bound]. }
  unfold token_char_ok in H. rewrite chr_ord, Hc in H. cbn [negb orb] in H.
  apply andb_prop in H as [H1 H2]. split; [now apply negb_true_iff|].
  destruct (Base64.table_a2b_base64 _) as [v|]; [now exists v|discriminate].
Qed.

Lemma token_char_ascii (c : ascii) :
  is_token_char c = true -> Py.is_ascii_char c = true.
Proof.
  unfold is_token_char, Py.is_ascii_char. intros H. apply N.ltb_lt.
  repeat (apply orb_prop in H as [H|H]);
    repeat (apply andb_prop in H as [H ?]);
    repeat match goal with
      | H : (_ <=? _)%N = true |- _ => apply N.leb_le in H
      | H : (_ =? _)%N = true |- _ => apply N.eqb_eq in H
      end; lia.
Qed.

Lemma token_chars_ascii (s : string) :
  all_chars is_token_char s = true -> Py.isascii s = true.
Proof.
  induction s as [|c r IH]; cbn [all_chars Py.isascii]; [reflexivity|].
  intros H. apply andb_prop in H as [Hc Hr].
  now rewrite (token_char_ascii c Hc), IH.
Qed.

(** Characters of the alphabet move the decoder on by their number: when
    it fails on what follows them, it fails on the whole. *)
Lemma a2b_loop_token_chars (s : string) :
  all_chars is_token_char s = true ->
  forall quad_pos leftchar pads : N,
    (quad_pos < 4)%N ->
    exists leftchar' pads' : N,
    forall rest : string,
      Base64.a2b_loop (Base64.translate Base64.urlsafe_decode_translation rest)
        ((quad_pos + N.of_nat (String.length s)) mod 4) leftchar' pads' = None ->
      Base64.a2b_loop
        (Base64.translate Base64.urlsafe_decode_translation (s +:+ rest))
        quad_pos leftchar pads = None.
Proof.
  induction s as [|c r IH]; intros Hs q l p Hq.
  - exists l, p. intros rest. cbn [String.length String.append N.of_nat].
    now rewrite N.add_0_r, N.mod_small.
  - cbn [all_chars] in Hs. apply andb_prop in Hs as [Hc Hr].
    destruct (token_char_ok_all c Hc) as [Hne [v Hv]].
    assert (Hnext : forall q' l' p', (q' < 4)%N ->
              ((q' + N.of_nat (String.length r)) mod 4
               = (q + N.of_nat (String.length (String c r))) mod 4)%N ->
              exists leftchar' pads' : N, forall rest : string,
                Base64.a2b_loop (Base64.translate Base64.urlsafe_decode_translation rest)
                  ((q + N.of_nat (String.length (String c r))) mod 4) leftchar' pads' = None ->
                Base64.a2b_loop
                  (Base64.translate Base64.urlsafe_decode_translation (r +:+ rest))
                  q' l' p' = None).
    { intros q' l' p' Hq' E. destruct (IH Hr q' l' p' Hq') as (l2 & p2 & H).
      exists l2, p2. intros rest. rewrite <- E. apply H. }
    assert (Hlen : N.of_nat (String.length (String c r))
                   = (1 + N.of_nat (String.length r))%N)
      by (cbn [String.length]; lia).
    assert (Hq4 : q = 0%N \/ q = 1%N \/ q = 2%N \/ q = 3%N) by lia.
    destruct Hq4 as [-> | [-> | [-> | ->]]].
    + destruct (Hnext 1%N v 0%N) as (l2 & p2 & H); [lia|rewrite Hlen; f_equal; lia|].
      exists l2, p2. intros rest Hrest.
      cbn [String.append Base64.translate Base64.a2b_loop]. rewrite Hne, Hv.
      cbn [N.eqb]. now apply H.
    + destruct (Hnext 2%N (N.land v 15) 0%N) as (l2 & p2 & H);
        [lia|rewrite Hlen; f_equal; lia|].
      exists l2, p2. intros rest Hrest.
      cbn [String.append Base64.translate Base64.a2b_loop]. rewrite Hne, Hv.
      cbn [N.eqb Pos.eqb]. now rewrite (H rest Hrest).
    + destruct (Hnext 3%N (N.land v 3) 0%N) as (l2 & p2 & H);
        [lia|rewrite Hlen; f_equal; lia|].
      exists l2, p2. intros rest Hrest.
      cbn [String.append Base64.translate Base64.a2b_loop]. rewrite Hne, Hv.
      cbn [N.eqb Pos.eqb]. now rewrite (H rest Hrest).
    + destruct (Hnext 0%N 0%N 0%N) as (l2 & p2 & H); [lia| |].
      { rewrite Hlen, N.add_0_l.
        replace (3 + (1 + N.of_nat (String.length r)))%N
          with (N.of_nat (String.length r) + 1 * 4)%N by lia.
        now rewrite N.Div0.mod_add. }
      exists l2, p2. intros rest Hrest.
      cbn [String.append Base64.translate Base64.a2b_loop]. rewrite Hne, Hv.
      cbn [N.eqb Pos.eqb]. now rewrite (H rest Hrest).
Qed.

Lemma a2b_loop_pad3 (leftchar pads : N) :
  Base64.a2b_loop "===" 1 leftchar pads = None.
Proof. reflexivity. Qed.

Lemma decode_not_ascii (s : string) : Py.isascii s = false -> decode s = 0.
Proof.
  intros H. unfold decode, decode_try, Base64.urlsafe_b64decode.
  now rewrite isascii_app, H.
Qed.

Lemma decode_bad_length (s : string) :
  all_chars is_token_char s = true ->
  (String.length s mod 4 = 1)%nat ->
  decode s = 0.
Proof.
  intros Hs Hlen. pose proof (token_chars_ascii s Hs) as Ha.
  unfold decode, decode_try, Base64.urlsafe_b64decode, Base64.a2b_base64.
  rewrite (len_ascii s Ha), Hlen.
  rewrite isascii_app, Ha. cbn [andb Py.isascii Py.repeat_char Nat.sub].
  change (Py.is_ascii_char "=" && (Py.is_ascii_char "=" && (Py.is_ascii_char "=" && true)))
    with true. cbv iota.
  destruct (a2b_loop_token_chars s Hs 0 0 0) as (l & p & H); [lia|].
  rewrite H; [reflexivity|].
  rewrite N.add_0_l.
  replace (N.of_nat (String.length s) mod 4)%N with 1%N.
  - apply a2b_loop_pad3.
  - change 4%N with (N.of_nat 4). rewrite <- Nat2N.inj_mod, Hlen. reflexivity.
Qed.

(** C2, as amended.  [decode] is total, so it never raises, and it yields 0
    on a malformed payload of each of these kinds: a payload with a
    character that is not ASCII, a payload of characters of the alphabet
    whose number cannot be that of a token, and the token of bytes that do
    not spell an integer. *)
Theorem C2_decode_malformed (s : string) : malformed s -> decode s = 0.
Proof.
  intros [s' H | s' H1 H2 | data H].
  - now apply decode_not_ascii.
  - now apply decode_bad_length.
  - unfold decode. now rewrite decode_try_token, H.
Qed.

Lemma C2_decode_malformed_witness : malformed "M" /\ decode "M" = 0.
Proof.
  assert (H : malformed "M") by (apply malformed_length; reflexivity).
  split; [exact H|]. exact (C2_decode_malformed "M" H).
Defined.

(** C2 as the specification states it fails: ["MTIz!"] is the encoding of
    no id, since ['!'] is not of the alphabet, and [decode] reads 123 from
    it, since the decoder skips such a character. *)
Lemma C2_counterexample :
  ~ (forall s : string, (forall i : Z, encode i <> s) -> decode s = 0).
Proof.
  intros H. specialize (H "MTIz!").
  assert (Hd : decode "MTIz!" = 123) by (vm_compute; reflexivity).
  rewrite H in Hd; [discriminate|].
  intros i Hi. destruct (token_chars (PyInt.str i)) as (Hc & _).
  rewrite <- encode_token, Hi in Hc. vm_compute in Hc. discriminate.
Qed.

(** ** The access gate *)

Lemma check_channel_filter (w : World) (user_id : Z) (channels missing : list Z) :
  fold_left (check_channel w user_id) channels missing
  = missing ++ List.filter (fun c => is_missing (get_chat_member w c user_id)) channels.
Proof.
  revert missing. induction channels as [|c r IH]; intros missing; cbn [fold_left List.filter].
  - now rewrite app_nil_r.
  - rewrite IH. unfold check_channel.
    destruct (get_chat_member w c user_id) as [[]| |]; cbn [is_missing];
      now rewrite <- ?app_assoc.
Qed.

Lemma check_force_sub_filter (cfg : Config) (w : World) (user_id : Z) :
  check_force_sub cfg w user_id
  = List.filter (fun c => is_missing (get_chat_member w c user_id)) (FORCE_SUB_CHANNELS cfg).
Proof.
  unfold check_force_sub. destruct (FORCE_SUB_CHANNELS cfg) as [|c r] eqn:E; [reflexivity|].
  now rewrite check_channel_filter.
Qed.

(** C5. Access gate, fail-open.  The gap is the required channels, in
    their order, whose lookup returns the status banned or left or raises
    [UserNotParticipant]; a channel whose lookup raises anything else is
    never in the gap. *)
Theorem C5_access_gate_fail_open (cfg : Config) (w : World) (user_id channel : Z) :
  check_force_sub cfg w user_id
  = List.filter (fun c => is_missing (get_chat_member w c user_id)) (FORCE_SUB_CHANNELS cfg)
  /\ (In channel (check_force_sub cfg w user_id) <->
      In channel (FORCE_SUB_CHANNELS cfg)
      /\ match get_chat_member w channel user_id with
         | Member BANNED | Member LEFT | UserNotParticipant => True
         | Member _ | LookupError => False
         end).
Proof.
  split; [apply check_force_sub_filter|].
  rewrite check_force_sub_filter, filter_In.
  destruct (get_chat_member w channel user_id) as [[]| |]; cbn [is_missing];
    intuition discriminate.
Qed.

(** ** [start_handler] *)

Lemma start_handler_events (cfg : Config) (w : World) (users_col : users_collection)
    (batches_col : batches_collection) (message : Message) :
  snd (start_handler cfg w users_col batches_col message)
  = start_log cfg users_col message ++
    if is_banned (current_user cfg users_col message)
    then [Reply TBanned []]
    else match command message with
         | _ :: payload :: _ =>
             dispatch cfg w batches_col (current_user cfg users_col message)
               (from_user_id message) payload
         | _ => [Reply (THome (first_name message)) home_buttons]
         end.
Proof.
  unfold start_handler, start_log, current_user, is_banned.
  destruct (add_user cfg users_col (from_user_id message) (first_name message));
    reflexivity.
Qed.

Lemma add_user_known (cfg : Config) (users_col : users_collection) (user_id : Z)
    (name : string) (u : user_doc) :
  get_user users_col user_id = Some u ->
  add_user cfg users_col user_id name = (users_col, []).
Proof.
  unfold get_user, add_user. destruct users_col as [col|]; [|discriminate].
  now intros ->.
Qed.

Lemma start_log_quiet (cfg : Config) (users_col : users_collection) (message : Message) :
  existsb is_http_get (start_log cfg users_col message) = false
  /\ existsb is_copy (start_log cfg users_col message) = false
  /\ existsb is_error_reply (start_log cfg users_col message) = false.
Proof.
  unfold start_log, add_user. destruct users_col as [col|]; [|repeat split; reflexivity].
  destruct (find_user col (from_user_id message)); [repeat split; reflexivity|].
  cbn [snd]. destruct (LOG_CHANNEL cfg =? 0); repeat split; reflexivity.
Qed.

Lemma deliver_direct_no_http (cfg : Config) (w : World) (user_id msg_id : Z) :
  existsb is_http_get (deliver_direct cfg w user_id msg_id) = false.
Proof.
  unfold deliver_direct, schedule_auto_delete. cbn [existsb is_http_get orb].
  destruct (copy_message w user_id (DB_CHANNEL cfg) msg_id); [|reflexivity].
  now destruct (0 <? AUTO_DELETE_TIME cfg).
Qed.

Lemma deliver_verified_no_http (cfg : Config) (w : World) (user_id msg_id : Z) :
  existsb is_http_get (deliver_verified cfg w user_id msg_id) = false.
Proof.
  unfold deliver_verified. cbn [existsb is_http_get orb].
  destruct (copy_message w user_id (DB_CHANNEL cfg) msg_id); [|reflexivity].
  now destruct (0 <? AUTO_DELETE_TIME cfg).
Qed.

(** ** The shortener *)

Lemma get_short_link_fallback (cfg : Config) (w : World) (long_url : string) :
  provider_failed (http_get_json w (shortener_api_url cfg w long_url)) ->
  fst (get_short_link cfg w long_url) = PStr long_url.
Proof.
  unfold get_short_link, provider_failed. intros H.
  destruct (SHORTENER_URLS cfg) as [|t ts]; [reflexivity|]. cbn [fst].
  destruct (http_get_json w _) as [[| | | | | |d]|]; try reflexivity.
  destruct H as (H1 & H2 & H3). unfold dict_get. now rewrite H1, H2, H3.
Qed.

(** C4. Shortener fallback.  When the call of the provider raises (no
    connection, a body that is not JSON), or its JSON answer is no object or
    an object with none of the keys [shortenedUrl], [url] and [short_url],
    [get_short_link] returns the URL it was given; and a request that goes
    through the shortener (a fresh link of a user who is not premium) is
    then answered with an "unlock" button on the verification link itself,
    so the user is not blocked. *)
Theorem C4_shortener_fallback (cfg : Config) (w : World) (long_url : string) :
  provider_failed (http_get_json w (shortener_api_url cfg w long_url)) ->
  fst (get_short_link cfg w long_url) = PStr long_url
  /\ forall (users_col : users_collection) (batches_col : batches_collection)
        (message : Message) (c0 payload : string) (rest : list string),
      long_url = start_link cfg ("verify_" +:+ payload) ->
      SHORTENER_URLS cfg <> [] ->
      is_banned (current_user cfg users_col message) = false ->
      is_prem (current_user cfg users_col message) = false ->
      command message = c0 :: payload :: rest ->
      check_force_sub cfg w (from_user_id message) = [] ->
      Py.startswith payload "batch_" = false ->
      Py.startswith payload "verify_" = false ->
      decode payload <> 0 ->
      snd (start_handler cfg w users_col batches_col message)
      = start_log cfg users_col message
        ++ [HttpGet (shortener_api_url cfg w long_url);
            Reply TSecureLink [[UrlButton LblUnlock (PStr long_url)]]].
Proof.
  intros H. split; [now apply get_short_link_fallback|].
  intros users_col batches_col message c0 payload rest Hurl Hs Hb Hp Hc Hgate Hbatch Hverify Hid.
  rewrite start_handler_events, Hb, Hc. f_equal.
  unfold dispatch. rewrite Hgate, Hbatch, Hverify.
  apply Z.eqb_neq in Hid. rewrite Hid.
  fold (is_prem (current_user cfg users_col message)). rewrite Hp.
  rewrite <- Hurl.
  pose proof (get_short_link_fallback cfg w long_url H) as Hf.
  unfold get_short_link in *.
  destruct (SHORTENER_URLS cfg) as [|t ts]; [congruence|].
  cbn [andb negb fst] in *. now rewrite Hf.
Qed.

Lemma C4_shortener_fallback_witness :
  fst (get_short_link cfg_shortener world_quiet "https://t.me/filestore_bot?start=verify_MTIz")
  = PStr "https://t.me/filestore_bot?start=verify_MTIz"
  /\ snd (start_handler cfg_shortener world_quiet users_free None (start_message "MTIz"))
     = [HttpGet "https://short.example/api?api=KEY&url=https%3A//t.me/filestore_bot%3Fstart%3Dverify_MTIz";
        Reply TSecureLink
          [[UrlButton LblUnlock (PStr "https://t.me/filestore_bot?start=verify_MTIz")]]].
Proof.
  assert (H : provider_failed
                (http_get_json world_quiet
                   (shortener_api_url cfg_shortener world_quiet
                      "https://t.me/filestore_bot?start=verify_MTIz")))
    by (repeat split; reflexivity).
  destruct (C4_shortener_fallback _ _ _ H) as [H1 H2].
  split; [exact H1|].
  refine (H2 users_free None (start_message "MTIz") "start" "MTIz" [] _ _ _ _ _ _ _ _ _);
    try reflexivity; discriminate.
Defined.

(** C3. Premium verification bypass.  For a content request by a user
    whose record is premium (a user who is not banned and has passed the
    gate, with a plain token that decodes to an id), the handler does
    nothing but copy the content to the user, and makes no call of the
    shortener, whatever [SHORTENER_URLS] holds. *)
Theorem C3_premium_bypass (cfg : Config) (w : World) (users_col : users_collection)
    (batches_col : batches_collection) (message : Message) (u : user_doc)
    (c0 payload : string) (rest : list string) :
  get_user users_col (from_user_id message) = Some u ->
  is_premium u = true ->
  banned u = false ->
  command message = c0 :: payload :: rest ->
  check_force_sub cfg w (from_user_id message) = [] ->
  Py.startswith payload "batch_" = false ->
  Py.startswith payload "verify_" = false ->
  decode payload <> 0 ->
  let evs := snd (start_handler cfg w users_col batches_col message) in
  evs = deliver_direct cfg w (from_user_id message) (decode payload)
  /\ hd_error evs
     = Some (CopyMessage (from_user_id message) (DB_CHANNEL cfg) (decode payload)
               (PROTECT_CONTENT cfg))
  /\ existsb is_http_get evs = false.
Proof.
  intros Hu Hp Hb Hc Hgate Hbatch Hverify Hid evs.
  assert (E : evs = deliver_direct cfg w (from_user_id message) (decode payload)).
  { subst evs. rewrite start_handler_events.
    unfold start_log, current_user. rewrite (add_user_known _ _ _ _ _ Hu).
    cbn [fst snd app]. rewrite Hu. cbn [is_banned]. rewrite Hb, Hc.
    unfold dispatch. rewrite Hgate, Hbatch, Hverify.
    apply Z.eqb_neq in Hid. rewrite Hid. cbn [is_prem]. rewrite Hp.
    now rewrite andb_false_r. }
  rewrite E. split; [reflexivity|]. split; [reflexivity|].
  apply deliver_direct_no_http.
Qed.

Lemma C3_premium_bypass_witness :
  snd (start_handler cfg_shortener world_quiet users_premium None (start_message "MTIz"))
  = [CopyMessage 7 (-1001000) 123 true; CreateAutoDeleteTask (Copied 5123) 600].
Proof.
  refine (proj1 (C3_premium_bypass cfg_shortener world_quiet users_premium None
                   (start_message "MTIz")
                   {| _id := 7; name := "Asha"; is_premium := true; banned := false |}
                   "start" "MTIz" [] _ _ _ _ _ _ _ _));
    try reflexivity.
  vm_compute. discriminate.
Defined.

(** A premium user never meets the shortener, whatever the request is. *)
Lemma premium_never_shortened (cfg : Config) (w : World) (users_col : users_collection)
    (batches_col : batches_collection) (message : Message) (u : user_doc) :
  get_user users_col (from_user_id message) = Some u ->
  is_premium u = true ->
  existsb is_http_get (snd (start_handler cfg w users_col batches_col message)) = false.
Proof.
  intros Hu Hp. rewrite start_handler_events.
  unfold start_log, current_user. rewrite (add_user_known _ _ _ _ _ Hu).
  cbn [fst snd app]. rewrite Hu. cbn [is_banned].
  destruct (banned u); [reflexivity|].
  destruct (command message) as [|c0 [|payload rest]]; try reflexivity.
  unfold dispatch.
  destruct (check_force_sub cfg w (from_user_id message)); [|reflexivity].
  destruct (Py.startswith payload "batch_").
  { destruct (Py.index _ 1); [|reflexivity].
    destruct (get_batch batches_col _) as [doc|]; [|reflexivity].
    cbn [existsb is_http_get orb]. rewrite existsb_app. cbn [existsb is_http_get orb].
    rewrite orb_false_r.
    induction (range_ids doc) as [|m r IH]; [reflexivity|].
    cbn [deliver_batch existsb is_http_get orb]. rewrite existsb_app, IH, orb_false_r.
    destruct (copy_message w _ _ m); [|reflexivity].
    rewrite existsb_app. unfold schedule_auto_delete.
    now destruct (0 <? AUTO_DELETE_TIME cfg). }
  destruct (Py.startswith payload "verify_").
  { destruct (Py.index _ 1); [|reflexivity].
    destruct (decode _ =? 0); [reflexivity|apply deliver_verified_no_http]. }
  destruct (decode payload =? 0); [reflexivity|].
  cbn [is_prem]. rewrite Hp, andb_false_r. apply deliver_direct_no_http.
Qed.

(** ** Payloads *)

Lemma prefix_split (p s : string) :
  String.prefix p s = true -> exists t, s = p +:+ t.
Proof.
  revert s. induction p as [|a p IH]; intros s H.
  - now exists s.
  - destruct s as [|b s]; [discriminate|]. cbn [String.prefix] in H.
    destruct (ascii_dec a b) as [->|]; [|discriminate].
    destruct (IH s H) as [t ->]. now exists t.
Qed.

Lemma prefix_app (p t : string) : String.prefix p (p +:+ t) = true.
Proof.
  induction p as [|a p IH]; [now destruct t|].
  cbn [String.append String.prefix]. now destruct (ascii_dec a a).
Qed.

Lemma all_chars_app (P : ascii -> bool) (s t : string) :
  all_chars P (s +:+ t) = all_chars P s && all_chars P t.
Proof.
  induction s as [|c r IH]; cbn [String.append all_chars]; [reflexivity|].
  now rewrite IH, andb_assoc.
Qed.

(** A string without the underscore holds no ["verify_"]. *)
Lemma lacks_underscore_no_verify (s : string) :
  lacks "_" s = true -> occurs "verify_" s = false.
Proof.
  unfold lacks. induction s as [|c r IH]; intros H; [reflexivity|].
  cbn [occurs]. cbn [all_chars] in H. apply andb_prop in H as [Hc Hr].
  rewrite (IH Hr), orb_false_r.
  destruct (String.prefix "verify_" (String c r)) eqn:E; [|reflexivity].
  apply prefix_split in E as [t E].
  assert (Hall : all_chars (fun a => negb (Ascii.eqb a "_")) (String c r) = true)
    by (cbn [all_chars]; now rewrite Hc, Hr).
  rewrite E, all_chars_app in Hall. discriminate.
Qed.

Lemma replace_from_absent (old new s : string) :
  occurs old s = false -> Py.replace_from old new s 0 = s.
Proof.
  induction s as [|c r IH]; intros H; [reflexivity|].
  cbn [occurs] in H. apply orb_false_elim in H as [Hp Hr].
  cbn [Py.replace_from]. now rewrite Hp, (IH Hr).
Qed.

(** [replace] changes nothing when [old] does not occur. *)
Lemma replace_absent (s old new : string) :
  old <> EmptyString -> occurs old s = false -> Py.replace s old new = s.
Proof.
  intros Hold H. unfold Py.replace. destruct old; [congruence|].
  now apply replace_from_absent.
Qed.

Lemma replace_from_skip (old new p t : string) :
  Py.replace_from old new (p +:+ t) (String.length p) = Py.replace_from old new t 0.
Proof.
  induction p as [|c p IH]; [reflexivity|].
  cbn [String.append String.length Py.replace_from]. exact IH.
Qed.

(** [replace] takes a leading [old] away. *)
Lemma replace_leading (old new t : string) :
  old <> EmptyString ->
  Py.replace (old +:+ t) old new = new +:+ Py.replace t old new.
Proof.
  intros Hold. unfold Py.replace. destruct old as [|c old]; [congruence|].
  assert (Hp := prefix_app (String c old) t).
  cbn [String.append] in *. cbn [Py.replace_from]. rewrite Hp.
  cbn [String.length Nat.sub]. rewrite Nat.sub_0_r.
  now rewrite replace_from_skip.
Qed.

(** [split] of a string without the separator is the string alone. *)
Lemma split_lacks (sep : ascii) (s : string) :
  lacks sep s = true -> Py.split sep s = [s].
Proof.
  unfold lacks. induction s as [|c r IH]; intros H; [reflexivity|].
  cbn [all_chars] in H. apply andb_prop in H as [Hc Hr].
  apply negb_true_iff in Hc. cbn [Py.split]. now rewrite Hc, (IH Hr).
Qed.

Lemma split_nonempty (sep : ascii) (s : string) : Py.split sep s <> [].
Proof.
  induction s as [|c r IH]; cbn [Py.split]; [discriminate|].
  destruct (Ascii.eqb c sep); [discriminate|].
  now destruct (Py.split sep r).
Qed.

Lemma split_verify (t : string) :
  Py.split "_" ("verify_" +:+ t) = "verify" :: Py.split "_" t.
Proof.
  pose proof (split_nonempty "_" t) as H.
  cbn. now destruct (Py.split "_" t).
Qed.

Lemma split_batch (t : string) :
  Py.split "_" ("batch_" +:+ t) = "batch" :: Py.split "_" t.
Proof.
  pose proof (split_nonempty "_" t) as H.
  cbn. now destruct (Py.split "_" t).
Qed.

Lemma startswith_verify (t : string) :
  Py.startswith ("verify_" +:+ t) "batch_" = false
  /\ Py.startswith ("verify_" +:+ t) "verify_" = true.
Proof. split; [reflexivity|apply (prefix_app "verify_")]. Qed.

Lemma startswith_batch (t : string) : Py.startswith ("batch_" +:+ t) "batch_" = true.
Proof. apply (prefix_app "batch_"). Qed.

(** ** The answer to a membership gap *)

Lemma imap_join_row (w : World) (missing : list Z) (i : nat) (cid : Z) :
  missing !! i = Some cid ->
  exists url, imap (join_row w) missing !! i = Some [UrlButton (LblJoinChannel (i + 1)) url].
Proof.
  intros H. rewrite list_lookup_imap, H. cbn. unfold join_row.
  destruct (get_chat w cid); eauto.
Qed.

Lemma batch_payload_no_verify (id : string) :
  lacks "_" id = true -> occurs "verify_" ("batch_" +:+ id) = false.
Proof.
  intros H. apply lacks_underscore_no_verify in H.
  cbn [String.append occurs]. rewrite H. reflexivity.
Qed.

(** C6, as amended.  When the gap is not empty the handler answers with
    one "Join Channel" row per missing channel, numbered in their order,
    and one "Try Again" row after them.  The link of "Try Again" carries the
    payload with every ["verify_"] taken out: a payload without
    ["verify_"], such as a token of [encode] or a batch payload, is carried
    unchanged, and [verify_<token>] is carried as the token. *)
Theorem C6_access_denied (cfg : Config) (w : World) (users_col : users_collection)
    (batches_col : batches_collection) (message : Message)
    (c0 payload : string) (rest : list string) (missing : list Z) :
  is_banned (current_user cfg users_col message) = false ->
  command message = c0 :: payload :: rest ->
  check_force_sub cfg w (from_user_id message) = missing ->
  missing <> [] ->
  let rows := imap (join_row w) missing in
  let orig := Py.replace payload "verify_" EmptyString in
  snd (start_handler cfg w users_col batches_col message)
  = start_log cfg users_col message
    ++ [Reply TAccessDenied
          (rows ++ [[UrlButton LblTryAgain (PStr (start_link cfg orig))]])]
  /\ length rows = length missing
  /\ (forall i cid, missing !! i = Some cid ->
      exists url, rows !! i = Some [UrlButton (LblJoinChannel (i + 1)) url])
  /\ (occurs "verify_" payload = false -> orig = payload)
  /\ (forall i, payload = encode i -> orig = payload)
  /\ (forall id, payload = "batch_" +:+ id -> lacks "_" id = true -> orig = payload)
  /\ (forall t, payload = "verify_" +:+ t -> occurs "verify_" t = false -> orig = t).
Proof.
  intros Hb Hc Hm Hne rows orig. subst orig.
  split; [|split; [|split; [|split; [|split; [|split]]]]].
  - rewrite start_handler_events, Hb, Hc. unfold dispatch. rewrite Hm.
    destruct missing; [congruence|reflexivity].
  - apply length_imap.
  - intros i cid. apply imap_join_row.
  - intros H. now apply replace_absent.
  - intros i ->. apply replace_absent; [discriminate|].
    apply lacks_underscore_no_verify, encode_lacks_underscore.
  - intros id -> H. apply replace_absent; [discriminate|].
    now apply batch_payload_no_verify.
  - intros t -> H. rewrite replace_leading by discriminate.
    now rewrite replace_absent.
Qed.

Lemma C6_access_denied_witness :
  snd (start_handler cfg_channels world_quiet None None (start_message "batch_AAAAAAAA"))
  = [Reply TAccessDenied
       [[UrlButton (LblJoinChannel 1) (PStr "https://t.me/c/2001/1")];
        [UrlButton LblTryAgain (PStr "https://t.me/filestore_bot?start=batch_AAAAAAAA")]]].
Proof.
  refine (proj1 (C6_access_denied cfg_channels world_quiet None None
                   (start_message "batch_AAAAAAAA") "start" "batch_AAAAAAAA" []
                   [-1002001] _ _ _ _));
    try reflexivity.
  discriminate.
Defined.

(** C6 as the specification states it fails: for the payload
    [verify_MTIz] the link of "Try Again" carries [MTIz], not the payload. *)
Lemma C6_counterexample :
  snd (start_handler cfg_channels world_quiet None None (start_message "verify_MTIz"))
  = [Reply TAccessDenied
       [[UrlButton (LblJoinChannel 1) (PStr "https://t.me/c/2001/1")];
        [UrlButton LblTryAgain (PStr "https://t.me/filestore_bot?start=MTIz")]]]
  /\ start_link cfg_channels "verify_MTIz" <> "https://t.me/filestore_bot?start=MTIz".
Proof. split; [reflexivity|discriminate]. Qed.

(** ** The verify mode *)

(** What the verify mode does with [verify_<t>]: it decodes [t] up to its
    first underscore. *)
Lemma verify_mode_events (cfg : Config) (w : World)
    (users_col : users_collection) (batches_col : batches_collection)
    (message : Message) (c0 t real_code : string) (rest : list string) :
  is_banned (current_user cfg users_col message) = false ->
  command message = c0 :: ("verify_" +:+ t) :: rest ->
  check_force_sub cfg w (from_user_id message) = [] ->
  Py.index (Py.split "_" t) 0 = Some real_code ->
  snd (start_handler cfg w users_col batches_col message)
  = start_log cfg users_col message
    ++ if decode real_code =? 0 then [Reply TInvalidLink []]
       else deliver_verified cfg w (from_user_id message) (decode real_code).
Proof.
  intros Hb Hc Hgate Hcode.
  rewrite start_handler_events, Hb, Hc. f_equal.
  unfold dispatch. rewrite Hgate.
  destruct (startswith_verify t) as [-> ->].
  rewrite split_verify. unfold Py.index in *.
  destruct (Py.split "_" t) as [|seg segs]; [discriminate|].
  cbn [nth_error] in *. now injection Hcode as ->.
Qed.

(** C9.  [verify_<token>] is not authenticated.  Let [t] be a token of
    the codec, the token of an id [i], that decodes to an id other than 0.
    For every user who is not banned and has passed the gate, premium or
    not, with or without a shortener configured, the handler answers
    [verify_<t>] with the copy of the content [decode t] at once, without a
    call of the shortener and without a look at any record of a
    verification: it keeps none, and reads the state from the prefix alone.
    Within the range of the codec that content is the content of [i]. *)
Theorem C9_verify_unauthenticated (cfg : Config) (w : World)
    (users_col : users_collection) (batches_col : batches_collection)
    (message : Message) (c0 t : string) (rest : list string) (i : Z) :
  t = encode i ->
  decode t <> 0 ->
  is_banned (current_user cfg users_col message) = false ->
  command message = c0 :: ("verify_" +:+ t) :: rest ->
  check_force_sub cfg w (from_user_id message) = [] ->
  let evs := snd (start_handler cfg w users_col batches_col message) in
  evs = start_log cfg users_col message
        ++ deliver_verified cfg w (from_user_id message) (decode t)
  /\ In (CopyMessage (from_user_id message) (DB_CHANNEL cfg) (decode t)
           (PROTECT_CONTENT cfg)) evs
  /\ existsb is_http_get evs = false
  /\ (Z.abs i < 10 ^ Z.of_nat PyInt.max_str_digits -> decode t = i).
Proof.
  intros Ht Hid Hb Hc Hgate evs.
  assert (Hcode : Py.index (Py.split "_" t) 0 = Some t).
  { rewrite Ht. now rewrite (split_lacks _ _ (encode_lacks_underscore i)). }
  assert (E : evs = start_log cfg users_col message
                    ++ deliver_verified cfg w (from_user_id message) (decode t)).
  { subst evs. rewrite (verify_mode_events cfg w users_col batches_col message
                          c0 t t rest Hb Hc Hgate Hcode).
    apply Z.eqb_neq in Hid. now rewrite Hid. }
  rewrite E. split; [reflexivity|]. split; [|split].
  - apply in_or_app. right. now left.
  - rewrite existsb_app, deliver_verified_no_http.
    now destruct (start_log_quiet cfg users_col message) as (-> & _).
  - intros Hi. rewrite Ht. now apply decode_encode.
Qed.

Lemma C9_verify_unauthenticated_witness :
  snd (start_handler cfg_shortener world_quiet users_free None (start_message "verify_MTIz"))
  = [CopyMessage 7 (-1001000) 123 true;
     CreateAutoDeleteTask (Copied 5123) 600;
     Reply (TDeleteNote 10) [];
     CreateAutoDeleteTask (Replied (TDeleteNote 10)) 600].
Proof.
  refine (proj1 (C9_verify_unauthenticated cfg_shortener world_quiet users_free None
                   (start_message "verify_MTIz") "start" "MTIz" [] 123 _ _ _ _ _));
    try reflexivity.
  vm_compute. discriminate.
Defined.

(** A payload behind [verify_] that is no token of the codec and holds an
    underscore is read up to that underscore: [decode "M_"] is 3, and
    [verify_M_] is answered with "Invalid Link", since the handler decodes
    ["M"]. *)
Lemma verify_reads_up_to_underscore :
  decode "M_" = 3
  /\ snd (start_handler cfg_plain world_quiet users_free None (start_message "verify_M_"))
     = [Reply TInvalidLink []].
Proof. split; vm_compute; reflexivity. Qed.

(** In particular the verification link of an id, sent by anyone who
    passes the gate, delivers that id. *)
Lemma verify_encoded_id (cfg : Config) (w : World)
    (users_col : users_collection) (batches_col : batches_collection)
    (message : Message) (c0 : string) (i : Z) (rest : list string) :
  is_banned (current_user cfg users_col message) = false ->
  command message = c0 :: ("verify_" +:+ encode i) :: rest ->
  check_force_sub cfg w (from_user_id message) = [] ->
  Z.abs i < 10 ^ Z.of_nat PyInt.max_str_digits ->
  i <> 0 ->
  snd (start_handler cfg w users_col batches_col message)
  = start_log cfg users_col message ++ deliver_verified cfg w (from_user_id message) i.
Proof.
  intros Hb Hc Hgate Hi Hne.
  rewrite (verify_mode_events cfg w users_col batches_col message
             c0 (encode i) (encode i) rest Hb Hc Hgate).
  - rewrite (decode_encode i Hi). apply Z.eqb_neq in Hne. now rewrite Hne.
  - now rewrite (split_lacks _ _ (encode_lacks_underscore i)).
Qed.

(** ** Batches *)

Lemma range_In (start stop x : Z) : In x (range start stop) <-> start <= x < stop.
Proof.
  unfold range. rewrite in_map_iff. split.
  - intros (k & <- & Hk). apply in_seq in Hk. lia.
  - intros H. exists (Z.to_nat (x - start)). split; [lia|]. apply in_seq. lia.
Qed.

Lemma range_sorted (start stop : Z) : StronglySorted Z.lt (range start stop).
Proof.
  unfold range. generalize (Z.to_nat (stop - start)) as n. generalize 0%nat as k.
  intros k n. revert k. induction n as [|n IH]; intros k; cbn [seq map].
  - constructor.
  - constructor; [apply IH|].
    apply List.Forall_forall. intros x Hx. apply in_map_iff in Hx as (j & <- & Hj).
    apply in_seq in Hj. lia.
Qed.

Lemma range_empty (start stop : Z) : stop <= start -> range start stop = [].
Proof. intros H. unfold range. now replace (Z.to_nat (stop - start)) with 0%nat by lia. Qed.

Lemma find_batch_app_new (col : list batch_doc) (doc : batch_doc) :
  find_batch col (batch_id doc) = None ->
  find_batch (col ++ [doc]) (batch_id doc) = Some doc.
Proof.
  unfold find_batch. intros H.
  induction col as [|d col IH]; cbn [app List.find] in *.
  - now rewrite String.eqb_refl.
  - destruct (String.eqb (batch_id d) (batch_id doc)); [discriminate|]. now apply IH.
Qed.

Lemma batch_handler_created (cfg : Config) (w : World) (col : list batch_doc)
    (message : Message) (first last : Z) (c0 arg last_part : string)
    (rest : list string) :
  reply_to_message message = Some first ->
  command message = c0 :: arg :: rest ->
  Py.index_last (Py.split "/" arg) = Some last_part ->
  PyInt.int last_part = Some last ->
  let id := random_choices w ascii_letters_digits 8 in
  let doc := {| batch_id := id; range_ids := range first (last + 1) |} in
  batch_handler cfg w (Some col) message
  = (Some (col ++ [doc]),
     [Reply (TBatchCreated (length (range first (last + 1)))
               (start_link cfg ("batch_" +:+ id)))
        [[UrlButton LblShareBatch
            (PStr ("https://t.me/share/url?url=" +:+ start_link cfg ("batch_" +:+ id)))]]]).
Proof.
  intros Hr Hc Hl Hi id doc. unfold batch_handler, batch_try.
  rewrite Hr, Hc. cbn [Py.index nth_error]. rewrite Hl, Hi. reflexivity.
Qed.

(** C7, as amended.  [/batch] in reply to the message [first] with a link
    that ends in [last], where [first <= last], stores the ids from [first]
    to [last], each once and in increasing order, under the id that was
    drawn; when no batch was stored under that id before, [get_batch] of
    it gives that document back. *)
Theorem C7_batch_integrity (cfg : Config) (w : World) (col : list batch_doc)
    (message : Message) (first last : Z) (c0 arg last_part : string)
    (rest : list string) :
  reply_to_message message = Some first ->
  command message = c0 :: arg :: rest ->
  Py.index_last (Py.split "/" arg) = Some last_part ->
  PyInt.int last_part = Some last ->
  first <= last ->
  let id := random_choices w ascii_letters_digits 8 in
  find_batch col id = None ->
  let doc := {| batch_id := id; range_ids := range first (last + 1) |} in
  let batches_col := fst (batch_handler cfg w (Some col) message) in
  batches_col = Some (col ++ [doc])
  /\ get_batch batches_col id = Some doc
  /\ (forall x, In x (range_ids doc) <-> first <= x <= last)
  /\ StronglySorted Z.lt (range_ids doc)
  /\ length (range_ids doc) = Z.to_nat (last - first + 1).
Proof.
  intros Hr Hc Hl Hi Hle id Hfresh doc batches_col.
  subst batches_col. rewrite (batch_handler_created cfg w col message first last
                                c0 arg last_part rest Hr Hc Hl Hi).
  cbn [fst get_batch]. split; [reflexivity|]. split; [|split; [|split]].
  - apply (find_batch_app_new col doc Hfresh).
  - intros x. cbn [range_ids doc]. rewrite range_In. lia.
  - apply range_sorted.
  - cbn [range_ids doc]. unfold range. rewrite length_map, length_seq. f_equal. lia.
Qed.

Lemma C7_batch_integrity_witness :
  get_batch (fst (batch_handler cfg_plain world_quiet (Some [])
                    (batch_message 5 "https://t.me/c/1000/9")))
    "AAAAAAAA"
  = Some {| batch_id := "AAAAAAAA"; range_ids := [5; 6; 7; 8; 9] |}.
Proof.
  refine (proj1 (proj2 (C7_batch_integrity cfg_plain world_quiet []
                          (batch_message 5 "https://t.me/c/1000/9") 5 9
                          "batch" "https://t.me/c/1000/9" "9" [] _ _ _ _ _ _)));
    try reflexivity.
  vm_compute. discriminate.
Defined.

(** C7 as the specification states it fails when the id that is drawn is
    the id of an earlier batch: the new batch is stored and reported, and
    [get_batch] of the returned id gives the earlier batch. *)
Lemma C7_counterexample :
  batch_handler cfg_plain world_quiet (Some batches_earlier)
    (batch_message 5 "https://t.me/c/1000/9")
  = (Some [{| batch_id := "AAAAAAAA"; range_ids := [1] |};
           {| batch_id := "AAAAAAAA"; range_ids := [5; 6; 7; 8; 9] |}],
     [Reply (TBatchCreated 5 "https://t.me/filestore_bot?start=batch_AAAAAAAA")
        [[UrlButton LblShareBatch
            (PStr "https://t.me/share/url?url=https://t.me/filestore_bot?start=batch_AAAAAAAA")]]])
  /\ get_batch (fst (batch_handler cfg_plain world_quiet (Some batches_earlier)
                       (batch_message 5 "https://t.me/c/1000/9")))
       "AAAAAAAA"
     = Some {| batch_id := "AAAAAAAA"; range_ids := [1] |}.
Proof. split; vm_compute; reflexivity. Qed.

Lemma all_chars_impl (P Q : ascii -> bool) (s : string) :
  (forall c, P c = true -> Q c = true) ->
  all_chars P s = true -> all_chars Q s = true.
Proof.
  intros HPQ. induction s as [|c r IH]; cbn [all_chars]; [reflexivity|].
  intros H. apply andb_prop in H as [Hc Hr]. now rewrite (HPQ c Hc), IH.
Qed.

(** An id drawn from the letters and digits has no underscore. *)
Lemma choices_lack_underscore (k : nat) (s : string) :
  is_choices ascii_letters_digits k s = true -> lacks "_" s = true.
Proof.
  unfold is_choices, lacks. intros H. apply andb_prop in H as [_ H].
  revert H. apply all_chars_impl. intros c Hc.
  destruct (Ascii.eqb c "_") eqn:E; [|reflexivity].
  apply Ascii.eqb_eq in E. subst c. vm_compute in Hc. discriminate.
Qed.

(** C10, as amended.  [last < first] is not refused: [/batch] stores a
    document with no ids under the id that was drawn and reports success
    with 0 files.  When the id is one that [random.choices] can draw and no
    batch was stored under it before, a request for that batch by a user
    who is not banned and has passed the gate copies nothing and shows no
    error: the handler sends "Processing 0 files..." and deletes it. *)
Theorem C10_empty_batch (cfg : Config) (w : World) (col : list batch_doc)
    (message : Message) (first last : Z) (c0 arg last_part : string)
    (rest : list string) (users_col : users_collection) (request : Message)
    (c1 : string) (rest1 : list string) :
  reply_to_message message = Some first ->
  command message = c0 :: arg :: rest ->
  Py.index_last (Py.split "/" arg) = Some last_part ->
  PyInt.int last_part = Some last ->
  last < first ->
  let id := random_choices w ascii_letters_digits 8 in
  is_choices ascii_letters_digits 8 id = true ->
  find_batch col id = None ->
  is_banned (current_user cfg users_col request) = false ->
  command request = c1 :: ("batch_" +:+ id) :: rest1 ->
  check_force_sub cfg w (from_user_id request) = [] ->
  let link := start_link cfg ("batch_" +:+ id) in
  batch_handler cfg w (Some col) message
  = (Some (col ++ [{| batch_id := id; range_ids := [] |}]),
     [Reply (TBatchCreated 0 link)
        [[UrlButton LblShareBatch (PStr ("https://t.me/share/url?url=" +:+ link))]]])
  /\ let evs := snd (start_handler cfg w users_col
                       (fst (batch_handler cfg w (Some col) message)) request) in
     evs = start_log cfg users_col request
           ++ [Reply (TProcessing 0) []; DeleteMessage (Replied (TProcessing 0))]
     /\ existsb is_copy evs = false
     /\ existsb is_error_reply evs = false.
Proof.
  intros Hr Hc Hl Hi Hlt id Hid Hfresh Hb Hreq Hgate link.
  assert (Hcreate := batch_handler_created cfg w col message first last
                       c0 arg last_part rest Hr Hc Hl Hi).
  cbv zeta in Hcreate. rewrite (range_empty first (last + 1)) in Hcreate by lia.
  fold id in Hcreate. fold link in Hcreate. cbn [length] in Hcreate.
  rewrite Hcreate. split; [reflexivity|]. cbn [fst].
  assert (E : snd (start_handler cfg w users_col
                     (Some (col ++ [{| batch_id := id; range_ids := [] |}])) request)
              = start_log cfg users_col request
                ++ [Reply (TProcessing 0) []; DeleteMessage (Replied (TProcessing 0))]).
  { rewrite start_handler_events, Hb, Hreq. f_equal.
    unfold dispatch. rewrite Hgate, startswith_batch, split_batch.
    rewrite (split_lacks _ _ (choices_lack_underscore _ _ Hid)).
    cbn [Py.index nth_error get_batch].
    assert (Hf : find_batch (col ++ [{| batch_id := id; range_ids := [] |}]) id
                 = Some {| batch_id := id; range_ids := [] |})
      by apply (find_batch_app_new col {| batch_id := id; range_ids := [] |} Hfresh).
    rewrite Hf. reflexivity. }
  cbv zeta. rewrite E. split; [reflexivity|].
  rewrite !existsb_app.
  destruct (start_log_quiet cfg users_col request) as (_ & -> & ->).
  split; reflexivity.
Qed.

Lemma C10_empty_batch_witness :
  batch_handler cfg_plain world_quiet (Some []) (batch_message 9 "https://t.me/c/1000/5")
  = (Some [{| batch_id := "AAAAAAAA"; range_ids := [] |}],
     [Reply (TBatchCreated 0 "https://t.me/filestore_bot?start=batch_AAAAAAAA")
        [[UrlButton LblShareBatch
            (PStr "https://t.me/share/url?url=https://t.me/filestore_bot?start=batch_AAAAAAAA")]]])
  /\ snd (start_handler cfg_plain world_quiet users_free
            (fst (batch_handler cfg_plain world_quiet (Some [])
                    (batch_message 9 "https://t.me/c/1000/5")))
            (start_message "batch_AAAAAAAA"))
     = [Reply (TProcessing 0) []; DeleteMessage (Replied (TProcessing 0))].
Proof.
  pose proof (C10_empty_batch cfg_plain world_quiet []
                (batch_message 9 "https://t.me/c/1000/5") 9 5
                "batch" "https://t.me/c/1000/5" "5" [] users_free
                (start_message "batch_AAAAAAAA") "start" []) as H.
  cbv zeta in H.
  destruct H as [H1 [H2 _]]; try reflexivity.
  split; [exact H1|exact H2].
Defined.

(** C10 as the specification states it fails when the id that is drawn is
    the id of an earlier batch: the id returned is not a fresh one, and the
    request for it copies the content of the earlier batch. *)
Lemma C10_counterexample :
  find_batch batches_earlier (random_choices world_quiet ascii_letters_digits 8)
  = Some {| batch_id := "AAAAAAAA"; range_ids := [1] |}
  /\ snd (batch_handler cfg_plain world_quiet (Some batches_earlier)
            (batch_message 9 "https://t.me/c/1000/5"))
     = [Reply (TBatchCreated 0 "https://t.me/filestore_bot?start=batch_AAAAAAAA")
          [[UrlButton LblShareBatch
              (PStr "https://t.me/share/url?url=https://t.me/filestore_bot?start=batch_AAAAAAAA")]]]
  /\ snd (start_handler cfg_plain world_quiet users_free
            (fst (batch_handler cfg_plain world_quiet (Some batches_earlier)
                    (batch_message 9 "https://t.me/c/1000/5")))
            (start_message "batch_AAAAAAAA"))
     = [Reply (TProcessing 1) [];
        CopyMessage 7 (-1001000) 1 true;
        CreateAutoDeleteTask (Copied 5001) 600;
        Sleep (Tenths 8);
        DeleteMessage (Replied (TProcessing 1))].
Proof. repeat split; vm_compute; reflexivity. Qed.

(** ** The broadcast *)

(** C8.  The broadcast to three users in a world where the copy to user 1
    is throttled for two seconds and its one retry fails: the executor
    sleeps for the two seconds and retries once, as the specification says,
    but the failure of the retry leaves the loop: users 2 and 3 are never
    tried and no tally is reported, which the specification excludes. *)
Theorem C8_broadcast_retry_failure :
  get_all_users users_three = [1; 2; 3]
  /\ broadcast world_throttled users_three
     = [Reply TBroadcastStarted [];
        BroadcastCopy 1; Sleep (Seconds 2); BroadcastCopy 1;
        Raise (SendError SendFailed)].
Proof. split; vm_compute; reflexivity. Qed.

(** The failure of a retry ends the loop with the users after it untried. *)
Lemma broadcast_loop_retry_fails (w : World) (user : Z) (rest : list Z) (t : tally) :
  retry_fails w user = true ->
  exists value,
    message_copy w user 0 = FloodWait value
    /\ broadcast_loop w (user :: rest) t
       = ([BroadcastCopy user; Sleep (Seconds value); BroadcastCopy user],
          inl (SendError (message_copy w user 1))).
Proof.
  unfold retry_fails. cbn [broadcast_loop].
  destruct (message_copy w user 0) as [|value|]; try discriminate.
  intros H. exists value. split; [reflexivity|].
  destruct (message_copy w user 1); [discriminate|reflexivity|reflexivity].
Qed.

(** When no retry fails, the loop reaches the end of the audience, and
    every user is counted once, as a success or as a failure. *)
Lemma broadcast_loop_completes (w : World) (users : list Z) (t : tally) :
  forallb (fun user => negb (retry_fails w user)) users = true ->
  exists evs t',
    broadcast_loop w users t = (evs, inr t')
    /\ (success t' + failed t' = success t + failed t + length users)%nat
    /\ failed t'
       = (failed t
          + length (List.filter (fun user =>
                      match message_copy w user 0 with
                      | SendFailed => true
                      | _ => false
                      end) users))%nat.
Proof.
  revert t. induction users as [|user rest IH]; intros t H.
  - exists [], t. cbn. repeat split; lia.
  - cbn [forallb] in H. apply andb_prop in H as [Hu Hrest].
    unfold retry_fails in Hu. cbn [broadcast_loop List.filter].
    destruct (message_copy w user 0) as [|value|].
    + destruct (IH {| success := success t + 1; failed := failed t |} Hrest)
        as (evs & t' & -> & H1 & H2).
      eexists _, t'. split; [reflexivity|]. cbn [success failed length] in *. lia.
    + destruct (message_copy w user 1); try discriminate.
      destruct (IH {| success := success t + 1; failed := failed t |} Hrest)
        as (evs & t' & -> & H1 & H2).
      eexists _, t'. split; [reflexivity|]. cbn [success failed length] in *. lia.
    + destruct (IH {| success := success t; failed := failed t + 1 |} Hrest)
        as (evs & t' & -> & H1 & H2).
      eexists _, t'. split; [reflexivity|]. cbn [success failed length] in *. lia.
Qed.

(** * Further properties *)

(** ** More on the link codec *)

Lemma token_injective (a b : string) : token a = token b -> a = b.
Proof.
  intros H. pose proof (urlsafe_b64decode_token a) as Ha.
  rewrite H, urlsafe_b64decode_token in Ha. now injection Ha.
Qed.

Lemma str_injective (i j : Z) : PyInt.str i = PyInt.str j -> i = j.
Proof.
  unfold PyInt.str. intros H. apply DecimalZ.to_int_inj.
  assert (Hnil : forall n, Z.to_int n <> Pos Nil /\ Z.to_int n <> Neg Nil).
  { intros [|p|p]; cbn [Z.to_int]; split; try discriminate;
      intros [= E]; now apply (DecimalPos.Unsigned.to_uint_nonnil p). }
  destruct (Hnil i) as [Hi1 Hi2]. destruct (Hnil j) as [Hj1 Hj2].
  pose proof (NilZero.isi _ Hi1 Hi2) as Ei. pose proof (NilZero.isi _ Hj1 Hj2) as Ej.
  rewrite H in Ei. rewrite Ei in Ej. now injection Ej.
Qed.

(** X1.  [encode] is injective: two ids have the same token only when they
    are the same id, so a token names one stored message. *)
Theorem X1_encode_injective (i j : Z) : encode i = encode j <-> i = j.
Proof.
  split; [|now intros ->].
  rewrite !encode_token. intros H. now apply str_injective, token_injective.
Qed.

Lemma id_alnum_ok_all (a b : ascii) :
  is_id_char a = true -> is_id_char b = true ->
  is_alnum_char (urlsafe_char (sextet1 (Py.ord a))) = true
  /\ is_alnum_char (urlsafe_char (sextet2 (Py.ord a) (Py.ord b))) = true
  /\ is_alnum_char (urlsafe_char (sextet2 (Py.ord a) 0)) = true
  /\ is_alnum_char (urlsafe_char (sextet3 (Py.ord a) (Py.ord b))) = true
  /\ is_alnum_char (urlsafe_char (sextet3 (Py.ord a) 0)) = true
  /\ is_alnum_char (urlsafe_char (sextet4 (Py.ord a))) = true.
Proof.
  intros Ha Hb.
  assert (H : id_alnum_ok (Py.ord a) (Py.ord b) = true).
  { generalize (Py.ord b) (ord_bound b).
    apply (all_below_spec 256 (fun y => id_alnum_ok (Py.ord a) y)).
    generalize (Py.ord a) (ord_bound a).
    apply (all_below_spec 256 (fun x => all_below 256 (fun y => id_alnum_ok x y))).
    vm_compute. reflexivity. }
  unfold id_alnum_ok in H. rewrite !chr_ord, Ha, Hb in H. cbn [andb negb orb] in H.
  repeat (apply andb_prop in H as [H ?]).
  repeat split; assumption.
Qed.

Lemma token_alnum (data : string) :
  all_chars is_id_char data = true -> all_chars is_alnum_char (token data) = true.
Proof.
  induction data as [|a|a b|a b c r IH] using string_triple_ind;
    cbn [all_chars token]; intros H;
    repeat (apply andb_prop in H as [? H]).
  - reflexivity.
  - destruct (id_alnum_ok_all a a) as (K1 & _ & K2 & _); try assumption.
    now rewrite K1, K2.
  - destruct (id_alnum_ok_all a b) as (K1 & K2 & _); try assumption.
    destruct (id_alnum_ok_all b b) as (_ & _ & _ & _ & K3 & _); try assumption.
    now rewrite K1, K2, K3.
  - destruct (id_alnum_ok_all a b) as (K1 & K2 & _); try assumption.
    destruct (id_alnum_ok_all b c) as (_ & _ & _ & K3 & _); try assumption.
    destruct (id_alnum_ok_all c c) as (_ & _ & _ & _ & _ & K4); try assumption.
    now rewrite K1, K2, K3, K4, IH.
Qed.

Lemma token_length (data : string) :
  String.length (token data) = ((4 * String.length data + 2) / 3)%nat.
Proof.
  induction data as [|a|a b|a b c r IH] using string_triple_ind;
    cbn [token String.length]; try reflexivity.
  rewrite IH.
  replace (4 * S (S (S (String.length r))) + 2)%nat
    with ((4 * String.length r + 2) + 4 * 3)%nat by lia.
  rewrite Nat.div_add by lia. lia.
Qed.

Lemma str_nonempty (n : Z) : PyInt.str n <> EmptyString.
Proof.
  unfold PyInt.str. destruct n as [|p|p]; cbn [Z.to_int NilZero.string_of_int];
    try discriminate.
  pose proof (to_uint_head p) as H. unfold NilZero.string_of_uint.
  destruct (Pos.to_uint p); try contradiction; discriminate.
Qed.

(** X2.  A token of [encode] is made of letters and digits only, it is not
    empty, and it has four characters for every three of [str(msg_id)],
    rounded up: it can stand in a link as it is. *)
Theorem X2_token_alphanumeric (msg_id : Z) :
  all_chars is_alnum_char (encode msg_id) = true
  /\ encode msg_id <> EmptyString
  /\ String.length (encode msg_id)
     = ((4 * String.length (PyInt.str msg_id) + 2) / 3)%nat.
Proof.
  rewrite encode_token. split; [apply token_alnum, id_chars_str|].
  split; [apply token_nonempty, str_nonempty|apply token_length].
Qed.

Lemma repeat_char_app (c : ascii) (m n : nat) :
  Py.repeat_char c (m + n) = Py.repeat_char c m +:+ Py.repeat_char c n.
Proof. induction m as [|m IH]; cbn [Nat.add Py.repeat_char String.append]; [reflexivity|]. now rewrite IH. Qed.

Lemma append_assoc (a b c : string) : (a +:+ b) +:+ c = a +:+ (b +:+ c).
Proof. induction a as [|x a IH]; cbn [String.append]; [reflexivity|]. now rewrite IH. Qed.

Lemma length_append (s t : string) :
  String.length (s +:+ t) = (String.length s + String.length t)%nat.
Proof. induction s as [|c r IH]; cbn [String.append String.length]; [reflexivity|]. now rewrite IH. Qed.

Lemma length_repeat_char (c : ascii) (n : nat) : String.length (Py.repeat_char c n) = n.
Proof. induction n as [|n IH]; cbn [Py.repeat_char String.length]; [reflexivity|]. now rewrite IH. Qed.

Lemma translate_pads (n : nat) :
  Base64.translate Base64.urlsafe_decode_translation (Py.repeat_char "=" n)
  = Py.repeat_char "=" n.
Proof. induction n as [|n IH]; cbn [Py.repeat_char Base64.translate]; [reflexivity|]. now rewrite IH. Qed.

(** Padding at the start of a group is skipped. *)
Lemma a2b_loop_pads_0 (m : nat) (leftchar pads : N) :
  Base64.a2b_loop (Py.repeat_char "=" m) 0 leftchar pads = Some EmptyString.
Proof. induction m as [|m IH]; [reflexivity|]. cbn [Py.repeat_char]. exact (IH). Qed.

(** Two characters of padding, or more, end a group of two. *)
Lemma a2b_loop_pads_2 (m : nat) (leftchar : N) :
  (2 <= m)%nat -> Base64.a2b_loop (Py.repeat_char "=" m) 2 leftchar 0 = Some EmptyString.
Proof. destruct m as [|[|m]]; [lia|lia|reflexivity]. Qed.

(** One character of padding, or more, ends a group of three. *)
Lemma a2b_loop_pads_3 (m : nat) (leftchar : N) :
  (1 <= m)%nat -> Base64.a2b_loop (Py.repeat_char "=" m) 3 leftchar 0 = Some EmptyString.
Proof. destruct m as [|m]; [lia|reflexivity]. Qed.

(** The decoder reads the bytes back from their characters followed by
    any padding that fills the last group of four. *)
Lemma a2b_token_pads (data : string) (m : nat) :
  ((String.length (token data) + m) mod 4 = 0)%nat ->
  (1 <= m)%nat ->
  Base64.a2b_loop
    (Base64.translate Base64.urlsafe_decode_translation
       (token data +:+ Py.repeat_char "=" m))
    0 0 0
  = Some data.
Proof.
  induction data as [|a|a b|a b c r IH] using string_triple_ind; intros Hm H1.
  - cbn [token String.append]. rewrite translate_pads. apply a2b_loop_pads_0.
  - bytes_facts a a.
    cbn [token String.length String.append Base64.translate] in *.
    rewrite translate_pads.
    rewrite !a2b_loop_char by (apply N.ltb_lt; assumption).
    cbn [N.eqb Pos.eqb].
    rewrite a2b_loop_pads_2; [|destruct m as [|[|m]]; [lia|discriminate Hm|lia]].
    cbn [Base64.emit]. f_equal. f_equal. apply u8_byte. assumption.
  - bytes_facts a b. bytes_facts b b.
    cbn [token String.length String.append Base64.translate] in *.
    rewrite translate_pads.
    rewrite !a2b_loop_char by (apply N.ltb_lt; assumption).
    cbn [N.eqb Pos.eqb].
    rewrite a2b_loop_pads_3 by assumption. cbn [Base64.emit].
    land_fact.
    f_equal. f_equal; [apply u8_byte; assumption|].
    f_equal. apply u8_byte. assumption.
  - bytes_facts a b. bytes_facts b c. bytes_facts c c.
    cbn [token String.length String.append Base64.translate] in *.
    rewrite !a2b_loop_char by (apply N.ltb_lt; assumption).
    cbn [N.eqb Pos.eqb].
    cbn [Nat.add] in Hm. rewrite mod4_next in Hm.
    rewrite (IH Hm H1).
    cbn [Base64.emit].
    land_fact.
    f_equal. f_equal; [apply u8_byte; assumption|].
    f_equal; [apply u8_byte; assumption|].
    f_equal. apply u8_byte. assumption.
Qed.

Lemma decode_try_token_padded (data : string) (k : nat) :
  decode_try (token data +:+ Py.repeat_char "=" k) = int_of_bytes data.
Proof.
  destruct (token_chars data) as (_ & _ & Ha).
  assert (Hp : Py.isascii (token data +:+ Py.repeat_char "=" k) = true)
    by (rewrite isascii_app, Ha, isascii_repeat; reflexivity).
  unfold decode_try, Base64.urlsafe_b64decode, Base64.a2b_base64.
  rewrite (len_ascii _ Hp), length_append, length_repeat_char.
  set (x := (String.length (token data) + k)%nat).
  rewrite isascii_app, Hp, isascii_repeat by reflexivity. cbn [andb].
  rewrite append_assoc, <- repeat_char_app.
  assert (Hx : (x mod 4 < 4)%nat) by (apply Nat.mod_upper_bound; lia).
  rewrite a2b_token_pads; [reflexivity| |lia].
  replace (String.length (token data) + (k + (4 - x mod 4)))%nat
    with ((x / 4 + 1) * 4)%nat.
  - apply Nat.Div0.mod_mul.
  - pose proof (Nat.div_mod_eq x 4). subst x. lia.
Qed.

(** X3.  A token still decodes to its id when any number of ['='] follows
    it, so a link that kept the padding of base64 works like the stripped
    one. *)
Theorem X3_decode_padded_token (msg_id : Z) (k : nat) :
  Z.abs msg_id < 10 ^ Z.of_nat PyInt.max_str_digits ->
  decode (encode msg_id +:+ Py.repeat_char "=" k) = msg_id.
Proof.
  intros H. unfold decode.
  now rewrite encode_token, decode_try_token_padded, int_of_bytes_str.
Qed.

Lemma X3_decode_padded_token_witness :
  Z.abs 123456 < 10 ^ Z.of_nat PyInt.max_str_digits
  /\ decode (encode 123456 +:+ "==") = 123456.
Proof.
  split; [vm_compute; reflexivity|].
  apply (X3_decode_padded_token 123456 2). vm_compute. reflexivity.
Defined.

(** ** The users *)

Lemma find_user_id (col : list user_doc) (user_id : Z) (u : user_doc) :
  find_user col user_id = Some u -> _id u = user_id.
Proof.
  unfold find_user. intros H. apply find_some in H as [_ H]. now apply Z.eqb_eq.
Qed.

Lemma find_user_In (col : list user_doc) (user_id : Z) :
  find_user col user_id = None -> ~ In user_id (map _id col).
Proof.
  unfold find_user. intros H Hin. apply in_map_iff in Hin as (u & Hu & Hin).
  pose proof (find_none _ _ H u Hin) as Hf. cbn in Hf. lia.
Qed.

Lemma find_user_app_known (col extra : list user_doc) (user_id : Z) (u : user_doc) :
  find_user col user_id = Some u -> find_user (col ++ extra) user_id = Some u.
Proof.
  unfold find_user. induction col as [|d col IH]; cbn [app List.find]; [discriminate|].
  destruct (_id d =? user_id); [auto|exact IH].
Qed.

Lemma find_user_app_new (col : list user_doc) (u : user_doc) :
  find_user col (_id u) = None -> find_user (col ++ [u]) (_id u) = Some u.
Proof.
  unfold find_user. induction col as [|d col IH]; cbn [app List.find].
  - now rewrite Z.eqb_refl.
  - destruct (_id d =? _id u); [discriminate|exact IH].
Qed.

Lemma find_user_app_other (col : list user_doc) (u : user_doc) (other : Z) :
  other <> _id u -> find_user (col ++ [u]) other = find_user col other.
Proof.
  intros Hne. unfold find_user. induction col as [|d col IH]; cbn [app List.find].
  - replace (_id u =? other) with false; [reflexivity|]. symmetry. apply Z.eqb_neq. congruence.
  - destruct (_id d =? other); [reflexivity|exact IH].
Qed.

(** X4.  [add_user] keeps one record per user id: on a collection with
    distinct ids it leaves the ids distinct, it changes no record that is
    there, the user has a record afterwards, a record it creates is neither
    premium nor banned, and a second call changes nothing. *)
Theorem X4_add_user_keeps_records (cfg : Config) (col : list user_doc)
    (user_id : Z) (nm : string) :
  NoDup (map _id col) ->
  exists col',
    fst (add_user cfg (Some col) user_id nm) = Some col'
    /\ NoDup (map _id col')
    /\ (forall other u, find_user col other = Some u -> find_user col' other = Some u)
    /\ (forall other, other <> user_id -> find_user col' other = find_user col other)
    /\ (find_user col user_id = None ->
        find_user col' user_id
        = Some {| _id := user_id; name := nm; is_premium := false; banned := false |})
    /\ (exists u, find_user col' user_id = Some u)
    /\ add_user cfg (Some col') user_id nm = (Some col', []).
Proof.
  intros Hnd. unfold add_user.
  destruct (find_user col user_id) as [u|] eqn:Hf.
  - exists col. cbn [fst]. rewrite Hf. repeat split; auto; try discriminate. now exists u.
  - set (new := {| _id := user_id; name := nm; is_premium := false; banned := false |}).
    exists (col ++ [new]). cbn [fst].
    assert (Hnew : find_user (col ++ [new]) user_id = Some new)
      by (apply (find_user_app_new col new); exact Hf).
    rewrite Hnew. repeat split; auto.
    + rewrite map_app. cbn [map]. apply NoDup_app. split; [exact Hnd|]. split.
      * intros x Hx%list_elem_of_In Hy%list_elem_of_In. destruct Hy as [<-|[]].
        now apply (find_user_In col user_id Hf).
      * apply NoDup_singleton.
    + intros other u. apply find_user_app_known.
    + intros other Hne. now apply (find_user_app_other col new).
    + now exists new.
Qed.

Lemma X4_add_user_keeps_records_witness :
  exists col',
    fst (add_user cfg_plain users_free 8 "Bela") = Some col'
    /\ NoDup (map _id col')
    /\ find_user col' 7
       = Some {| _id := 7; name := "Asha"; is_premium := false; banned := false |}
    /\ find_user col' 8
       = Some {| _id := 8; name := "Bela"; is_premium := false; banned := false |}.
Proof.
  assert (Hnd : NoDup (map _id [{| _id := 7; name := "Asha";
                                    is_premium := false; banned := false |}])).
  { cbn [map _id]. constructor; [intros H; inversion H|constructor]. }
  destruct (X4_add_user_keeps_records cfg_plain _ 8 "Bela" Hnd)
    as (col' & H1 & H2 & H3 & _ & H5 & _).
  exists col'. split; [exact H1|]. split; [exact H2|].
  split; [apply H3; reflexivity|apply H5; reflexivity].
Defined.

Lemma set_banned_ids (col : list user_doc) (user_id : Z) (status : bool) :
  map _id (set_banned col user_id status) = map _id col.
Proof.
  induction col as [|d col IH]; cbn [set_banned map]; [reflexivity|].
  destruct (_id d =? user_id); cbn [map _id]; [reflexivity|now rewrite IH].
Qed.

Lemma set_banned_known (col : list user_doc) (user_id : Z) (status : bool) (u : user_doc) :
  find_user col user_id = Some u ->
  find_user (set_banned col user_id status) user_id
  = Some {| _id := _id u; name := name u; is_premium := is_premium u; banned := status |}.
Proof.
  unfold find_user. induction col as [|d col IH]; cbn [set_banned List.find]; [discriminate|].
  destruct (_id d =? user_id) eqn:E.
  - intros [= <-]. cbn [List.find _id]. now rewrite E.
  - cbn [List.find]. rewrite E. exact IH.
Qed.

Lemma set_banned_unknown (col : list user_doc) (user_id : Z) (status : bool) :
  find_user col user_id = None -> set_banned col user_id status = col.
Proof.
  unfold find_user. induction col as [|d col IH]; cbn [set_banned List.find]; [reflexivity|].
  destruct (_id d =? user_id); [discriminate|]. intros H. now rewrite (IH H).
Qed.

Lemma set_banned_other (col : list user_doc) (user_id other : Z) (status : bool) :
  other <> user_id ->
  find_user (set_banned col user_id status) other = find_user col other.
Proof.
  intros Hne. unfold find_user.
  induction col as [|d col IH]; cbn [set_banned List.find]; [reflexivity|].
  destruct (_id d =? user_id) eqn:E; cbn [List.find _id].
  - apply Z.eqb_eq in E. replace (_id d =? other) with false; [reflexivity|].
    symmetry. apply Z.eqb_neq. congruence.
  - destruct (_id d =? other); [reflexivity|exact IH].
Qed.

(** X5.  [update_ban_status] sets the flag of the user's record and of no
    other: the ids stay as they are, in their order, the name and the premium
    flag of the user stay, every other user reads as before, and for a user
    without a record nothing changes, so a ban given before the first
    [/start] of a user is lost. *)
Theorem X5_update_ban_status (col : list user_doc) (user_id : Z) (status : bool) :
  exists col',
    update_ban_status (Some col) user_id status = Some col'
    /\ map _id col' = map _id col
    /\ (forall u, find_user col user_id = Some u ->
        find_user col' user_id
        = Some {| _id := _id u; name := name u; is_premium := is_premium u;
                  banned := status |})
    /\ (forall other, other <> user_id -> find_user col' other = find_user col other)
    /\ (find_user col user_id = None -> col' = col).
Proof.
  exists (set_banned col user_id status). split; [reflexivity|].
  split; [apply set_banned_ids|]. split; [apply set_banned_known|].
  split; [intros other; apply set_banned_other|apply set_banned_unknown].
Qed.

(** X6.  A banned user gets the ban notice and nothing else, whatever the
    payload is: no content is copied, no shortener is called, and the users
    stay as they are. *)
Theorem X6_banned_user_gets_notice (cfg : Config) (w : World)
    (users_col : users_collection) (batches_col : batches_collection)
    (message : Message) (u : user_doc) :
  get_user users_col (from_user_id message) = Some u ->
  banned u = true ->
  start_handler cfg w users_col batches_col message = (users_col, [Reply TBanned []]).
Proof.
  intros Hu Hb. unfold start_handler.
  rewrite (add_user_known _ _ _ _ _ Hu), Hu, Hb. reflexivity.
Qed.

Lemma X6_banned_user_gets_notice_witness :
  start_handler cfg_plain world_quiet
    (update_ban_status users_free 7 true) None (start_message "MTIz")
  = (update_ban_status users_free 7 true, [Reply TBanned []]).
Proof.
  apply (X6_banned_user_gets_notice cfg_plain world_quiet
           (update_ban_status users_free 7 true) None (start_message "MTIz")
           {| _id := 7; name := "Asha"; is_premium := false; banned := true |});
    reflexivity.
Defined.

(** ** What [start_handler] may do *)

Lemma schedule_auto_delete_ok (cfg : Config) (user_id : Z) (msg : sent_message) :
  forallb (start_event_ok cfg user_id) (schedule_auto_delete cfg msg) = true.
Proof.
  unfold schedule_auto_delete. destruct (0 <? AUTO_DELETE_TIME cfg) eqn:E; [|reflexivity].
  cbn [forallb start_event_ok]. now rewrite Z.eqb_refl, E.
Qed.

Lemma copy_event_ok (cfg : Config) (user_id msg_id : Z) :
  start_event_ok cfg user_id
    (CopyMessage user_id (DB_CHANNEL cfg) msg_id (PROTECT_CONTENT cfg)) = true.
Proof. cbn [start_event_ok]. now rewrite !Z.eqb_refl, Bool.eqb_reflx. Qed.

Lemma deliver_batch_ok (cfg : Config) (w : World) (user_id : Z) (ids : list Z) :
  forallb (start_event_ok cfg user_id) (deliver_batch cfg w user_id ids) = true.
Proof.
  induction ids as [|msg_id rest IH]; [reflexivity|].
  cbn [deliver_batch forallb]. rewrite copy_event_ok, forallb_app, IH, andb_true_r.
  destruct (copy_message w user_id (DB_CHANNEL cfg) msg_id); [|reflexivity].
  now rewrite forallb_app, schedule_auto_delete_ok.
Qed.

Lemma deliver_verified_ok (cfg : Config) (w : World) (user_id msg_id : Z) :
  forallb (start_event_ok cfg user_id) (deliver_verified cfg w user_id msg_id) = true.
Proof.
  unfold deliver_verified. cbn [forallb]. rewrite copy_event_ok.
  destruct (copy_message w user_id (DB_CHANNEL cfg) msg_id); [|reflexivity].
  destruct (0 <? AUTO_DELETE_TIME cfg) eqn:E; [|reflexivity].
  cbn [forallb start_event_ok]. now rewrite Z.eqb_refl, E.
Qed.

Lemma deliver_direct_ok (cfg : Config) (w : World) (user_id msg_id : Z) :
  forallb (start_event_ok cfg user_id) (deliver_direct cfg w user_id msg_id) = true.
Proof.
  unfold deliver_direct. cbn [forallb]. rewrite copy_event_ok.
  destruct (copy_message w user_id (DB_CHANNEL cfg) msg_id); [|reflexivity].
  apply schedule_auto_delete_ok.
Qed.

Lemma get_short_link_events (cfg : Config) (w : World) (long_url : string) :
  snd (get_short_link cfg w long_url)
  = match SHORTENER_URLS cfg with
    | [] => []
    | _ => [HttpGet (shortener_api_url cfg w long_url)]
    end.
Proof. unfold get_short_link. now destruct (SHORTENER_URLS cfg). Qed.

Lemma dispatch_ok (cfg : Config) (w : World) (batches_col : batches_collection)
    (user : option user_doc) (user_id : Z) (payload : string) :
  forallb (start_event_ok cfg user_id)
    (dispatch cfg w batches_col user user_id payload) = true.
Proof.
  unfold dispatch.
  destruct (check_force_sub cfg w user_id); [|reflexivity].
  destruct (Py.startswith payload "batch_").
  { destruct (Py.index (Py.split "_" payload) 1); [|reflexivity].
    destruct (get_batch batches_col s) as [batch_data|]; [|reflexivity].
    cbn [forallb start_event_ok]. now rewrite forallb_app, deliver_batch_ok. }
  destruct (Py.startswith payload "verify_").
  { destruct (Py.index (Py.split "_" payload) 1); [|reflexivity].
    destruct (decode s =? 0); [reflexivity|apply deliver_verified_ok]. }
  destruct (decode payload =? 0); [reflexivity|].
  destruct (_ && _); [|apply deliver_direct_ok].
  destruct (get_short_link cfg w _) as [short_link http] eqn:E.
  assert (H := get_short_link_events cfg w (start_link cfg ("verify_" +:+ payload))).
  rewrite E in H. cbn [snd] in H. rewrite H, forallb_app.
  now destruct (SHORTENER_URLS cfg).
Qed.

Lemma start_log_ok (cfg : Config) (users_col : users_collection) (message : Message)
    (user_id : Z) :
  forallb (start_event_ok cfg user_id) (start_log cfg users_col message) = true.
Proof.
  unfold start_log, add_user. destruct users_col as [col|]; [|reflexivity].
  destruct (find_user col (from_user_id message)); [reflexivity|]. cbn [snd].
  destruct (LOG_CHANNEL cfg =? 0) eqn:E; [reflexivity|].
  cbn [forallb start_event_ok]. now rewrite Z.eqb_refl, E.
Qed.

(** X7. Whatever the message, the store and the answers of Telegram and
    of the shortener, [start_handler] copies stored messages only to the
    user who sent the command, only from [DB_CHANNEL] and with
    [PROTECT_CONTENT]; every deletion it schedules is after
    [AUTO_DELETE_TIME] seconds and only when that is positive; the only
    other chat it writes to is a nonzero [LOG_CHANNEL]; it deletes no copy
    at once, and broadcasts and edits nothing. *)
Theorem X7_start_handler_copies_to_sender (cfg : Config) (w : World)
    (users_col : users_collection) (batches_col : batches_collection)
    (message : Message) :
  forallb (start_event_ok cfg (from_user_id message))
    (snd (start_handler cfg w users_col batches_col message)) = true.
Proof.
  rewrite start_handler_events, forallb_app, start_log_ok.
  destruct (is_banned _); [reflexivity|].
  destruct (command message) as [|c0 [|payload rest]]; try reflexivity.
  apply dispatch_ok.
Qed.

(** ** The shortener in front of a fresh link *)

Lemma get_short_link_no_copy (cfg : Config) (w : World) (long_url : string) :
  existsb is_copy (snd (get_short_link cfg w long_url)) = false.
Proof. rewrite get_short_link_events. now destruct (SHORTENER_URLS cfg). Qed.

(** X8. A user who is not premium (a free user, a user who has just been
    stored, anyone when there is no database) and opens a fresh link while a
    shortener is configured is not sent the content: the handler calls the
    shortener once for the link [?start=verify_<payload>] and replies with
    the "Unlock" button that carries the answer of [get_short_link]. *)
Theorem X8_free_user_is_sent_to_shortener (cfg : Config) (w : World)
    (users_col : users_collection) (batches_col : batches_collection)
    (message : Message) (c0 payload : string) (rest : list string) :
  is_banned (current_user cfg users_col message) = false ->
  is_prem (current_user cfg users_col message) = false ->
  command message = c0 :: payload :: rest ->
  check_force_sub cfg w (from_user_id message) = [] ->
  Py.startswith payload "batch_" = false ->
  Py.startswith payload "verify_" = false ->
  decode payload <> 0 ->
  SHORTENER_URLS cfg <> [] ->
  let verify_link := start_link cfg ("verify_" +:+ payload) in
  let evs := snd (start_handler cfg w users_col batches_col message) in
  evs = start_log cfg users_col message
        ++ [HttpGet (shortener_api_url cfg w verify_link);
            Reply TSecureLink
              [[UrlButton LblUnlock (fst (get_short_link cfg w verify_link))]]]
  /\ existsb is_copy evs = false.
Proof.
  intros Hb Hp Hc Hgate Hbatch Hverify Hid Hs verify_link evs.
  assert (E : evs = start_log cfg users_col message
                    ++ [HttpGet (shortener_api_url cfg w verify_link);
                        Reply TSecureLink
                          [[UrlButton LblUnlock (fst (get_short_link cfg w verify_link))]]]).
  { subst evs. rewrite start_handler_events, Hb, Hc. f_equal.
    unfold dispatch. rewrite Hgate, Hbatch, Hverify.
    apply Z.eqb_neq in Hid. rewrite Hid.
    unfold is_prem in Hp. rewrite Hp.
    assert (H := get_short_link_events cfg w verify_link).
    fold verify_link.
    destruct (get_short_link cfg w verify_link) as [short_link http].
    cbn [fst snd] in *. destruct (SHORTENER_URLS cfg); [congruence|].
    cbn [andb negb]. now rewrite H. }
  split; [exact E|].
  rewrite E, existsb_app.
  now destruct (start_log_quiet cfg users_col message) as (_ & -> & _).
Qed.

Lemma X8_free_user_is_sent_to_shortener_witness :
  snd (start_handler cfg_shortener world_quiet users_free None (start_message "MTIz"))
  = [HttpGet "https://short.example/api?api=KEY&url=https%3A//t.me/filestore_bot%3Fstart%3Dverify_MTIz";
     Reply TSecureLink
       [[UrlButton LblUnlock (PStr "https://t.me/filestore_bot?start=verify_MTIz")]]].
Proof.
  refine (proj1 (X8_free_user_is_sent_to_shortener cfg_shortener world_quiet users_free
                   None (start_message "MTIz") "start" "MTIz" [] _ _ _ _ _ _ _ _));
    try reflexivity; vm_compute; discriminate.
Defined.

(** ** The delivery of a batch *)

Lemma filter_schedule_auto_delete (cfg : Config) (msg : sent_message) (P : event -> bool) :
  (forall m d, P (CreateAutoDeleteTask m d) = false) ->
  List.filter P (schedule_auto_delete cfg msg) = [].
Proof.
  intros H. unfold schedule_auto_delete.
  destruct (0 <? AUTO_DELETE_TIME cfg); [|reflexivity].
  cbn [List.filter]. now rewrite H.
Qed.

Lemma filter_copy_deliver_batch (cfg : Config) (w : World) (user_id : Z) (ids : list Z) :
  List.filter is_copy (deliver_batch cfg w user_id ids)
  = map (fun msg_id => CopyMessage user_id (DB_CHANNEL cfg) msg_id (PROTECT_CONTENT cfg)) ids.
Proof.
  induction ids as [|msg_id rest IH]; [reflexivity|].
  cbn [deliver_batch List.filter is_copy map]. f_equal.
  rewrite List.filter_app, IH.
  destruct (copy_message w user_id (DB_CHANNEL cfg) msg_id); [|reflexivity].
  unfold schedule_auto_delete. now destruct (0 <? AUTO_DELETE_TIME cfg).
Qed.

(** X9. The batch mode asks for the copy of every id of the batch, once
    and in the order of the batch, whether or not earlier copies failed; it
    pauses 0.8 s after each copy that succeeded and after no other: its
    copies and pauses, in the order in which they happen, are the copy of
    the first id, a pause if that copy succeeded, the copy of the second id,
    a pause if that one succeeded, and so on. *)
Theorem X9_batch_delivery_order (cfg : Config) (w : World) (user_id : Z) (ids : list Z) :
  List.filter (fun e => is_copy e || is_batch_pause e) (deliver_batch cfg w user_id ids)
  = flat_map (fun msg_id =>
                CopyMessage user_id (DB_CHANNEL cfg) msg_id (PROTECT_CONTENT cfg)
                :: if copy_succeeds cfg w user_id msg_id then [Sleep (Tenths 8)] else [])
      ids
  /\ List.filter is_copy (deliver_batch cfg w user_id ids)
     = map (fun msg_id => CopyMessage user_id (DB_CHANNEL cfg) msg_id (PROTECT_CONTENT cfg))
         ids
  /\ length (List.filter is_batch_pause (deliver_batch cfg w user_id ids))
     = length (List.filter (copy_succeeds cfg w user_id) ids).
Proof.
  split; [|split; [apply filter_copy_deliver_batch|]].
  - induction ids as [|msg_id rest IH]; [reflexivity|].
    cbn [deliver_batch List.filter is_copy is_batch_pause orb flat_map app].
    unfold copy_succeeds at 1. f_equal.
    rewrite List.filter_app, IH.
    destruct (copy_message w user_id (DB_CHANNEL cfg) msg_id); [|reflexivity].
    rewrite List.filter_app, filter_schedule_auto_delete by reflexivity. reflexivity.
  - induction ids as [|msg_id rest IH]; [reflexivity|].
    cbn [deliver_batch List.filter is_batch_pause]. unfold copy_succeeds at 1.
    rewrite List.filter_app, length_app, IH.
    destruct (copy_message w user_id (DB_CHANNEL cfg) msg_id); [|reflexivity].
    rewrite List.filter_app, filter_schedule_auto_delete by reflexivity. reflexivity.
Qed.

(** ** Batches *)

Lemma find_batch_app_known (col extra : list batch_doc) (id : string) (doc : batch_doc) :
  find_batch col id = Some doc -> find_batch (col ++ extra) id = Some doc.
Proof.
  unfold find_batch. induction col as [|d col IH]; cbn [app List.find]; [discriminate|].
  destruct (String.eqb (batch_id d) id); [easy|exact IH].
Qed.

Lemma batch_mode_events (cfg : Config) (w : World) (users_col : users_collection)
    (batches_col : batches_collection) (request : Message) (c1 id : string)
    (rest1 : list string) :
  is_banned (current_user cfg users_col request) = false ->
  command request = c1 :: ("batch_" +:+ id) :: rest1 ->
  check_force_sub cfg w (from_user_id request) = [] ->
  lacks "_" id = true ->
  snd (start_handler cfg w users_col batches_col request)
  = start_log cfg users_col request
    ++ match get_batch batches_col id with
       | Some doc =>
           Reply (TProcessing (length (range_ids doc))) []
           :: deliver_batch cfg w (from_user_id request) (range_ids doc)
           ++ [DeleteMessage (Replied (TProcessing (length (range_ids doc))))]
       | None => [Reply TBatchNotFound []]
       end.
Proof.
  intros Hb Hreq Hgate Hid.
  rewrite start_handler_events, Hb, Hreq. f_equal.
  unfold dispatch. rewrite Hgate, startswith_batch, split_batch.
  rewrite (split_lacks _ _ Hid). cbn [Py.index nth_error].
  reflexivity.
Qed.

Lemma filter_copy_start_log (cfg : Config) (users_col : users_collection)
    (message : Message) :
  List.filter is_copy (start_log cfg users_col message) = [].
Proof.
  unfold start_log, add_user. destruct users_col as [col|]; [|reflexivity].
  destruct (find_user col (from_user_id message)); [reflexivity|]. cbn [snd].
  now destruct (LOG_CHANNEL cfg =? 0).
Qed.

(** X10. A user past the ban and the gate who opens [?start=batch_<id>],
    [id] without an underscore: when no batch is stored under [id] the only
    answer is "Batch Not Found"; else the handler announces the number of
    files, asks for the copy of exactly the ids of the stored batch, in
    their order, to that user, and then deletes the announcement. *)
Theorem X10_batch_link_delivers_batch (cfg : Config) (w : World)
    (users_col : users_collection) (batches_col : batches_collection)
    (request : Message) (c1 id : string) (rest1 : list string) :
  is_banned (current_user cfg users_col request) = false ->
  command request = c1 :: ("batch_" +:+ id) :: rest1 ->
  check_force_sub cfg w (from_user_id request) = [] ->
  lacks "_" id = true ->
  let evs := snd (start_handler cfg w users_col batches_col request) in
  match get_batch batches_col id with
  | Some doc =>
      evs = start_log cfg users_col request
            ++ Reply (TProcessing (length (range_ids doc))) []
               :: deliver_batch cfg w (from_user_id request) (range_ids doc)
               ++ [DeleteMessage (Replied (TProcessing (length (range_ids doc))))]
      /\ List.filter is_copy evs
         = map (fun msg_id => CopyMessage (from_user_id request) (DB_CHANNEL cfg) msg_id
                                (PROTECT_CONTENT cfg)) (range_ids doc)
  | None =>
      evs = start_log cfg users_col request ++ [Reply TBatchNotFound []]
  end.
Proof.
  intros Hb Hreq Hgate Hid evs. subst evs.
  rewrite (batch_mode_events cfg w users_col batches_col request c1 id rest1
             Hb Hreq Hgate Hid).
  destruct (get_batch batches_col id) as [doc|]; [|reflexivity].
  split; [reflexivity|].
  rewrite List.filter_app, filter_copy_start_log. cbn [app List.filter is_copy].
  rewrite List.filter_app, filter_copy_deliver_batch. cbn [List.filter is_copy].
  apply app_nil_r.
Qed.

Lemma X10_batch_link_delivers_batch_witness :
  List.filter is_copy
    (snd (start_handler cfg_plain world_quiet users_free
            (fst (batch_handler cfg_plain world_quiet (Some [])
                    (batch_message 5 "https://t.me/c/1000/9")))
            (start_message "batch_AAAAAAAA")))
  = [CopyMessage 7 (-1001000) 5 true; CopyMessage 7 (-1001000) 6 true;
     CopyMessage 7 (-1001000) 7 true; CopyMessage 7 (-1001000) 8 true;
     CopyMessage 7 (-1001000) 9 true].
Proof.
  exact (proj2 (X10_batch_link_delivers_batch cfg_plain world_quiet users_free
                  (fst (batch_handler cfg_plain world_quiet (Some [])
                          (batch_message 5 "https://t.me/c/1000/9")))
                  (start_message "batch_AAAAAAAA") "start" "AAAAAAAA" []
                  eq_refl eq_refl eq_refl eq_refl)).
Defined.

(** X11. [batch_handler] never changes or hides a batch that is stored:
    an id that resolved to a document before the command resolves to the
    same document after it.  The command either leaves the store as it was,
    or adds one document after the others, under the id that was drawn, and
    then shows no error. *)
Theorem X11_batch_handler_keeps_batches (cfg : Config) (w : World)
    (col : list batch_doc) (message : Message) (id0 : string) (doc0 : batch_doc) :
  find_batch col id0 = Some doc0 ->
  let batches_col := fst (batch_handler cfg w (Some col) message) in
  let evs := snd (batch_handler cfg w (Some col) message) in
  get_batch batches_col id0 = Some doc0
  /\ (batches_col = Some col
      \/ exists doc,
           batches_col = Some (col ++ [doc])
           /\ batch_id doc = random_choices w ascii_letters_digits 8
           /\ existsb is_error_reply evs = false).
Proof.
  intros H0. unfold batch_handler.
  destruct (reply_to_message message) as [start_id|]; [|split; [exact H0|now left]].
  unfold batch_try, save_batch.
  destruct (Py.index (command message) 1) as [arg|]; [|split; [exact H0|now left]].
  destruct (Py.index_last (Py.split "/" arg)) as [last|]; [|split; [exact H0|now left]].
  destruct (PyInt.int last) as [end_id|]; [|split; [exact H0|now left]].
  cbn [fst snd get_batch]. split; [now apply find_batch_app_known|].
  right. eexists. split; [reflexivity|]. split; reflexivity.
Qed.

Lemma X11_batch_handler_keeps_batches_witness :
  get_batch (fst (batch_handler cfg_plain world_quiet (Some batches_earlier)
                    (batch_message 5 "https://t.me/c/1000/9"))) "AAAAAAAA"
  = Some {| batch_id := "AAAAAAAA"; range_ids := [1] |}.
Proof.
  exact (proj1 (X11_batch_handler_keeps_batches cfg_plain world_quiet batches_earlier
                  (batch_message 5 "https://t.me/c/1000/9") "AAAAAAAA"
                  {| batch_id := "AAAAAAAA"; range_ids := [1] |} eq_refl)).
Defined.

(** ** The call of the shortener *)

Lemma random_choice_In (w : World) (seq : list string) :
  seq <> [] -> In (random_choice w seq) seq.
Proof.
  intros H. unfold random_choice. apply nth_In.
  apply Nat.mod_upper_bound. now destruct seq.
Qed.

(** The value of [d.get(key)], when Python counts it as true, is a
    value the answer holds under [key]. *)
Lemma dict_get_truthy (data : gmap string pyval) (key : string) :
  truthy (dict_get data key) = true -> data !! key = Some (dict_get data key).
Proof. unfold dict_get. now destruct (data !! key). Qed.

(** What [a or (b or (c or d))] returns: the first of [a], [b], [c] that
    counts as true, or [d]. *)
Lemma py_or_chain (a b c d : pyval) :
  let r := py_or a (py_or b (py_or c d)) in
  (r = a /\ truthy a = true)
  \/ (r = b /\ truthy a = false /\ truthy b = true)
  \/ (r = c /\ truthy a = false /\ truthy b = false /\ truthy c = true)
  \/ (r = d /\ truthy a = false /\ truthy b = false /\ truthy c = false).
Proof.
  unfold py_or. destruct (truthy a) eqn:Ea; [now left|].
  destruct (truthy b) eqn:Eb; [right; now left|].
  destruct (truthy c) eqn:Ec; [right; right; now left|].
  right; right; now right.
Qed.

(** X12. With a shortener configured, [get_short_link] makes exactly one
    HTTP call, to one of the templates of [SHORTENER_URLS] with every
    [{link}] replaced by the percent-encoded link.  What it returns is the
    link it was given, or else the value that the JSON object answered to
    that call holds under [shortenedUrl], [url] or [short_url], the first of
    the three, in this order, that Python counts as true: it is never an
    empty or missing value in place of the link, and never a value from
    elsewhere. *)
Theorem X12_get_short_link_call (cfg : Config) (w : World) (long_url : string) :
  SHORTENER_URLS cfg <> [] ->
  exists template,
    let api_url := Py.replace template "{link}" (Urllib.quote long_url) in
    let result := fst (get_short_link cfg w long_url) in
    In template (SHORTENER_URLS cfg)
    /\ snd (get_short_link cfg w long_url) = [HttpGet api_url]
    /\ (result = PStr long_url
        \/ exists data earlier key later,
             http_get_json w api_url = HttpJson (PDict data)
             /\ ["shortenedUrl"; "url"; "short_url"] = earlier ++ key :: later
             /\ data !! key = Some result
             /\ truthy result = true
             /\ forallb (fun k => negb (truthy (dict_get data k))) earlier = true).
Proof.
  intros H. exists (random_choice w (SHORTENER_URLS cfg)). cbv zeta.
  split; [now apply random_choice_In|].
  unfold get_short_link. destruct (SHORTENER_URLS cfg) as [|t ts] eqn:E; [congruence|].
  cbn [fst snd]. unfold shortener_api_url. rewrite E.
  split; [reflexivity|].
  destruct (http_get_json w _) as [[| | | | | |data]|] eqn:Hj; try (now left).
  destruct (py_or_chain (dict_get data "shortenedUrl") (dict_get data "url")
              (dict_get data "short_url") (PStr long_url))
    as [(-> & Ka) | [(-> & Ka & Kb) | [(-> & Ka & Kb & Kc) | (-> & _)]]];
    [right|right|right|now left].
  - exists data, [], "shortenedUrl", ["url"; "short_url"]. split; [reflexivity|]. split; [reflexivity|].
    split; [now apply dict_get_truthy|]. split; [exact Ka|reflexivity].
  - exists data, ["shortenedUrl"], "url", ["short_url"]. split; [reflexivity|]. split; [reflexivity|].
    split; [now apply dict_get_truthy|]. split; [exact Kb|].
    cbn [forallb]. now rewrite Ka.
  - exists data, ["shortenedUrl"; "url"], "short_url", [].
    split; [reflexivity|]. split; [reflexivity|].
    split; [now apply dict_get_truthy|]. split; [exact Kc|].
    cbn [forallb]. now rewrite Ka, Kb.
Qed.

Lemma X12_get_short_link_call_witness :
  exists template,
    In template (SHORTENER_URLS cfg_shortener)
    /\ snd (get_short_link cfg_shortener world_quiet "https://t.me/filestore_bot?start=verify_MTIz")
       = [HttpGet (Py.replace template "{link}"
                     (Urllib.quote "https://t.me/filestore_bot?start=verify_MTIz"))].
Proof.
  destruct (X12_get_short_link_call cfg_shortener world_quiet
              "https://t.me/filestore_bot?start=verify_MTIz") as (t & H1 & H2 & _).
  - discriminate.
  - exists t. split; [exact H1|exact H2].
Defined.

(** ** [urllib.parse.quote] *)

Lemma hex_digit_facts (a b : N) :
  (a < 16)%N -> (b < 16)%N ->
  Urllib.is_safe (Urllib.hex_digit a) = true
  /\ (Urllib.hex_digit a = Urllib.hex_digit b -> a = b).
Proof.
  intros Ha Hb.
  assert (H : hex_digit_ok a b = true).
  { revert b Hb. apply (all_below_spec 16 (fun y => hex_digit_ok a y)).
    revert a Ha.
    apply (all_below_spec 16 (fun x => all_below 16 (fun y => hex_digit_ok x y))).
    vm_compute. reflexivity. }
  unfold hex_digit_ok in H. apply andb_prop in H as [H1 H2].
  split; [exact H1|]. intros E. rewrite E, Ascii.eqb_refl in H2.
  now apply N.eqb_eq.
Qed.

Lemma ord_nibbles (c : ascii) : (Py.ord c / 16 < 16 /\ Py.ord c mod 16 < 16)%N.
Proof.
  pose proof (ord_bound c). split.
  - apply N.Div0.div_lt_upper_bound. lia.
  - apply N.mod_lt. lia.
Qed.

Lemma ord_injective (c d : ascii) : Py.ord c = Py.ord d -> c = d.
Proof. intros H. rewrite <- (chr_ord c), <- (chr_ord d). now rewrite H. Qed.

Lemma quote_chars (s : string) : all_chars is_quoted_char (Urllib.quote s) = true.
Proof.
  induction s as [|c r IH]; [reflexivity|]. cbn [Urllib.quote].
  destruct (Urllib.is_safe c) eqn:E; cbn [all_chars]; rewrite IH.
  - unfold is_quoted_char. now rewrite E.
  - destruct (ord_nibbles c) as [H1 H2].
    destruct (hex_digit_facts _ _ H1 H1) as [K1 _].
    destruct (hex_digit_facts _ _ H2 H2) as [K2 _].
    unfold is_quoted_char. now rewrite K1, K2.
Qed.

Lemma quote_length (s : string) : (String.length s <= String.length (Urllib.quote s))%nat.
Proof.
  induction s as [|c r IH]; [reflexivity|]. cbn [Urllib.quote].
  destruct (Urllib.is_safe c); cbn [String.length]; lia.
Qed.

Lemma quote_injective (s t : string) : Urllib.quote s = Urllib.quote t -> s = t.
Proof.
  revert t. induction s as [|c r IH]; intros [|d u]; cbn [Urllib.quote].
  - reflexivity.
  - destruct (Urllib.is_safe d); discriminate.
  - destruct (Urllib.is_safe c); discriminate.
  - destruct (Urllib.is_safe c) eqn:Ec, (Urllib.is_safe d) eqn:Ed.
    + intros [= -> H]. now rewrite (IH u H).
    + intros [= -> _]. discriminate.
    + intros [= <- _]. discriminate.
    + intros [= H1 H2 H]. rewrite (IH u H). f_equal. apply ord_injective.
      destruct (ord_nibbles c) as [C1 C2]. destruct (ord_nibbles d) as [D1 D2].
      apply (hex_digit_facts _ _ C1 D1) in H1. apply (hex_digit_facts _ _ C2 D2) in H2.
      rewrite (N.div_mod (Py.ord c) 16), (N.div_mod (Py.ord d) 16) by discriminate.
      now rewrite H1, H2.
Qed.

Lemma quote_safe (s : string) : Urllib.quote s = s <-> all_chars Urllib.is_safe s = true.
Proof.
  induction s as [|c r IH]; [easy|]. cbn [Urllib.quote all_chars].
  destruct (Urllib.is_safe c) eqn:E; cbn [andb].
  - rewrite <- IH. split; [now intros [= H]|now intros ->].
  - split; [|discriminate]. intros [= _ H].
    pose proof (quote_length r) as L.
    apply (f_equal String.length) in H. cbn [String.length] in H. lia.
Qed.

Lemma quoted_char_not (c x : ascii) :
  Urllib.is_safe x = false -> Ascii.eqb x "%" = false ->
  is_quoted_char c = true -> negb (Ascii.eqb c x) = true.
Proof.
  intros H1 H2 Hc. destruct (Ascii.eqb c x) eqn:E; [|reflexivity].
  apply Ascii.eqb_eq in E. subst c. unfold is_quoted_char in Hc.
  now rewrite H1, H2 in Hc.
Qed.

(** X13. [quote] gives only letters, digits, [_ . - ~ /] and [%]: the
    link it puts into the URL of the shortener holds no [&], [=], [?], [#]
    or space that would change the query of that URL.  It loses nothing:
    two links with the same quoted text are the same link.  It leaves a text
    as it is exactly when every character of the text is a safe one. *)
Theorem X13_quote_is_safe_and_injective (s t : string) :
  all_chars is_quoted_char (Urllib.quote s) = true
  /\ lacks "&" (Urllib.quote s) = true
  /\ lacks "=" (Urllib.quote s) = true
  /\ lacks "?" (Urllib.quote s) = true
  /\ lacks "#" (Urllib.quote s) = true
  /\ lacks " " (Urllib.quote s) = true
  /\ (Urllib.quote s = Urllib.quote t <-> s = t)
  /\ (Urllib.quote s = s <-> all_chars Urllib.is_safe s = true).
Proof.
  pose proof (quote_chars s) as H.
  repeat split;
    try (unfold lacks; revert H; apply all_chars_impl; intros c;
         now apply quoted_char_not).
  - exact H.
  - apply quote_injective.
  - now intros ->.
  - apply quote_safe.
  - apply quote_safe.
Qed.

(** ** More on the broadcast *)

(** The loop over [before ++ rest] when no retry fails in [before]: it
    gets through [before], tries every user of it, counts every user of it
    once, and goes on with [rest]. *)
Lemma broadcast_loop_app (w : World) (before rest : list Z) (t : tally) :
  forallb (fun user => negb (retry_fails w user)) before = true ->
  exists evs t',
    broadcast_loop w (before ++ rest) t
    = (evs ++ fst (broadcast_loop w rest t'), snd (broadcast_loop w rest t'))
    /\ broadcast_attempts evs = expected_attempts w before
    /\ (success t' + failed t' = success t + failed t + length before)%nat
    /\ failed t' = (failed t + length (List.filter (send_failed w) before))%nat.
Proof.
  revert t. induction before as [|user before IH]; intros t H.
  - exists [], t. cbn [app]. split; [now destruct (broadcast_loop w rest t)|].
    cbn. repeat split; lia.
  - cbn [forallb] in H. apply andb_prop in H as [Hu Hrest].
    unfold retry_fails in Hu.
    cbn [app broadcast_loop List.filter expected_attempts flat_map].
    unfold send_failed at 1, is_throttled at 1.
    destruct (message_copy w user 0) as [|value|].
    + destruct (IH {| success := success t + 1; failed := failed t |} Hrest)
        as (evs & t' & -> & H1 & H2 & H3).
      eexists (_ :: _ :: evs), t'. split; [reflexivity|].
      cbn [broadcast_attempts flat_map app]. fold (broadcast_attempts evs).
      rewrite H1. cbn [success failed length] in *. repeat split; lia.
    + destruct (message_copy w user 1); try discriminate.
      destruct (IH {| success := success t + 1; failed := failed t |} Hrest)
        as (evs & t' & -> & H1 & H2 & H3).
      eexists (_ :: _ :: _ :: evs), t'. split; [reflexivity|].
      cbn [broadcast_attempts flat_map app]. fold (broadcast_attempts evs).
      rewrite H1. cbn [success failed length] in *. repeat split; lia.
    + destruct (IH {| success := success t; failed := failed t + 1 |} Hrest)
        as (evs & t' & -> & H1 & H2 & H3).
      eexists (_ :: evs), t'. split; [reflexivity|].
      cbn [broadcast_attempts flat_map app]. fold (broadcast_attempts evs).
      rewrite H1. cbn [success failed length] in *. repeat split; lia.
Qed.

Lemma broadcast_attempts_app (evs evs' : list event) :
  broadcast_attempts (evs ++ evs') = broadcast_attempts evs ++ broadcast_attempts evs'.
Proof. apply flat_map_app. Qed.

(** X14. When no retry after a throttled copy fails, the broadcast runs
    over the whole audience: it tries every stored user in the order of the
    store, once, and once more after a throttled try, and it ends with the
    report, in which the total is the number of stored users, successes and
    failures add up to it, and the failures are the users whose first copy
    raised something other than [FloodWait]. *)
Theorem X14_broadcast_reports_tally (w : World) (col : list user_doc) :
  forallb (fun user => negb (retry_fails w user)) (map _id col) = true ->
  exists evs s f,
    broadcast w (Some col)
    = Reply TBroadcastStarted [] :: evs
      ++ [EditMessage (Replied TBroadcastStarted)
            (TBroadcastCompleted (length col) s f)]
    /\ broadcast_attempts evs = expected_attempts w (map _id col)
    /\ (s + f = length col)%nat
    /\ f = length (List.filter (send_failed w) (map _id col)).
Proof.
  intros H.
  destruct (broadcast_loop_app w (map _id col) [] {| success := 0; failed := 0 |} H)
    as (evs & t' & E & H1 & H2 & H3).
  rewrite app_nil_r in E. cbn [broadcast_loop fst snd] in E. rewrite app_nil_r in E.
  exists evs, (success t'), (failed t').
  unfold broadcast. cbn [get_all_users get_total_users]. rewrite E.
  split; [reflexivity|]. split; [exact H1|].
  cbn [success failed] in *. rewrite length_map in H2. split; [lia|exact H3].
Qed.

Lemma X14_broadcast_reports_tally_witness :
  exists evs s f,
    broadcast world_quiet users_three
    = Reply TBroadcastStarted [] :: evs
      ++ [EditMessage (Replied TBroadcastStarted) (TBroadcastCompleted 3 s f)]
    /\ broadcast_attempts evs = [1; 2; 3]
    /\ (s + f = 3)%nat
    /\ f = 0%nat.
Proof.
  exact (X14_broadcast_reports_tally world_quiet
           [{| _id := 1; name := "A"; is_premium := false; banned := false |};
            {| _id := 2; name := "B"; is_premium := false; banned := false |};
            {| _id := 3; name := "C"; is_premium := false; banned := false |}]
           eq_refl).
Defined.

(** The loop does nothing but try and pause. *)
Lemma broadcast_loop_steps (w : World) (users : list Z) (t : tally) :
  forallb is_broadcast_step (fst (broadcast_loop w users t)) = true.
Proof.
  revert t. induction users as [|user rest IH]; intros t; [reflexivity|].
  cbn [broadcast_loop].
  destruct (message_copy w user 0) as [|value|].
  - specialize (IH {| success := success t + 1; failed := failed t |}).
    destruct (broadcast_loop w rest _). exact IH.
  - destruct (message_copy w user 1); try reflexivity.
    specialize (IH {| success := success t + 1; failed := failed t |}).
    destruct (broadcast_loop w rest _). exact IH.
  - specialize (IH {| success := success t; failed := failed t + 1 |}).
    destruct (broadcast_loop w rest _). exact IH.
Qed.

(** X15. The first user whose copy is throttled and whose retry does not
    succeed ends the broadcast: after "Broadcast Started" the handler only
    tries and pauses, the users before are tried as in a full run, that user
    is tried twice, and then the exception of the retry leaves the handler,
    so that no user after is tried and no report is sent. *)
Theorem X15_broadcast_stops_at_failed_retry (w : World) (col : list user_doc)
    (before after : list Z) (user : Z) :
  map _id col = before ++ user :: after ->
  forallb (fun user => negb (retry_fails w user)) before = true ->
  retry_fails w user = true ->
  exists evs,
    broadcast w (Some col)
    = Reply TBroadcastStarted [] :: evs ++ [Raise (SendError (message_copy w user 1))]
    /\ forallb is_broadcast_step evs = true
    /\ broadcast_attempts evs = expected_attempts w before ++ [user; user].
Proof.
  intros Hcol Hbefore Huser.
  destruct (broadcast_loop_app w before (user :: after) {| success := 0; failed := 0 |}
              Hbefore) as (evs & t' & E & H1 & _).
  destruct (broadcast_loop_retry_fails w user after t' Huser) as (value & Hv & E').
  rewrite E' in E. cbn [fst snd] in E.
  exists (evs ++ [BroadcastCopy user; Sleep (Seconds value); BroadcastCopy user]).
  unfold broadcast. cbn [get_all_users]. rewrite Hcol, E.
  split; [reflexivity|]. split.
  - pose proof (broadcast_loop_steps w (before ++ user :: after)
                  {| success := 0; failed := 0 |}) as Hs.
    now rewrite E in Hs.
  - now rewrite broadcast_attempts_app, H1.
Qed.

Lemma X15_broadcast_stops_at_failed_retry_witness :
  exists evs,
    broadcast world_throttled
      (Some [{| _id := 2; name := "B"; is_premium := false; banned := false |};
             {| _id := 1; name := "A"; is_premium := false; banned := false |};
             {| _id := 3; name := "C"; is_premium := false; banned := false |}])
    = Reply TBroadcastStarted [] :: evs ++ [Raise (SendError SendFailed)]
    /\ forallb is_broadcast_step evs = true
    /\ broadcast_attempts evs = [2; 1; 1].
Proof.
  exact (X15_broadcast_stops_at_failed_retry world_throttled
           [{| _id := 2; name := "B"; is_premium := false; banned := false |};
            {| _id := 1; name := "A"; is_premium := false; banned := false |};
            {| _id := 3; name := "C"; is_premium := false; banned := false |}]
           [2] [3] 1 eq_refl eq_refl eq_refl).
Defined.

(** ** The index of the files *)

Lemma encode_inj (i j : Z) : encode i = encode j -> i = j.
Proof.
  rewrite !encode_token. intros H. now apply str_injective, token_injective.
Qed.

Lemma find_file_code (col : list file_doc) (c : string) (d : file_doc) :
  find_file col c = Some d -> In d col /\ code d = c.
Proof.
  unfold find_file. intros H. apply find_some in H as [H1 H2].
  split; [exact H1|]. now apply String.eqb_eq.
Qed.

Lemma find_file_In (col : list file_doc) (c : string) :
  find_file col c = None -> ~ In c (map code col).
Proof.
  unfold find_file. intros H Hin. apply in_map_iff in Hin as (d & Hd & Hin).
  pose proof (find_none _ _ H d Hin) as Hf. cbn in Hf.
  rewrite Hd, String.eqb_refl in Hf. discriminate.
Qed.

Lemma find_file_app_known (col extra : list file_doc) (c : string) (d : file_doc) :
  find_file col c = Some d -> find_file (col ++ extra) c = Some d.
Proof.
  unfold find_file. induction col as [|x col IH]; cbn [app List.find]; [discriminate|].
  destruct (String.eqb (code x) c); [auto|exact IH].
Qed.

Lemma find_file_app_new (col : list file_doc) (d : file_doc) :
  find_file col (code d) = None -> find_file (col ++ [d]) (code d) = Some d.
Proof.
  unfold find_file. induction col as [|x col IH]; cbn [app List.find].
  - now rewrite String.eqb_refl.
  - destruct (String.eqb (code x) (code d)); [discriminate|exact IH].
Qed.

Lemma well_indexed_find (col : list file_doc) (i : Z) (d : file_doc) :
  well_indexed col = true -> find_file col (encode i) = Some d -> msg_id d = i.
Proof.
  unfold well_indexed. intros Hw Hf. apply find_file_code in Hf as [Hin Hc].
  rewrite forallb_forall in Hw. apply Hw, String.eqb_eq in Hin.
  apply encode_inj. congruence.
Qed.

(** What [save_file_to_db] does to files with distinct codes. *)
Lemma save_file_to_db_spec (col : list file_doc) (id : Z) (fname : option string)
    (c : string) (fsize : option string) :
  NoDup (map code col) ->
  exists col',
    save_file_to_db (Some col) id fname c fsize = Some col'
    /\ NoDup (map code col')
    /\ (forall c' d, find_file col c' = Some d -> find_file col' c' = Some d)
    /\ (exists d, find_file col' c = Some d
                  /\ (find_file col c = None ->
                      d = {| msg_id := id; file_name := fname; code := c;
                             file_size := fsize |}))
    /\ (col' = col
        \/ col' = col ++ [{| msg_id := id; file_name := fname; code := c;
                             file_size := fsize |}]).
Proof.
  intros Hnd. unfold save_file_to_db.
  destruct (find_file col c) as [d|] eqn:Hf.
  - exists col. repeat split; auto. exists d. split; [exact Hf|discriminate].
  - set (new := {| msg_id := id; file_name := fname; code := c; file_size := fsize |}).
    exists (col ++ [new]). repeat split; auto.
    + rewrite map_app. cbn [map]. apply NoDup_app. split; [exact Hnd|]. split.
      * intros x Hx%list_elem_of_In Hy%list_elem_of_In. destruct Hy as [<-|[]].
        now apply (find_file_In col c Hf).
      * apply NoDup_singleton.
    + intros c' d. apply find_file_app_known.
    + exists new. split; [|reflexivity]. now apply (find_file_app_new col new).
Qed.

(** X16. On files that are stored under the tokens of their message ids,
    with distinct codes, [index_files] keeps both: a post without a media
    changes nothing and gets no buttons; a post with a media is stored under
    the token of its id unless a document has that code already, no document
    that is stored is changed (a post indexed again keeps its first name and
    size), afterwards the token of the post resolves to a document with the
    id of the post, and the download button carries the start link of that
    token. *)
Theorem X16_index_files_keeps_index (cfg : Config) (col : list file_doc)
    (post : channel_post) :
  well_indexed col = true ->
  NoDup (map code col) ->
  exists col',
    fst (index_files cfg (Some col) post) = Some col'
    /\ well_indexed col' = true
    /\ NoDup (map code col')
    /\ (forall c d, find_file col c = Some d -> find_file col' c = Some d)
    /\ match post_meta post with
       | None => col' = col /\ snd (index_files cfg (Some col) post) = None
       | Some (fname, fsize) =>
           (exists d,
              find_file col' (encode (post_id post)) = Some d
              /\ msg_id d = post_id post
              /\ (find_file col (encode (post_id post)) = None ->
                  file_name d = fname /\ file_size d = get_size fsize))
           /\ snd (index_files cfg (Some col) post)
              = Some {| get_file_url := start_link cfg (encode (post_id post));
                        share_url := "https://t.me/share/url?url="
                                     +:+ start_link cfg (encode (post_id post)) |}
       end.
Proof.
  intros Hw Hnd. unfold index_files.
  destruct (post_meta post) as [[fname fsize]|]; cbn [fst snd].
  - destruct (save_file_to_db_spec col (post_id post) fname (encode (post_id post))
                (get_size fsize) Hnd) as (col' & E & H1 & H2 & (d & H3 & H4) & H5).
    exists col'. split; [exact E|].
    assert (Hw' : well_indexed col' = true).
    { destruct H5 as [->| ->]; [exact Hw|].
      unfold well_indexed in *. rewrite forallb_app, Hw. cbn [forallb code msg_id].
      now rewrite String.eqb_refl. }
    split; [exact Hw'|]. split; [exact H1|]. split; [exact H2|].
    split; [|reflexivity]. exists d. split; [exact H3|].
    split; [now apply (well_indexed_find col' _ d Hw')|].
    intros Hnone. now rewrite (H4 Hnone).
  - exists col. repeat split; auto.
Qed.

Lemma X16_index_files_keeps_index_witness :
  exists col',
    fst (index_files cfg_plain (Some files_two)
           {| post_id := 125;
              post_document := Some {| media_name := Some "notes.pdf"; media_size := 1536 |};
              post_video := None; post_audio := None; post_photo := false |})
    = Some col'
    /\ well_indexed col' = true
    /\ NoDup (map code col').
Proof.
  assert (Hnd : NoDup (map code files_two)).
  { cbn [map files_two code]. apply NoDup_cons_2; [|apply NoDup_singleton].
    intros H%list_elem_of_singleton. discriminate. }
  destruct (X16_index_files_keeps_index cfg_plain files_two
              {| post_id := 125;
                 post_document := Some {| media_name := Some "notes.pdf";
                                          media_size := 1536 |};
                 post_video := None; post_audio := None; post_photo := false |}
              eq_refl Hnd) as (col' & H1 & H2 & H3 & _).
  exists col'. split; [exact H1|]. split; [exact H2|exact H3].
Defined.

(** ** [get_size] *)

Lemma round_half_even_bounds (n d : N) :
  (0 < d)%N ->
  let h := round_half_even n d in
  (2 * h * d <= 2 * n + d /\ 2 * n <= (2 * h + 1) * d)%N.
Proof.
  intros Hd. unfold round_half_even.
  pose proof (N.div_mod n d ltac:(lia)) as E.
  pose proof (N.mod_lt n d ltac:(lia)) as Hr.
  set (q := (n / d)%N) in *. set (r := (n mod d)%N) in *.
  destruct (2 * r <? d)%N eqn:E1; [apply N.ltb_lt in E1; cbv zeta; nia|].
  apply N.ltb_ge in E1.
  destruct (d <? 2 * r)%N eqn:E2; [apply N.ltb_lt in E2; cbv zeta; nia|].
  apply N.ltb_ge in E2.
  destruct (N.even q); cbv zeta; nia.
Qed.

Lemma round_half_even_exact (m d : N) :
  (0 < d)%N -> round_half_even (m * d) d = m.
Proof.
  intros Hd. unfold round_half_even.
  rewrite N.div_mul, N.Div0.mod_mul by lia.
  replace (2 * 0 <? d)%N with true; [reflexivity|].
  symmetry. apply N.ltb_lt. lia.
Qed.

(** The loop after the units it has passed: it stops at the first unit
    whose bound is above the size. *)
Lemma get_size_loop_stop (unit : string) (rest : list string) (n d : N) :
  (n < 1024 * d)%N ->
  get_size_loop (unit :: rest) n d = Some (format_2f n d +:+ " " +:+ unit).
Proof. intros H. cbn [get_size_loop]. apply N.ltb_lt in H. now rewrite H. Qed.

Lemma get_size_loop_next (unit : string) (rest : list string) (n d : N) :
  (1024 * d <= n)%N ->
  get_size_loop (unit :: rest) n d = get_size_loop rest n (1024 * d)%N.
Proof. intros H. cbn [get_size_loop]. apply N.ltb_ge in H. now rewrite H. Qed.

Lemma get_size_unit (size : N) (k : nat) (unit : string) :
  nth_error size_units k = Some unit ->
  (k = 0%nat \/ 1024 ^ N.of_nat k <= size)%N ->
  (size < 1024 ^ N.of_nat (k + 1))%N ->
  get_size size = Some (format_2f size (1024 ^ N.of_nat k) +:+ " " +:+ unit).
Proof.
  intros Hu Hlo Hhi. unfold get_size.
  destruct k as [|[|[|[|[|k]]]]]; cbn [nth_error size_units] in Hu;
    try (destruct k; discriminate); injection Hu as <-.
  - change (1024 ^ N.of_nat (0 + 1))%N with 1024%N in Hhi.
    now rewrite get_size_loop_stop by lia.
  - destruct Hlo as [|Hlo]; [discriminate|].
    change (1024 ^ N.of_nat 1)%N with 1024%N in *.
    change (1024 ^ N.of_nat (1 + 1))%N with 1048576%N in Hhi.
    rewrite get_size_loop_next by lia.
    now rewrite get_size_loop_stop by lia.
  - destruct Hlo as [|Hlo]; [discriminate|].
    change (1024 ^ N.of_nat 2)%N with 1048576%N in *.
    change (1024 ^ N.of_nat (2 + 1))%N with 1073741824%N in Hhi.
    do 2 rewrite get_size_loop_next by lia.
    now rewrite get_size_loop_stop by lia.
  - destruct Hlo as [|Hlo]; [discriminate|].
    change (1024 ^ N.of_nat 3)%N with 1073741824%N in *.
    change (1024 ^ N.of_nat (3 + 1))%N with 1099511627776%N in Hhi.
    do 3 rewrite get_size_loop_next by lia.
    now rewrite get_size_loop_stop by lia.
  - destruct Hlo as [|Hlo]; [discriminate|].
    change (1024 ^ N.of_nat 4)%N with 1099511627776%N in *.
    change (1024 ^ N.of_nat (4 + 1))%N with 1125899906842624%N in Hhi.
    do 4 rewrite get_size_loop_next by lia.
    now rewrite get_size_loop_stop by lia.
Qed.

Lemma get_size_none (size : N) : get_size size = None <-> (1024 ^ 5 <= size)%N.
Proof.
  change (1024 ^ 5)%N with 1125899906842624%N. unfold get_size. split.
  - intros H. destruct (N.lt_ge_cases size 1125899906842624) as [Hlt|]; [|assumption].
    exfalso. revert H.
    destruct (N.lt_ge_cases size 1024);
      [now rewrite get_size_loop_stop by lia|rewrite get_size_loop_next by lia].
    destruct (N.lt_ge_cases size 1048576);
      [now rewrite get_size_loop_stop by lia|rewrite get_size_loop_next by lia].
    destruct (N.lt_ge_cases size 1073741824);
      [now rewrite get_size_loop_stop by lia|rewrite get_size_loop_next by lia].
    destruct (N.lt_ge_cases size 1099511627776);
      [now rewrite get_size_loop_stop by lia|rewrite get_size_loop_next by lia].
    now rewrite get_size_loop_stop by lia.
  - intros H. do 5 rewrite get_size_loop_next by lia. reflexivity.
Qed.

(** X17. [get_size] of a file size (an integer from 0 to [2 ^ 63 - 1])
    returns nothing exactly from [1024 ^ 5] bytes on, where its loop runs out
    of units.  Below that it returns the size in the largest unit that is
    not above it (bytes for a size below 1024), as a number [h / 100] with
    two decimals that is the nearest one to the exact quotient (at most half
    a hundredth away); a whole multiple [m] of the unit is printed as
    [m.00]. *)
Theorem X17_get_size_units (size : N) (k : nat) (unit : string) :
  (size < 2 ^ 63)%N ->
  (get_size size = None <-> 1024 ^ 5 <= size)%N
  /\ (nth_error size_units k = Some unit ->
      (k = 0%nat \/ 1024 ^ N.of_nat k <= size)%N ->
      (size < 1024 ^ N.of_nat (k + 1))%N ->
      exists h : N,
        get_size size
        = Some (PyInt.str (Z.of_N (h / 100)) +:+ "." +:+ two_digits (h mod 100)
                +:+ " " +:+ unit)
        /\ (2 * h * 1024 ^ N.of_nat k <= 2 * (100 * size) + 1024 ^ N.of_nat k)%N
        /\ (2 * (100 * size) <= (2 * h + 1) * 1024 ^ N.of_nat k)%N
        /\ (forall m : N, size = (m * 1024 ^ N.of_nat k)%N -> h = (100 * m)%N)).
Proof.
  intros _. split; [apply get_size_none|].
  intros Hu Hlo Hhi.
  assert (Hd : (0 < 1024 ^ N.of_nat k)%N).
  { apply N.neq_0_lt_0, N.pow_nonzero. discriminate. }
  exists (round_half_even (100 * size) (1024 ^ N.of_nat k)).
  split.
  { rewrite (get_size_unit size k unit Hu Hlo Hhi). unfold format_2f.
    rewrite !append_assoc. reflexivity. }
  destruct (round_half_even_bounds (100 * size) (1024 ^ N.of_nat k) Hd) as [H1 H2].
  split; [exact H1|]. split; [exact H2|].
  intros m ->. rewrite N.mul_assoc. now apply round_half_even_exact.
Qed.

Lemma X17_get_size_units_witness :
  (get_size (2 ^ 50) = None)
  /\ exists h : N,
       get_size 1536
       = Some (PyInt.str (Z.of_N (h / 100)) +:+ "." +:+ two_digits (h mod 100)
               +:+ " " +:+ "KB")
       /\ (2 * h * 1024 <= 2 * (100 * 1536) + 1024)%N
       /\ (2 * (100 * 1536) <= (2 * h + 1) * 1024)%N.
Proof.
  assert (B1 : (2 ^ 50 < 2 ^ 63)%N) by (vm_compute; reflexivity).
  assert (B2 : (1024 ^ 5 <= 2 ^ 50)%N) by (vm_compute; discriminate).
  assert (B3 : (1536 < 2 ^ 63)%N) by (vm_compute; reflexivity).
  assert (B4 : (1%nat = 0%nat \/ (1024 ^ N.of_nat 1 <= 1536)%N))
    by (right; vm_compute; discriminate).
  assert (B5 : (1536 < 1024 ^ N.of_nat (1 + 1))%N) by (vm_compute; reflexivity).
  split.
  - exact (proj2 (proj1 (X17_get_size_units (2 ^ 50) 0 "B" B1)) B2).
  - destruct (proj2 (X17_get_size_units 1536 1 "KB" B3) eq_refl B4 B5)
      as (h & E & H1 & H2 & _).
    exists h. split; [exact E|]. split; [exact H1|exact H2].
Defined.

(** ** The search *)

(** X18. [search_handler] with a database gives one of four answers.  A
    query of fewer than 3 characters is refused before the store is asked.
    A longer one is announced; then a pattern the store refuses raises; no
    matching name gives "No files found"; else the results are the lines of
    the first 50 documents whose name matches (of all of them when there
    are at most 50), one line for each, in the order of the store, each with
    the name, the size and the start link of the code of its document: from
    1 to 50 lines. *)
Theorem X18_search_handler_answers (cfg : Config) (regex : regex_engine)
    (col : list file_doc) (query : string) :
  match search_handler cfg regex (Some col) query with
  | [SearchTooShort] => (Py.len query < 3)%nat
  | [SearchSearching; SearchRaise] => (3 <= Py.len query)%nat /\ regex query = None
  | [SearchSearching; SearchNoFiles] =>
      (3 <= Py.len query)%nat
      /\ exists matches,
           regex query = Some matches
           /\ List.filter (name_matches matches) col = []
  | [SearchSearching; SearchResults q lines] =>
      q = query
      /\ (3 <= Py.len query)%nat
      /\ exists matches,
           regex query = Some matches
           /\ lines = map (search_line_of cfg)
                        (firstn 50 (List.filter (name_matches matches) col))
           /\ length lines
              = Nat.min 50 (length (List.filter (name_matches matches) col))
           /\ (1 <= length lines <= 50)%nat
  | _ => False
  end.
Proof.
  unfold search_handler, search_files.
  destruct (Py.len query <? 3)%nat eqn:E; [now apply Nat.ltb_lt in E|].
  apply Nat.ltb_ge in E.
  destruct (regex query) as [matches|] eqn:R; [|now split].
  change (fun doc : file_doc => match file_name doc with
                                | Some n => matches n
                                | None => false
                                end) with (name_matches matches).
  destruct (firstn 50 (List.filter (name_matches matches) col)) as [|d results] eqn:F.
  - split; [exact E|]. exists matches. split; [reflexivity|].
    destruct (List.filter (name_matches matches) col); [reflexivity|discriminate].
  - split; [reflexivity|]. split; [exact E|]. exists matches. split; [reflexivity|].
    split; [now rewrite F|].
    rewrite length_map, <- F, length_firstn. split; [reflexivity|].
    rewrite <- length_firstn, F. cbn [length].
    pose proof (firstn_le_length 50 (List.filter (name_matches matches) col)) as L.
    rewrite F in L. cbn [length] in L. lia.
Qed.

(** ** From the index to the delivery *)

Lemma lacks_underscore_prefix (s : string) :
  lacks "_" s = true ->
  Py.startswith s "batch_" = false /\ Py.startswith s "verify_" = false.
Proof.
  intros H. unfold Py.startswith. split.
  - destruct (String.prefix "batch_" s) eqn:E; [|reflexivity].
    apply prefix_split in E as [t ->]. unfold lacks in H.
    rewrite all_chars_app in H. discriminate.
  - destruct (String.prefix "verify_" s) eqn:E; [|reflexivity].
    apply prefix_split in E as [t ->]. unfold lacks in H.
    rewrite all_chars_app in H. discriminate.
Qed.

(** X19. The buttons [index_files] puts under a post lead back to the
    post.  They carry the start link of a payload; a user past the ban and
    the gate who sends that payload, being premium or with no shortener
    configured, is sent the copy of the post and nothing else; and the
    payload behind [verify_], as the shortener link of a free user carries
    it, is answered with the copy of the post as well. *)
Theorem X19_indexed_post_is_delivered (cfg : Config) (w : World)
    (users_col : users_collection) (batches_col : batches_collection)
    (files_col : files_collection) (post : channel_post) (markup : index_markup)
    (message : Message) (c0 : string) (rest : list string) :
  snd (index_files cfg files_col post) = Some markup ->
  post_id post <> 0 ->
  Z.abs (post_id post) < 10 ^ Z.of_nat PyInt.max_str_digits ->
  is_banned (current_user cfg users_col message) = false ->
  check_force_sub cfg w (from_user_id message) = [] ->
  exists payload,
    get_file_url markup = start_link cfg payload
    /\ share_url markup = "https://t.me/share/url?url=" +:+ start_link cfg payload
    /\ (command message = c0 :: payload :: rest ->
        SHORTENER_URLS cfg = [] \/ is_prem (current_user cfg users_col message) = true ->
        snd (start_handler cfg w users_col batches_col message)
        = start_log cfg users_col message
          ++ deliver_direct cfg w (from_user_id message) (post_id post))
    /\ (command message = c0 :: ("verify_" +:+ payload) :: rest ->
        snd (start_handler cfg w users_col batches_col message)
        = start_log cfg users_col message
          ++ deliver_verified cfg w (from_user_id message) (post_id post)).
Proof.
  intros Hm Hne Hr Hb Hgate. unfold index_files in Hm.
  destruct (post_meta post) as [[fname fsize]|]; [|discriminate].
  cbn [snd] in Hm. injection Hm as <-. exists (encode (post_id post)).
  split; [reflexivity|]. split; [reflexivity|]. split.
  - intros Hc Hfree. rewrite start_handler_events, Hb, Hc. f_equal.
    unfold dispatch. rewrite Hgate.
    destruct (lacks_underscore_prefix _ (encode_lacks_underscore (post_id post)))
      as [-> ->].
    rewrite (decode_encode _ Hr). apply Z.eqb_neq in Hne. rewrite Hne.
    destruct Hfree as [-> | Hp]; [reflexivity|].
    unfold is_prem in Hp. rewrite Hp. now rewrite andb_false_r.
  - intros Hc. now apply (verify_encoded_id cfg w users_col batches_col message c0
                            (post_id post) rest).
Qed.

Lemma X19_indexed_post_is_delivered_witness :
  exists payload,
    "https://t.me/filestore_bot?start=MTI1" = start_link cfg_plain payload
    /\ snd (start_handler cfg_plain world_quiet users_free None (start_message "MTI1"))
       = deliver_direct cfg_plain world_quiet 7 125.
Proof.
  destruct (X19_indexed_post_is_delivered cfg_plain world_quiet users_free None None
              {| post_id := 125;
                 post_document := Some {| media_name := Some "notes.pdf";
                                          media_size := 1536 |};
                 post_video := None; post_audio := None; post_photo := false |}
              {| get_file_url := "https://t.me/filestore_bot?start=MTI1";
                 share_url := "https://t.me/share/url?url=https://t.me/filestore_bot?start=MTI1" |}
              (start_message "MTI1") "start" [])
    as (payload & H1 & _ & H3 & _); try reflexivity.
  - discriminate.
  - exists payload. split; [exact H1|].
    assert (E : payload = "MTI1").
    { cbn in H1. now injection H1 as <-. }
    subst payload. apply H3; [reflexivity|now left].
Defined.

(** ** The users over many commands *)

Lemma start_handler_users (cfg : Config) (w : World) (users_col : users_collection)
    (batches_col : batches_collection) (message : Message) :
  fst (start_handler cfg w users_col batches_col message)
  = fst (add_user cfg users_col (from_user_id message) (first_name message)).
Proof.
  unfold start_handler.
  now destruct (add_user cfg users_col (from_user_id message) (first_name message)).
Qed.

Lemma find_user_known_In (col : list user_doc) (user_id : Z) (u : user_doc) :
  find_user col user_id = Some u -> In user_id (map _id col).
Proof.
  unfold find_user. intros H. apply find_some in H as [H1 H2].
  apply Z.eqb_eq in H2. subst user_id. now apply in_map.
Qed.

Lemma find_user_None_iff (col : list user_doc) (user_id : Z) :
  find_user col user_id = None <-> ~ In user_id (map _id col).
Proof.
  split; [apply find_user_In|]. intros H.
  destruct (find_user col user_id) as [u|] eqn:E; [|reflexivity].
  now apply find_user_known_In in E.
Qed.

(** X20. Over any sequence of [/start] commands, on a store with distinct
    ids: the ids stay distinct, so the audience of a broadcast holds every
    user once and the total of the statistics is their number; the stored
    users are those of before and the senders of the commands; no record of
    before is changed (no ban is lifted, no premium flag is given or taken),
    and every user stored by a command is stored as neither premium nor
    banned, however often and with whatever payload they write. *)
Theorem X20_starts_store_each_user_once (cfg : Config) (w : World)
    (batches_col : batches_collection) (messages : list Message) (col : list user_doc) :
  NoDup (map _id col) ->
  exists col',
    run_starts cfg w batches_col (Some col) messages = Some col'
    /\ NoDup (get_all_users (Some col'))
    /\ get_total_users (Some col') = length (get_all_users (Some col'))
    /\ (forall user_id,
          In user_id (get_all_users (Some col'))
          <-> In user_id (map _id col) \/ In user_id (map from_user_id messages))
    /\ (forall user_id u,
          find_user col user_id = Some u -> find_user col' user_id = Some u)
    /\ (forall user_id u,
          find_user col user_id = None -> find_user col' user_id = Some u ->
          is_premium u = false /\ banned u = false).
Proof.
  unfold run_starts, get_all_users, get_total_users.
  revert col. induction messages as [|m ms IH]; intros col Hnd.
  - exists col. cbn [fold_left map]. split; [reflexivity|]. split; [exact Hnd|].
    split; [now rewrite length_map|]. split; [intros; cbn [In]; tauto|].
    split; [auto|congruence].
  - cbn [fold_left map]. rewrite start_handler_users. unfold add_user.
    destruct (find_user col (from_user_id m)) as [u0|] eqn:Hf; cbn [fst].
    + destruct (IH col Hnd) as (col' & E & H1 & H2 & H3 & H4 & H5).
      exists col'. split; [exact E|]. split; [exact H1|]. split; [exact H2|].
      split; [|split; [exact H4|exact H5]].
      intros user_id. rewrite H3. apply find_user_known_In in Hf.
      cbn [In]. intuition congruence.
    + set (new := {| _id := from_user_id m; name := first_name m;
                     is_premium := false; banned := false |}).
      assert (Hnd' : NoDup (map _id (col ++ [new]))).
      { rewrite map_app. cbn [map]. apply NoDup_app. split; [exact Hnd|]. split.
        - intros x Hx%list_elem_of_In Hy%list_elem_of_In. destruct Hy as [<-|[]].
          now apply (find_user_In col _ Hf).
        - apply NoDup_singleton. }
      destruct (IH (col ++ [new]) Hnd') as (col' & E & H1 & H2 & H3 & H4 & H5).
      exists col'. split; [exact E|]. split; [exact H1|]. split; [exact H2|].
      split; [|split].
      * intros user_id. rewrite H3, map_app, in_app_iff. cbn [map In _id new].
        tauto.
      * intros user_id u Hu. apply H4. now apply find_user_app_known.
      * intros user_id u Hnone Hsome.
        destruct (Z.eq_dec user_id (from_user_id m)) as [->|Hne].
        -- assert (Hnew : find_user (col ++ [new]) (from_user_id m) = Some new)
             by (apply (find_user_app_new col new); exact Hf).
           apply H4 in Hnew. rewrite Hnew in Hsome. injection Hsome as <-.
           split; reflexivity.
        -- apply (H5 user_id u); [|exact Hsome].
           rewrite (find_user_app_other col new user_id); [exact Hnone|exact Hne].
Qed.

Lemma X20_starts_store_each_user_once_witness :
  exists col',
    run_starts cfg_plain world_quiet None users_premium
      [start_message "MTIz";
       {| from_user_id := 8; first_name := "Bela"; command := ["start"];
          reply_to_message := None |};
       start_message "batch_AAAAAAAA";
       {| from_user_id := 8; first_name := "B."; command := ["start"; "MTIz"];
          reply_to_message := None |}]
    = Some col'
    /\ NoDup (get_all_users (Some col'))
    /\ find_user col' 7
       = Some {| _id := 7; name := "Asha"; is_premium := true; banned := false |}.
Proof.
  assert (Hnd : NoDup (map _id [{| _id := 7; name := "Asha";
                                    is_premium := true; banned := false |}])).
  { cbn [map _id]. apply NoDup_singleton. }
  destruct (X20_starts_store_each_user_once cfg_plain world_quiet None
              [start_message "MTIz";
               {| from_user_id := 8; first_name := "Bela"; command := ["start"];
                  reply_to_message := None |};
               start_message "batch_AAAAAAAA";
               {| from_user_id := 8; first_name := "B."; command := ["start"; "MTIz"];
                  reply_to_message := None |}] _ Hnd) as (col' & E & H1 & _ & _ & H4 & _).
  exists col'. split; [exact E|]. split; [exact H1|]. apply H4. reflexivity.
Defined.

(** ** The fallback link of "Join Channel" *)

Lemma uint_value_acc (d : uint) (acc : N) :
  uint_value d acc = (acc * 10 ^ N.of_nat (nb_digits d) + uint_value d 0)%N.
Proof.
  revert acc. induction d as [|d IH|d IH|d IH|d IH|d IH|d IH|d IH|d IH|d IH|d IH];
    intros acc; cbn [nb_digits uint_value];
    [ cbn; lia | .. ];
    rewrite Nat2N.inj_succ, N.pow_succ_r', (IH (10 * acc + _)%N), (IH (10 * 0 + _)%N);
    lia.
Qed.

Lemma uint_value_upper (d : uint) (acc : N) :
  (uint_value d acc < (acc + 1) * 10 ^ N.of_nat (nb_digits d))%N.
Proof.
  revert acc. induction d as [|d IH|d IH|d IH|d IH|d IH|d IH|d IH|d IH|d IH|d IH];
    intros acc; cbn [nb_digits uint_value];
    [ cbn; lia | .. ];
    rewrite Nat2N.inj_succ, N.pow_succ_r';
    (eapply N.lt_le_trans; [apply IH|]; nia).
Qed.

Lemma pos_uint_value (p : positive) : uint_value (Pos.to_uint p) 0 = Npos p.
Proof.
  rewrite uint_value_of_uint. exact (DecimalPos.Unsigned.of_to p).
Qed.

(** A number of exactly [k] digits has [k] digits. *)
Lemma nb_digits_exact (p : positive) (k : nat) :
  (10 ^ N.of_nat k <= 10 * Npos p)%N -> (Npos p < 10 ^ N.of_nat k)%N ->
  nb_digits (Pos.to_uint p) = k.
Proof.
  intros Hlo Hhi. pose proof (nb_digits_bound p k Hhi) as Hle.
  pose proof (uint_value_upper (Pos.to_uint p) 0) as Hup.
  rewrite pos_uint_value in Hup.
  destruct (Nat.eq_dec (nb_digits (Pos.to_uint p)) k) as [|Hne]; [assumption|exfalso].
  assert (Hk : (nb_digits (Pos.to_uint p) + 1 <= k)%nat) by lia.
  assert (Hpow : (10 ^ N.of_nat (nb_digits (Pos.to_uint p) + 1) <= 10 ^ N.of_nat k)%N)
    by (apply N.pow_le_mono_r; lia).
  rewrite Nat2N.inj_add, N.pow_add_r in Hpow. change (10 ^ N.of_nat 1)%N with 10%N in Hpow.
  lia.
Qed.

(** The digits of [100 * 10 ^ k + p] for [p] of [k] digits are [100] and
    the digits of [p]. *)
Lemma to_uint_prefix_100 (p : positive) :
  N.to_uint (100 * 10 ^ N.of_nat (nb_digits (Pos.to_uint p)) + Npos p)
  = D1 (D0 (D0 (Pos.to_uint p))).
Proof.
  assert (E : N.of_uint (D1 (D0 (D0 (Pos.to_uint p))))
              = (100 * 10 ^ N.of_nat (nb_digits (Pos.to_uint p)) + Npos p)%N).
  { rewrite <- uint_value_of_uint. cbn [uint_value].
    rewrite uint_value_acc, pos_uint_value. reflexivity. }
  rewrite <- E, DecimalN.Unsigned.to_of. reflexivity.
Qed.

Lemma string_of_uint_nonnil (d : uint) :
  d <> Nil -> NilZero.string_of_uint d = NilEmpty.string_of_uint d.
Proof. destruct d; [congruence|reflexivity..]. Qed.

Lemma str_prefix_100 (p : positive) :
  PyInt.str (- (100 * 10 ^ Z.of_nat (nb_digits (Pos.to_uint p)) + Zpos p))
  = "-100" +:+ PyInt.str (Zpos p).
Proof.
  pose proof (to_uint_prefix_100 p) as H.
  set (k := nb_digits (Pos.to_uint p)) in *.
  assert (E : 100 * 10 ^ Z.of_nat k + Zpos p
              = Z.of_N (100 * 10 ^ N.of_nat k + Npos p)).
  { rewrite N2Z.inj_add, N2Z.inj_mul, N2Z.inj_pow, nat_N_Z. reflexivity. }
  rewrite E.
  destruct (100 * 10 ^ N.of_nat k + Npos p)%N as [|q] eqn:Eq; [lia|].
  change (N.to_uint (Npos q)) with (Pos.to_uint q) in H.
  unfold PyInt.str. change (- Z.of_N (Npos q)) with (Zneg q).
  cbn [Z.to_int NilZero.string_of_int].
  rewrite H, !string_of_uint_nonnil
    by (try discriminate; apply DecimalPos.Unsigned.to_uint_nonnil).
  reflexivity.
Qed.

(** X21. The "Join Channel" button of a channel whose invite link cannot
    be read.  For a channel id written [-100] and then the [k] digits of a
    number [n] (as Telegram writes the id of the channel [n]) the button
    opens [https://t.me/c/n/1]: the handler finds [n] by cutting four
    characters off the text of the id. *)
Theorem X21_join_link_fallback (w : World) (i k : nat) (n : Z) :
  10 ^ Z.of_nat k <= 10 * n ->
  n < 10 ^ Z.of_nat k ->
  get_chat w (- (100 * 10 ^ Z.of_nat k + n)) = ChatError ->
  join_row w i (- (100 * 10 ^ Z.of_nat k + n))
  = [UrlButton (LblJoinChannel (i + 1))
       (PStr ("https://t.me/c/" +:+ PyInt.str n +:+ "/1"))].
Proof.
  intros Hlo Hhi Hchat. unfold join_row. rewrite Hchat.
  assert (Hpos : 0 < 10 ^ Z.of_nat k) by (apply Z.pow_pos_nonneg; lia).
  destruct n as [|p|p]; try lia.
  assert (Hk : nb_digits (Pos.to_uint p) = k).
  { apply nb_digits_exact.
    - apply N2Z.inj_le. rewrite N2Z.inj_mul, N2Z.inj_pow, nat_N_Z. exact Hlo.
    - apply N2Z.inj_lt. rewrite N2Z.inj_pow, nat_N_Z. exact Hhi. }
  rewrite <- Hk, str_prefix_100. reflexivity.
Qed.

Lemma X21_join_link_fallback_witness :
  join_row world_quiet 0 (-1001234567890)
  = [UrlButton (LblJoinChannel 1) (PStr "https://t.me/c/1234567890/1")].
Proof.
  assert (B1 : 10 ^ Z.of_nat 10 <= 10 * 1234567890) by (vm_compute; discriminate).
  assert (B2 : 1234567890 < 10 ^ Z.of_nat 10) by (vm_compute; reflexivity).
  exact (X21_join_link_fallback world_quiet 0 10 1234567890 B1 B2 eq_refl).
Defined.

(** ** A link that does not decode *)

(** X22. A code that decodes to 0 is answered with "Invalid Link" and
    nothing else: nothing is copied, and the shortener is not called even
    for a free user with a shortener configured.  The code is the whole
    payload when the payload starts with neither [batch_] nor [verify_], and
    for a payload [verify_<t>] it is [t] up to its first underscore (all of
    [t] when it has none). *)
Theorem X22_invalid_link (cfg : Config) (w : World) (users_col : users_collection)
    (batches_col : batches_collection) (message : Message) (c0 code : string)
    (rest : list string) :
  is_banned (current_user cfg users_col message) = false ->
  check_force_sub cfg w (from_user_id message) = [] ->
  decode code = 0 ->
  (command message = c0 :: code :: rest
   /\ Py.startswith code "batch_" = false
   /\ Py.startswith code "verify_" = false)
  \/ (exists t, command message = c0 :: ("verify_" +:+ t) :: rest
                /\ Py.index (Py.split "_" t) 0 = Some code) ->
  snd (start_handler cfg w users_col batches_col message)
  = start_log cfg users_col message ++ [Reply TInvalidLink []].
Proof.
  intros Hb Hgate Hd [(Hc & H1 & H2)|(t & Hc & Ht)].
  - rewrite start_handler_events, Hb, Hc. f_equal. unfold dispatch.
    now rewrite Hgate, H1, H2, Hd.
  - rewrite (verify_mode_events cfg w users_col batches_col message c0 t code rest
               Hb Hc Hgate Ht).
    now rewrite Hd.
Qed.

Lemma X22_invalid_link_witness :
  decode "a_b" = 0
  /\ snd (start_handler cfg_shortener world_quiet users_free None (start_message "a_b"))
     = [Reply TInvalidLink []]
  /\ decode "M" = 0
  /\ snd (start_handler cfg_shortener world_quiet users_free None
            (start_message "verify_M_Tz"))
     = [Reply TInvalidLink []].
Proof.
  split; [reflexivity|]. split; [|split; [reflexivity|]].
  - exact (X22_invalid_link cfg_shortener world_quiet users_free None
             (start_message "a_b") "start" "a_b" [] eq_refl eq_refl eq_refl
             (or_introl (conj eq_refl (conj eq_refl eq_refl)))).
  - exact (X22_invalid_link cfg_shortener world_quiet users_free None
             (start_message "verify_M_Tz") "start" "M" [] eq_refl eq_refl eq_refl
             (or_intror (ex_intro _ "M_Tz" (conj eq_refl eq_refl)))).
Defined.

(** ** From the index to the search *)

Lemma filter_app_one (P : file_doc -> bool) (col : list file_doc) (d : file_doc) :
  P d = true -> List.filter P (col ++ [d]) = List.filter P col ++ [d].
Proof. intros H. rewrite List.filter_app. cbn [List.filter]. now rewrite H. Qed.

(** X23. A post that is indexed is found.  After [index_files] has
    stored a post with a name under a code that was not stored before, a
    query of at least 3 characters whose pattern matches the name, with
    fewer than 50 matching files before, gives results that hold the line of
    the post: its name, its size as [get_size] prints it, and the start link
    of its token. *)
Theorem X23_indexed_post_is_found (cfg : Config) (regex : regex_engine)
    (col : list file_doc) (post : channel_post) (n : string) (fsize : N)
    (query : string) (matches : string -> bool) :
  post_meta post = Some (Some n, fsize) ->
  find_file col (encode (post_id post)) = None ->
  (3 <= Py.len query)%nat ->
  regex query = Some matches ->
  matches n = true ->
  (length (List.filter (name_matches matches) col) < 50)%nat ->
  exists lines,
    search_handler cfg regex (fst (index_files cfg (Some col) post)) query
    = [SearchSearching; SearchResults query lines]
    /\ In {| line_name := Some n;
             line_link := start_link cfg (encode (post_id post));
             line_size := get_size fsize |} lines.
Proof.
  intros Hmeta Hfresh Hlen Hre Hmatch Hfew.
  unfold index_files. rewrite Hmeta. cbn [fst]. unfold save_file_to_db. rewrite Hfresh.
  set (new := {| msg_id := post_id post; file_name := Some n;
                 code := encode (post_id post); file_size := get_size fsize |}).
  unfold search_handler, search_files. apply Nat.ltb_ge in Hlen. rewrite Hlen, Hre.
  change (fun doc : file_doc => match file_name doc with
                                | Some n => matches n
                                | None => false
                                end) with (name_matches matches).
  rewrite (filter_app_one (name_matches matches) col new Hmatch).
  rewrite firstn_all2 by (rewrite length_app; cbn [length]; lia).
  destruct (List.filter (name_matches matches) col ++ [new]) as [|d results] eqn:E.
  { now destruct (List.filter (name_matches matches) col). }
  eexists. split; [reflexivity|]. rewrite <- E.
  change {| line_name := Some n; line_link := start_link cfg (encode (post_id post));
            line_size := get_size fsize |} with (search_line_of cfg new).
  apply (in_map (search_line_of cfg)). apply in_or_app. right. now left.
Qed.

Lemma X23_indexed_post_is_found_witness :
  exists lines,
    search_handler cfg_plain regex_plain
      (fst (index_files cfg_plain (Some files_two)
              {| post_id := 125;
                 post_document := Some {| media_name := Some "holiday notes.pdf";
                                          media_size := 1536 |};
                 post_video := None; post_audio := None; post_photo := false |}))
      "holiday"
    = [SearchSearching; SearchResults "holiday" lines]
    /\ In {| line_name := Some "holiday notes.pdf";
             line_link := "https://t.me/filestore_bot?start=MTI1";
             line_size := Some "1.50 KB" |} lines.
Proof.
  assert (B : (length (List.filter (name_matches (occurs "holiday")) files_two) < 50)%nat)
    by (vm_compute; lia).
  exact (X23_indexed_post_is_found cfg_plain regex_plain files_two
           {| post_id := 125;
              post_document := Some {| media_name := Some "holiday notes.pdf";
                                       media_size := 1536 |};
              post_video := None; post_audio := None; post_photo := false |}
           "holiday notes.pdf" 1536 "holiday" (occurs "holiday")
           eq_refl eq_refl ltac:(vm_compute; lia) eq_refl eq_refl B).
Defined.
